(** * Force-plate (centre-of-pressure) preprocessing: a shallow embedding

    This development embeds [shared/force_preprocessing/COP_functions.py]
    (class [ForcePlateProcessor]) and proves properties of its metadata
    parser, signal extractor, windowing step, filter front-end and batch
    aggregator, and of the summary table and the two script functions
    [main] and [test_single_file].

    Conventions of the embedding:
    - text is a [string] whose characters are the code points 0..255 of the
      decoded file (the character classes of [str.strip], [\s] and [\d]
      are the ones CPython uses on that range);
    - a Python [float] and a [numpy.float64] are an IEEE 754 binary64 value,
      represented by [spec_float] with [prec = 53] and [emax = 1024];
    - a Python [int] is a [Z];
    - [print] and [warnings.warn] calls are recorded, in order, in a log,
      and are taken to succeed: the console can encode what is written and
      the warnings filter is the default one, which does not turn a warning
      into an exception;
    - exceptions are explicit: a computation yields [Ok v] or [Raise e];
    - [scipy.signal.butter] is a section variable, constrained where needed
      by a hypothesis on the number of coefficients it returns;
      [scipy.signal.filtfilt] is split into its check of the input length
      (embedded here) and its numerical kernel (a section variable);
    - [numpy.mean], [numpy.std] and [DataFrame.to_csv] are section
      variables. *)

From Stdlib Require Import ZArith List String Ascii Bool Lia Permutation.
From Stdlib Require Import SpecFloat QArith Qabs.
Import ListNotations.

Close Scope Q_scope.

Local Open Scope string_scope.
Local Open Scope list_scope.

(** ** Python strings *)

Module PyStr.

Local Open Scope nat_scope.

(** [Py_UNICODE_ISSPACE] restricted to code points below 256: the
    characters removed by [str.strip()] and matched by [\s]. *)
Definition is_space (c : ascii) : bool :=
  let n := nat_of_ascii c in
  ((9 <=? n) && (n <=? 13)) || ((28 <=? n) && (n <=? 32))
  || (n =? 133) || (n =? 160).

(** The characters matched by [\d] and accepted as digits by [int()]. *)
Definition is_digit (c : ascii) : bool :=
  let n := nat_of_ascii c in (48 <=? n) && (n <=? 57).

Definition digit_value (c : ascii) : Z := Z.of_nat (nat_of_ascii c - 48).

(** ASCII lower-casing, used for case-insensitive matching. *)
Definition lower (c : ascii) : ascii :=
  let n := nat_of_ascii c in
  if (65 <=? n) && (n <=? 90) then ascii_of_nat (n + 32) else c.

Fixpoint lstrip (s : string) : string :=
  match s with
  | String c s' => if is_space c then lstrip s' else s
  | EmptyString => EmptyString
  end.

Fixpoint rev_onto (s acc : string) : string :=
  match s with
  | EmptyString => acc
  | String c s' => rev_onto s' (String c acc)
  end.

Definition rev (s : string) : string := rev_onto s EmptyString.

(** [s.strip()] *)
Definition strip (s : string) : string := rev (lstrip (rev (lstrip s))).

(** [s.split(sep)] for a one-character separator: always at least one
    field, empty fields are kept. *)
Fixpoint split (sep : ascii) (s : string) : list string :=
  match s with
  | EmptyString => [EmptyString]
  | String c s' =>
      if Ascii.eqb c sep then EmptyString :: split sep s'
      else match split sep s' with
           | cur :: rest => String c cur :: rest
           | [] => [String c EmptyString]
           end
  end.

(** Truthiness of a string: non-empty. *)
Definition truthy (s : string) : bool :=
  match s with EmptyString => false | String _ _ => true end.

(** Text-mode iteration over a file with universal newlines: [\r\n] and a
    lone [\r] are read as [\n]; every line but possibly the last ends with
    [\n].  [after_cr] records that the previous character was [\r]. *)
Fixpoint lines_from (after_cr : bool) (s : string) : list string :=
  match s with
  | EmptyString => []
  | String c s' =>
      if after_cr && Ascii.eqb c "010"%char then lines_from false s'
      else if Ascii.eqb c "010"%char || Ascii.eqb c "013"%char then
        String "010"%char EmptyString :: lines_from (Ascii.eqb c "013"%char) s'
      else match lines_from false s' with
           | cur :: rest => String c cur :: rest
           | [] => [String c EmptyString]
           end
  end.

Definition lines (text : string) : list string := lines_from false text.

End PyStr.

(** ** Exceptions *)

(** The exception classes that the embedded code can meet.  All of them are
    subclasses of [Exception]; [UnicodeDecodeError] is also a subclass of
    [ValueError]. *)
Inductive exn : Type :=
| ValueError
| IndexError
| KeyError
| ZeroDivisionError
| OverflowError
| OSError
| UnicodeDecodeError.

Inductive result (A : Type) : Type :=
| Ok (a : A)
| Raise (e : exn).

Arguments Ok {A} a.
Arguments Raise {A} e.

Definition is_ok {A} (r : result A) : bool :=
  match r with Ok _ => true | Raise _ => false end.

(** [isinstance(e, ValueError)], [isinstance(e, IndexError)],
    [isinstance(e, KeyError)]. *)
Definition is_ValueError (e : exn) : bool :=
  match e with ValueError | UnicodeDecodeError => true | _ => false end.

Definition is_IndexError (e : exn) : bool :=
  match e with IndexError => true | _ => false end.

Definition is_KeyError (e : exn) : bool :=
  match e with KeyError => true | _ => false end.

(** ** Python numbers *)

Module PyNum.

Local Open Scope Z_scope.

Definition float : Type := spec_float.

Definition prec : Z := 53.
Definition emax : Z := 1024.

Definition nan : float := S754_nan.

Definition is_nan (x : float) : bool :=
  match x with S754_nan => true | _ => false end.

Definition is_zero (x : float) : bool :=
  match x with S754_zero _ => true | _ => false end.

Definition is_infinite (x : float) : bool :=
  match x with S754_infinity _ => true | _ => false end.

(** The binary64 nearest to the integer [z] (ties to even). *)
Definition round_Z (z : Z) : float := binary_normalize prec emax z 0 false.

(** [x <= y] on floats; false as soon as one side is NaN. *)
Definition le (x y : float) : bool := SFleb x y.

(** [x >= y] on floats. *)
Definition ge (x y : float) : bool := SFleb y x.

(** Conversion of an [int] operand to [float] in mixed arithmetic. *)
Definition float_of_int (z : Z) : result float :=
  let r := round_Z z in
  if is_infinite r then Raise OverflowError else Ok r.

(** [a / b] on two [int]s: the correctly rounded quotient. *)
Definition int_truediv (a b : Z) : result float :=
  if b =? 0 then Raise ZeroDivisionError
  else
    let neg := xorb (a <? 0) (b <? 0) in
    match Z.abs a, Z.abs b with
    | Zpos ma, Zpos mb =>
        let r := SFdiv prec emax (S754_finite neg ma 0) (S754_finite false mb 0) in
        if is_infinite r then Raise OverflowError else Ok r
    | _, _ => Ok (S754_zero neg)
    end.

(** [a / b] on two [float]s. *)
Definition float_truediv (a b : float) : result float :=
  if is_zero b then Raise ZeroDivisionError else Ok (SFdiv prec emax a b).

(** [a / b] with [a] an [int] and [b] a [float]. *)
Definition int_float_truediv (a : Z) (b : float) : result float :=
  match float_of_int a with
  | Ok fa => float_truediv fa b
  | Raise e => Raise e
  end.

(** *** [int(s)] on a string of decimal digits *)

Fixpoint digits_value (s : string) (acc : Z) : Z :=
  match s with
  | EmptyString => acc
  | String c s' => digits_value s' (10 * acc + PyStr.digit_value c)
  end.

(** [max_str_digits] is [sys.get_int_max_str_digits()]: when positive, a
    string with more digits than that is refused with [ValueError]; [0]
    disables the limit (the behaviour of interpreters without it). *)
Definition int_of_digits (max_str_digits : nat) (s : string) : result Z :=
  if (0 <? max_str_digits)%nat && (max_str_digits <? String.length s)%nat
  then Raise ValueError
  else Ok (digits_value s 0).

(** *** [float(s)] *)

(** Underscores are accepted only between two digits and are then
    removed; [prev] is the previous character. *)
Fixpoint remove_underscores (prev : ascii) (s : string) : option string :=
  match s with
  | EmptyString => if Ascii.eqb prev "_" then None else Some EmptyString
  | String c s' =>
      if Ascii.eqb c "_" then
        if PyStr.is_digit prev then remove_underscores c s' else None
      else if Ascii.eqb prev "_" && negb (PyStr.is_digit c) then None
      else option_map (String c) (remove_underscores c s')
  end.

Definition parse_sign (s : string) : bool * string :=
  match s with
  | String "-" s' => (true, s')
  | String "+" s' => (false, s')
  | _ => (false, s)
  end.

(** Reads a maximal run of digits: the value accumulated onto [acc], the
    number of digits read added to [n], and the rest of the string. *)
Fixpoint scan_digits (s : string) (acc n : Z) : Z * Z * string :=
  match s with
  | String c s' =>
      if PyStr.is_digit c
      then scan_digits s' (10 * acc + PyStr.digit_value c) (n + 1)
      else (acc, n, s)
  | EmptyString => (acc, n, s)
  end.

(** The exponent part: [e] or [E], an optional sign, at least one digit,
    up to the end of the string. *)
Definition parse_exponent (s : string) : option Z :=
  match s with
  | EmptyString => Some 0
  | String c s' =>
      if Ascii.eqb (PyStr.lower c) "e" then
        let '(neg, ds) := parse_sign s' in
        match scan_digits ds 0 0 with
        | (v, n, EmptyString) =>
            if 0 <? n then Some (if neg then - v else v) else None
        | _ => None
        end
      else None
  end.

(** A decimal literal: digits, an optional point, digits (at least one
    digit in all), an optional exponent.  The result [(m, e)] stands for
    [m * 10^e]. *)
Definition parse_decimal (s : string) : option (Z * Z) :=
  let '(m1, n1, r1) := scan_digits s 0 0 in
  let '(m2, n2, r2) :=
    match r1 with
    | String "." r => scan_digits r m1 0
    | _ => (m1, 0, r1)
    end in
  if 0 <? n1 + n2 then
    match parse_exponent r2 with
    | Some ex => Some (m2, ex - n2)
    | None => None
    end
  else None.

Fixpoint lower_string (s : string) : string :=
  match s with
  | EmptyString => EmptyString
  | String c s' => String (PyStr.lower c) (lower_string s')
  end.

(** [inf], [infinity] and [nan], in any letter case. *)
Definition parse_special (neg : bool) (s : string) : option float :=
  let l := lower_string s in
  if String.eqb l "inf" || String.eqb l "infinity" then Some (S754_infinity neg)
  else if String.eqb l "nan" then Some S754_nan
  else None.

(** The binary64 nearest to [(-1)^neg * m * 10^e] (ties to even), with
    overflow to an infinity and underflow to a signed zero. *)
Definition of_decimal (neg : bool) (m e : Z) : float :=
  match m with
  | Zpos p =>
      if 0 <=? e
      then binary_normalize prec emax (if neg then - (m * 10 ^ e) else m * 10 ^ e) 0 neg
      else SFdiv prec emax (S754_finite neg p 0)
                 (S754_finite false (Z.to_pos (10 ^ (- e))) 0)
  | _ => S754_zero neg
  end.

(** [float(s)] for a [str] argument. *)
Definition float_of_string (s : string) : result float :=
  match remove_underscores "000" s with
  | None => Raise ValueError
  | Some s1 =>
      let '(neg, body) := parse_sign (PyStr.strip s1) in
      match parse_special neg body with
      | Some v => Ok v
      | None =>
          match parse_decimal body with
          | Some (m, e) => Ok (of_decimal neg m e)
          | None => Raise ValueError
          end
      end
  end.

End PyNum.

(** ** The regular expressions of the processor *)

Module Re.

(** [$] without [re.MULTILINE]: the end of the string, or just before a
    newline that ends the string. *)
Definition at_end (s : string) : bool :=
  match s with
  | EmptyString => true
  | String "010" EmptyString => true
  | _ => false
  end.

(** Removes the literal [lit] from the start of [s]. *)
Fixpoint strip_prefix (lit s : string) : option string :=
  match lit, s with
  | EmptyString, _ => Some s
  | String a lit', String c s' =>
      if Ascii.eqb a c then strip_prefix lit' s' else None
  | String _ _, EmptyString => None
  end.

(** The text matched by [exgm\d{3}] at the start of [s], if any. *)
Definition match_exgm (s : string) : option string :=
  match strip_prefix "exgm" s with
  | Some (String d1 (String d2 (String d3 _))) =>
      if PyStr.is_digit d1 && PyStr.is_digit d2 && PyStr.is_digit d3
      then Some ("exgm" ++ String d1 (String d2 (String d3 EmptyString)))%string
      else None
  | _ => None
  end.

Fixpoint drop (n : nat) (s : string) : string :=
  match n, s with
  | S n', String _ s' => drop n' s'
  | _, _ => s
  end.

(** [re.match(r'^exgm\d{3}$', s)] finds a match. *)
Definition fullmatch_subject (s : string) : bool :=
  match match_exgm s with
  | Some _ => at_end (drop 7 s)
  | None => false
  end.

(** [re.search(r'exgm\d{3}', s)]: the leftmost match, [m.group()]. *)
Fixpoint search_exgm (s : string) : option string :=
  match match_exgm s with
  | Some m => Some m
  | None =>
      match s with
      | EmptyString => None
      | String _ s' => search_exgm s'
      end
  end.

Fixpoint take_digits (s : string) : string :=
  match s with
  | String c s' => if PyStr.is_digit c then String c (take_digits s') else EmptyString
  | EmptyString => EmptyString
  end.

(** [re.search(r'(\d+)', s)]: the leftmost maximal run of digits,
    [m.group(1)]. *)
Fixpoint search_digits (s : string) : option string :=
  match s with
  | EmptyString => None
  | String c s' =>
      if PyStr.is_digit c then Some (String c (take_digits s'))
      else search_digits s'
  end.

(** Removes the literal [lit] (given in lower case) from the start of
    [s], ignoring letter case. *)
Fixpoint strip_prefix_nocase (lit s : string) : option string :=
  match lit, s with
  | EmptyString, _ => Some s
  | String a lit', String c s' =>
      if Ascii.eqb a (PyStr.lower c) then strip_prefix_nocase lit' s' else None
  | String _ _, EmptyString => None
  end.

(** [[12]-[123]$] *)
Definition match_numbers (s : string) : bool :=
  match s with
  | String a (String "-" (String b rest)) =>
      (Ascii.eqb a "1" || Ascii.eqb a "2")
      && (Ascii.eqb b "1" || Ascii.eqb b "2" || Ascii.eqb b "3")
      && at_end rest
  | _ => false
  end.

(** [re.match(r'^(Shoulder|Tandem)\s+[12]-[123]$', s, re.IGNORECASE)]
    finds a match. *)
Definition fullmatch_trial (s : string) : bool :=
  let after_name :=
    match strip_prefix_nocase "shoulder" s with
    | Some r => Some r
    | None => strip_prefix_nocase "tandem" s
    end in
  match after_name with
  | Some (String c r) => PyStr.is_space c && match_numbers (PyStr.lstrip r)
  | _ => false
  end.

End Re.

(** ** Console output, warnings and the exception monad *)

(** A [pathlib.Path]: its [parent] and its [name]. *)
Record Path : Type := { parent : string; name : string }.

(** What the processor writes, one constructor per message template of the
    source; the arguments are the values interpolated into the message (a
    [Path] where the source interpolates a [Path]). *)
Inductive message : Type :=
| MsgProcessing (name : string)
| MsgTotalRows (n : nat)
| MsgRateUnparsed (default : Z)
| MsgRateUnread (default : Z)
| MsgRateMismatch (rate expected : Z)
| MsgSubjectUnread
| MsgSubjectInvalid (subject_id : string)
| MsgSubjectFromFilename (subject_id : string)
| MsgTrialUnread
| MsgTrialUnexpected (trial_name : string)
| MsgRowsParsed (n : nat)
| MsgWindowSamples (n : nat)
| MsgNoDataInWindow (start_time end_time : Z)
| MsgFilterDone
| MsgErrorDetails (e : exn)
| MsgFound (session : string) (n : nat)
| MsgBaselineDirMissing (directory : Path)
| MsgInterventionDirMissing (directory : Path)
| MsgNoFiles
| MsgFileError (name : string) (e : exn)
| MsgRule
| MsgComplete
| MsgSuccessful (n : nat)
| MsgFailed (n : nat)
| MsgTotalSubjects (n : nat).

(** [Print m] is a call of [print]; [Warn m] a call of [warnings.warn]. *)
Inductive event : Type :=
| Print (m : message)
| Warn (m : message).

(** A computation that writes to the log and returns or raises. *)
Definition M (A : Type) : Type := (list event * result A)%type.

Definition ret {A} (a : A) : M A := ([], Ok a).

Definition raise {A} (e : exn) : M A := ([], Raise e).

Definition lift {A} (r : result A) : M A := ([], r).

Definition bind {A B} (m : M A) (f : A -> M B) : M B :=
  match m with
  | (l, Ok a) => let (l', r) := f a in (l ++ l', r)
  | (l, Raise e) => (l, Raise e)
  end.

Definition print (m : message) : M unit := ([Print m], Ok tt).

Definition warn (m : message) : M unit := ([Warn m], Ok tt).

(** [try: body  except <classes> : handler]; [catches e] tells whether [e]
    is an instance of one of the listed classes. *)
Definition try_except {A} (body : M A) (catches : exn -> bool)
           (handler : exn -> M A) : M A :=
  match body with
  | (l, Raise e) =>
      if catches e then let (l', r) := handler e in (l ++ l', r)
      else (l, Raise e)
  | (l, Ok a) => (l, Ok a)
  end.

Declare Scope py_scope.
Delimit Scope py_scope with py.
Notation "x <- m ;; k" := (bind m (fun x => k))
  (at level 61, m at next level, right associativity) : py_scope.
Notation "m ;; k" := (bind m (fun _ => k))
  (at level 61, right associativity) : py_scope.
Notation "' pat <- m ;; k" := (bind m (fun x => match x with pat => k end))
  (at level 61, pat pattern, m at next level, right associativity) : py_scope.

Definition log_of {A} (m : M A) : list event := fst m.
Definition outcome {A} (m : M A) : result A := snd m.

(** ** Lists and arrays *)

(** [l[i]] for a non-negative index. *)
Definition list_index {A} (l : list A) (i : nat) : result A :=
  match nth_error l i with
  | Some x => Ok x
  | None => Raise IndexError
  end.

(** [l[n:]] *)
Definition slice_from {A} (n : nat) (l : list A) : list A := skipn n l.

Module Np.

Import PyNum.

(** [a >= c] and [a <= c] for a float array [a] and an [int] scalar [c]. *)
Definition ge_scalar (a : list float) (c : Z) : list bool :=
  map (fun x => ge x (round_Z c)) a.

Definition le_scalar (a : list float) (c : Z) : list bool :=
  map (fun x => le x (round_Z c)) a.

(** [m1 & m2] on boolean arrays of one shape. *)
Fixpoint logical_and (m1 m2 : list bool) : result (list bool) :=
  match m1, m2 with
  | [], [] => Ok []
  | b1 :: m1', b2 :: m2' =>
      match logical_and m1' m2' with
      | Ok r => Ok ((b1 && b2) :: r)
      | Raise e => Raise e
      end
  | _, _ => Raise ValueError
  end.

(** [a[mask]] for a boolean [mask]: the entries where the mask is true;
    [IndexError] unless the mask has the length of the array. *)
Fixpoint bool_index {A} (a : list A) (mask : list bool) : result (list A) :=
  match a, mask with
  | [], [] => Ok []
  | x :: a', b :: mask' =>
      match bool_index a' mask' with
      | Ok r => Ok (if b then x :: r else r)
      | Raise e => Raise e
      end
  | _, _ => Raise IndexError
  end.

End Np.

(** ** Trial records *)

Record TrialData : Type := {
  subject_id : string;
  trial_name : string;
  session : string;
  sampling_rate : Z;
  time_raw : list PyNum.float;
  ml_raw : list PyNum.float;
  ap_raw : list PyNum.float;
  time_trimmed : list PyNum.float;
  ml_filtered : list PyNum.float;
  ap_filtered : list PyNum.float
}.

(** The constants set by [ForcePlateProcessor.__init__]. *)
Definition expected_sampling_rate : Z := 1500.
Definition filter_cutoff : Z := 5.
Definition filter_order : nat := 4.
Definition start_time : Z := 10.
Definition end_time : Z := 30.

(** [validate_subject_id] and [validate_trial_name] *)
Definition validate_subject_id (subject_id : string) : bool :=
  Re.fullmatch_subject subject_id.

Definition validate_trial_name (trial_name : string) : bool :=
  Re.fullmatch_trial trial_name.

(** ** [ForcePlateProcessor] *)

Section Processor.

Local Open Scope py_scope.
Import PyNum.

(** The interpreter's limit on the digits of [int(str)]. *)
Variable max_str_digits : nat.

(** The file system: the decoded text of a file ([utf-8-sig]), or the
    exception raised while opening or reading it. *)
Variable read_text : Path -> result string.

(** [scipy.signal.butter(N, Wn, btype='low', analog=False)]: the
    coefficient arrays [(b, a)], or an exception for a critical frequency
    it refuses. *)
Variable butter : nat -> float -> result (list float * list float).

(** The filtering proper of [scipy.signal.filtfilt(b, a, x)], once its
    argument check has passed. *)
Variable filtfilt_kernel :
  list float -> list float -> list float -> result (list float).

(** [scipy.signal.filtfilt(b, a, x)] with its default padding
    ([padtype='odd'], [padlen = 3 * max(len(a), len(b))]): the input has
    to be longer than the padding. *)
Definition filtfilt (b a x : list float) : result (list float) :=
  if (List.length x <=? 3 * Nat.max (List.length a) (List.length b))%nat
  then Raise ValueError
  else filtfilt_kernel b a x.

(** The value of [normalized_cutoff] in [apply_butterworth_filter]. *)
Definition normalized_cutoff (sampling_rate : Z) : result float :=
  match int_truediv sampling_rate 2 with
  | Ok nyquist => int_float_truediv filter_cutoff nyquist
  | Raise e => Raise e
  end.

Definition apply_butterworth_filter (data : list float) (sampling_rate : Z)
  : M (list float) :=
  nyquist <- lift (int_truediv sampling_rate 2) ;;
  normalized_cutoff <- lift (int_float_truediv filter_cutoff nyquist) ;;
  '(b, a) <- lift (butter filter_order normalized_cutoff) ;;
  filtered_data <- lift (filtfilt b a data) ;;
  ret filtered_data.

(** The rows of a file: each line stripped, split at commas, each cell
    stripped. *)
Definition tokenize (text : string) : list (list string) :=
  map (fun line => map PyStr.strip (PyStr.split "," (PyStr.strip line)))
      (PyStr.lines text).

Definition metadata_row_of (all_data : list (list string)) : list string :=
  if (1 <? List.length all_data)%nat then nth 1 all_data [] else [].

(** [metadata_row[i] if len(metadata_row) > i else ""] *)
Definition cell_or_empty (metadata_row : list string) (i : nat) : M string :=
  if (i <? List.length metadata_row)%nat then lift (list_index metadata_row i)
  else ret "".

(** Step 1 of [process_csv_file]: the sampling rate (cell C2). *)
Definition read_sampling_rate (metadata_row : list string) : M Z :=
  sampling_rate <-
    try_except
      (sampling_rate_str <- cell_or_empty metadata_row 2 ;;
       match Re.search_digits sampling_rate_str with
       | Some digits => lift (int_of_digits max_str_digits digits)
       | None =>
           print (MsgRateUnparsed expected_sampling_rate) ;;
           ret expected_sampling_rate
       end)
      (fun e => is_ValueError e || is_IndexError e)
      (fun _ =>
         print (MsgRateUnread expected_sampling_rate) ;;
         ret expected_sampling_rate) ;;
  (if negb (sampling_rate =? expected_sampling_rate)%Z
   then warn (MsgRateMismatch sampling_rate expected_sampling_rate)
   else ret tt) ;;
  ret sampling_rate.

(** Step 2: the subject id (cell H2), with the file name as a backup. *)
Definition read_subject_id (filename : string) (metadata_row : list string)
  : M string :=
  subject_id <-
    try_except
      (subject_id <- cell_or_empty metadata_row 7 ;;
       ret (PyStr.strip subject_id))
      (fun e => is_IndexError e || is_KeyError e)
      (fun _ => print MsgSubjectUnread ;; ret "unknown") ;;
  if negb (validate_subject_id subject_id) then
    warn (MsgSubjectInvalid subject_id) ;;
    match Re.search_exgm filename with
    | Some m => print (MsgSubjectFromFilename m) ;; ret m
    | None => ret subject_id
    end
  else ret subject_id.

(** Step 3: the trial name (cell M2). *)
Definition read_trial_name (metadata_row : list string) : M string :=
  trial_name <-
    try_except
      (trial_name <- cell_or_empty metadata_row 12 ;;
       ret (PyStr.strip trial_name))
      (fun e => is_IndexError e || is_KeyError e)
      (fun _ => print MsgTrialUnread ;; ret "unknown") ;;
  (if negb (validate_trial_name trial_name)
   then warn (MsgTrialUnexpected trial_name)
   else ret tt) ;;
  ret trial_name.

(** [float(cell) if cell else np.nan] *)
Definition cell_to_float (cell : string) : result float :=
  if PyStr.truthy cell then float_of_string cell else Ok nan.

Definition signals : Type := (list float * list float * list float)%type.

(** One iteration of the data loop.  The three [append]s come after the
    three conversions, so a conversion that raises leaves the lists as
    they were. *)
Definition extract_row (acc : signals) (row : list string) : M signals :=
  let '(time_data, ml_data, ap_data) := acc in
  try_except
    (if (28 <=? List.length row)%nat then
       c0 <- lift (list_index row 0) ;;
       time_val <- lift (cell_to_float c0) ;;
       c26 <- lift (list_index row 26) ;;
       ml_val <- lift (cell_to_float c26) ;;
       c27 <- lift (list_index row 27) ;;
       ap_val <- lift (cell_to_float c27) ;;
       ret (time_data ++ [time_val], ml_data ++ [ml_val], ap_data ++ [ap_val])
     else ret acc)
    (fun e => is_ValueError e || is_IndexError e)
    (fun _ => ret acc).

Fixpoint for_each {A S} (body : S -> A -> M S) (l : list A) (s : S) : M S :=
  match l with
  | [] => ret s
  | x :: l' => s' <- body s x ;; for_each body l' s'
  end.

(** The Signal Extractor: the data loop over [all_data[4:]]. *)
Definition extract_signals (all_data : list (list string)) : M signals :=
  let data_rows :=
    if (4 <? List.length all_data)%nat then slice_from 4 all_data else [] in
  for_each extract_row data_rows ([], [], []).

(** [(time_data >= start_time) & (time_data <= end_time)] *)
Definition time_mask_of (time_data : list float) : result (list bool) :=
  Np.logical_and (Np.ge_scalar time_data start_time)
                 (Np.le_scalar time_data end_time).

(** Windowing: the three arrays restricted by the mask of the times. *)
Definition trim (time_data ml_data ap_data : list float) : M signals :=
  time_mask <- lift (time_mask_of time_data) ;;
  time_trimmed <- lift (Np.bool_index time_data time_mask) ;;
  ml_trimmed <- lift (Np.bool_index ml_data time_mask) ;;
  ap_trimmed <- lift (Np.bool_index ap_data time_mask) ;;
  ret (time_trimmed, ml_trimmed, ap_trimmed).

(** The filtering step with its guard for an empty window. *)
Definition filter_trimmed (time_trimmed ml_trimmed ap_trimmed : list float)
           (sampling_rate : Z) : M (list float * list float) :=
  if (List.length time_trimmed =? 0)%nat then
    warn (MsgNoDataInWindow start_time end_time) ;;
    ret ([], [])
  else
    ml_filtered <- apply_butterworth_filter ml_trimmed sampling_rate ;;
    ap_filtered <- apply_butterworth_filter ap_trimmed sampling_rate ;;
    print MsgFilterDone ;;
    ret (ml_filtered, ap_filtered).

(** The body of [process_csv_file] once the rows are read. *)
Definition process_rows (filename session : string)
           (all_data : list (list string)) : M TrialData :=
  print (MsgTotalRows (List.length all_data)) ;;
  let metadata_row := metadata_row_of all_data in
  sampling_rate <- read_sampling_rate metadata_row ;;
  subject_id <- read_subject_id filename metadata_row ;;
  trial_name <- read_trial_name metadata_row ;;
  '(time_data, ml_data, ap_data) <- extract_signals all_data ;;
  print (MsgRowsParsed (List.length time_data)) ;;
  '(time_trimmed, ml_trimmed, ap_trimmed) <- trim time_data ml_data ap_data ;;
  print (MsgWindowSamples (List.length time_trimmed)) ;;
  '(ml_filtered, ap_filtered) <-
    filter_trimmed time_trimmed ml_trimmed ap_trimmed sampling_rate ;;
  ret {| subject_id := subject_id;
         trial_name := trial_name;
         session := session;
         sampling_rate := sampling_rate;
         time_raw := time_data;
         ml_raw := ml_data;
         ap_raw := ap_data;
         time_trimmed := time_trimmed;
         ml_filtered := ml_filtered;
         ap_filtered := ap_filtered |}.

(** [process_csv_file]: any exception is reported and raised again. *)
Definition process_csv_file (filepath : Path) (session : string) : M TrialData :=
  print (MsgProcessing (name filepath)) ;;
  try_except
    (text <- lift (read_text filepath) ;;
     process_rows (name filepath) session (tokenize text))
    (fun _ => true)
    (fun e => print (MsgErrorDetails e) ;; raise e).

(** *** The aggregate and the batch loop *)

(** [self.processed_data]: a [dict] from subject id to the list of that
    subject's records, in insertion order. *)
Definition dict : Type := list (string * list TrialData).

Fixpoint dict_get (k : string) (d : dict) : option (list TrialData) :=
  match d with
  | [] => None
  | (k', v) :: d' => if String.eqb k k' then Some v else dict_get k d'
  end.

(** [d[k] = v]: a present key keeps its position. *)
Fixpoint dict_set (k : string) (v : list TrialData) (d : dict) : dict :=
  match d with
  | [] => [(k, v)]
  | (k', v') :: d' =>
      if String.eqb k k' then (k, v) :: d' else (k', v') :: dict_set k v d'
  end.

(** A computation that also reads and updates [self.processed_data]; the
    updates made before an exception is raised are kept. *)
Definition SM (A : Type) : Type := dict -> (list event * result A * dict).

Definition s_ret {A} (a : A) : SM A := fun d => ([], Ok a, d).

Definition s_bind {A B} (m : SM A) (f : A -> SM B) : SM B :=
  fun d =>
    match m d with
    | (l, Ok a, d') => let '(l', r, d'') := f a d' in (l ++ l', r, d'')
    | (l, Raise e, d') => (l, Raise e, d')
    end.

Definition s_lift {A} (m : M A) : SM A := fun d => (fst m, snd m, d).

Definition s_get : SM dict := fun d => ([], Ok d, d).

(** [try: body  except Exception as e: handler] *)
Definition s_try {A} (body : SM A) (handler : exn -> SM A) : SM A :=
  fun d =>
    match body d with
    | (l, Raise e, d') => let '(l', r, d'') := handler e d' in (l ++ l', r, d'')
    | (l, Ok a, d') => (l, Ok a, d')
    end.

(** [k not in self.processed_data] *)
Definition s_missing (k : string) : SM bool :=
  fun d => ([], Ok (match dict_get k d with Some _ => false | None => true end), d).

(** [self.processed_data[k] = v] *)
Definition s_setitem (k : string) (v : list TrialData) : SM unit :=
  fun d => ([], Ok tt, dict_set k v d).

(** [self.processed_data[k].append(x)] *)
Definition s_append (k : string) (x : TrialData) : SM unit :=
  fun d =>
    match dict_get k d with
    | Some v => ([], Ok tt, dict_set k (v ++ [x]) d)
    | None => ([], Raise KeyError, d)
    end.

Declare Scope sm_scope.
Delimit Scope sm_scope with sm.
Notation "x <- m ;; k" := (s_bind m (fun x => k))
  (at level 61, m at next level, right associativity) : sm_scope.
Notation "m ;; k" := (s_bind m (fun _ => k))
  (at level 61, right associativity) : sm_scope.

Fixpoint s_for_each {A S} (body : S -> A -> SM S) (l : list A) (s : S) : SM S :=
  match l with
  | [] => s_ret s
  | x :: l' => (s' <- body s x ;; s_for_each body l' s')%sm
  end.

(** One iteration of the loop of [process_all_files]; [counts] is
    [(successful, failed)]. *)
Definition aggregate_file (counts : nat * nat) (file : Path * string)
  : SM (nat * nat) :=
  let '(successful, failed) := counts in
  let '(filepath, session) := file in
  s_try
    (trial_data <- s_lift (process_csv_file filepath session) ;;
     missing <- s_missing (subject_id trial_data) ;;
     (if missing then s_setitem (subject_id trial_data) [] else s_ret tt) ;;
     s_append (subject_id trial_data) trial_data ;;
     s_ret (S successful, failed))%sm
    (fun e =>
       (s_lift (print (MsgFileError (name filepath) e)) ;;
        s_ret (successful, S failed))%sm).

(** The directories, as the [Path] objects that the processor holds:
    whether one exists, and what [glob('*.csv')] lists in it. *)
Variable dir_exists : Path -> bool.
Variable glob_csv : Path -> list Path.

(** The files of one session directory, tagged with the session;
    [not_found] is the warning of that directory, which interpolates the
    [Path]. *)
Definition collect (directory : Path) (session : string)
           (not_found : Path -> message) : M (list (Path * string)) :=
  if dir_exists directory then
    let files := glob_csv directory in
    print (MsgFound session (List.length files)) ;;
    ret (map (fun f => (f, session)) files)
  else
    warn (not_found directory) ;;
    ret [].

(** [baseline_dir] and [intervention_dir] are [self.baseline_dir] and
    [self.intervention_dir]. *)
Definition process_all_files (baseline_dir intervention_dir : Path) : SM dict :=
  (baseline <- s_lift (collect baseline_dir "baseline" MsgBaselineDirMissing) ;;
   intervention <-
     s_lift (collect intervention_dir "intervention" MsgInterventionDirMissing) ;;
   let all_files := baseline ++ intervention in
   match all_files with
   | [] =>
       s_lift (print MsgNoFiles) ;;
       s_get
   | _ :: _ =>
       counts <- s_for_each aggregate_file all_files (0, 0)%nat ;;
       s_lift (print MsgRule) ;;
       s_lift (print MsgComplete) ;;
       s_lift (print (MsgSuccessful (fst counts))) ;;
       s_lift (print (MsgFailed (snd counts))) ;;
       processed_data <- s_get ;;
       s_lift (print (MsgTotalSubjects (List.length processed_data))) ;;
       s_lift (print MsgRule) ;;
       s_get
   end)%sm.

End Processor.

(** ** The summary table, [main] and [test_single_file] *)

(** One row of the table that [get_summary] builds. *)
Record SummaryRow : Type := {
  Subject_ID : string;
  Trial_Name : string;
  Session : string;
  Sampling_Rate : Z;
  Total_Samples : nat;
  Trimmed_Samples : nat;
  ML_Mean : PyNum.float;
  ML_Std : PyNum.float;
  AP_Mean : PyNum.float;
  AP_Std : PyNum.float
}.

Section Summary.

(** [numpy.mean] and [numpy.std] on a one-dimensional float array. *)
Variable np_mean : list PyNum.float -> PyNum.float.
Variable np_std : list PyNum.float -> PyNum.float.

(** [f(a) if len(a) > 0 else np.nan] *)
Definition stat_or_nan (f : list PyNum.float -> PyNum.float)
           (a : list PyNum.float) : PyNum.float :=
  if (0 <? List.length a)%nat then f a else PyNum.nan.

(** The dictionary appended for one trial. *)
Definition summary_row (trial : TrialData) : SummaryRow :=
  {| Subject_ID := subject_id trial;
     Trial_Name := trial_name trial;
     Session := session trial;
     Sampling_Rate := sampling_rate trial;
     Total_Samples := List.length (time_raw trial);
     Trimmed_Samples := List.length (time_trimmed trial);
     ML_Mean := stat_or_nan np_mean (ml_filtered trial);
     ML_Std := stat_or_nan np_std (ml_filtered trial);
     AP_Mean := stat_or_nan np_mean (ap_filtered trial);
     AP_Std := stat_or_nan np_std (ap_filtered trial) |}.

(** [get_summary]: the rows of the data frame, one per trial, subject by
    subject in the order of [self.processed_data]. *)
Definition get_summary (processed_data : dict) : list SummaryRow :=
  flat_map (fun item => map summary_row (snd item)) processed_data.

End Summary.

(** What [main] and [test_single_file] print themselves. *)
Inductive script_message : Type :=
| MsgSummaryHeader
| MsgSummaryTable (rows : list SummaryRow)
| MsgSummarySaved
| MsgSubjectTrials (subject_id : string) (n : nat)
| MsgTrialLine (trial_name session : string) (n : nat)
| MsgNoData
| MsgTestSuccess
| MsgTestSubject (subject_id : string)
| MsgTestTrial (trial_name : string)
| MsgTestRate (sampling_rate : Z)
| MsgTestTotal (n : nat)
| MsgTestWindow (n : nat)
| MsgTestFailed (e : exn).

(** The console of a script: the processor's events and the script's own
    lines. *)
Inductive console : Type :=
| Processor (ev : event)
| Script (m : script_message).

Section Scripts.

Variable max_str_digits : nat.
Variable read_text : Path -> result string.
Variable butter : nat -> PyNum.float -> result (list PyNum.float * list PyNum.float).
Variable filtfilt_kernel :
  list PyNum.float -> list PyNum.float -> list PyNum.float -> result (list PyNum.float).
Variable dir_exists : Path -> bool.
Variable glob_csv : Path -> list Path.
Variable np_mean : list PyNum.float -> PyNum.float.
Variable np_std : list PyNum.float -> PyNum.float.

(** [summary_df.to_csv('data/force_plate_summary.csv', index=False)]:
    writes the file or raises. *)
Variable to_csv : list SummaryRow -> result unit.

(** [Path(filepath)] *)
Variable path_of : string -> Path.

(** The lines printed for one subject at the end of [main]. *)
Definition subject_lines (item : string * list TrialData) : list console :=
  Script (MsgSubjectTrials (fst item) (List.length (snd item)))
  :: map (fun trial =>
            Script (MsgTrialLine (trial_name trial) (session trial)
                                 (List.length (time_trimmed trial))))
         (snd item).

(** [main]: a fresh processor, whose directories are
    [Path('data/baseline/')] and [Path('data/intervention/')]; the summary
    is built, printed and saved when the aggregate is not empty. *)
Definition main : list console * result dict :=
  let '(l, r, d) :=
    process_all_files max_str_digits read_text butter filtfilt_kernel
                      dir_exists glob_csv
                      (path_of "data/baseline/") (path_of "data/intervention/")
                      [] in
  match r with
  | Raise e => (map Processor l, Raise e)
  | Ok processed_data =>
      match processed_data with
      | _ :: _ =>
          let summary_df := get_summary np_mean np_std d in
          let shown := map Processor l
                       ++ [Script MsgSummaryHeader;
                           Script (MsgSummaryTable summary_df)] in
          match to_csv summary_df with
          | Raise e => (shown, Raise e)
          | Ok _ =>
              (shown ++ [Script MsgSummarySaved]
                     ++ flat_map subject_lines processed_data,
               Ok processed_data)
          end
      | [] => (map Processor l ++ [Script MsgNoData], Ok processed_data)
      end
  end.

(** ['1-' in filepath] and the like: whether [needle] occurs in [s]. *)
Fixpoint contains (needle s : string) : bool :=
  match Re.strip_prefix needle s with
  | Some _ => true
  | None =>
      match s with
      | EmptyString => false
      | String _ s' => contains needle s'
      end
  end.

(** [test_single_file]: the record, or [None] when processing raises. *)
Definition test_single_file (filepath : string)
  : list console * result (option TrialData) :=
  let session := if contains "1-" filepath then "baseline" else "intervention" in
  match process_csv_file max_str_digits read_text butter filtfilt_kernel
                         (path_of filepath) session with
  | (l, Ok trial_data) =>
      (map Processor l
       ++ [Script MsgTestSuccess;
           Script (MsgTestSubject (subject_id trial_data));
           Script (MsgTestTrial (trial_name trial_data));
           Script (MsgTestRate (sampling_rate trial_data));
           Script (MsgTestTotal (List.length (time_raw trial_data)));
           Script (MsgTestWindow (List.length (time_trimmed trial_data)))],
       Ok (Some trial_data))
  | (l, Raise e) => (map Processor l ++ [Script (MsgTestFailed e)], Ok None)
  end.

End Scripts.

(** * Properties *)

(** ** Concrete runs of the string and number primitives *)

Example strip_ex : PyStr.strip "  12 Hz  " = "12 Hz".
Proof. reflexivity. Qed.

Example split_ex : PyStr.split ","%char "a,,b," = ["a"; ""; "b"; ""].
Proof. reflexivity. Qed.

Example lines_ex :
  PyStr.lines (String "a" (String "013" (String "010" (String "b" (String "013" "c")))))
  = [String "a" (String "010" ""); String "b" (String "010" ""); "c"].
Proof. reflexivity. Qed.

Example float_of_string_ex1 :
  PyNum.float_of_string "10.5" = Ok (S754_finite false 5910974510923776 (-49)).
Proof. reflexivity. Qed.

Example float_of_string_ex2 :
  PyNum.float_of_string "-1_0e-1" = Ok (S754_finite true 4503599627370496 (-52)).
Proof. reflexivity. Qed.

Example float_of_string_ex3 :
  map PyNum.float_of_string ["abc"; "1e"; "."; "1_"; ""; "1 2"; "0x10"; "--1"; "infinit"]
  = repeat (Raise ValueError) 9.
Proof. reflexivity. Qed.

Example float_of_string_ex4 :
  map PyNum.float_of_string ["NaN"; "-Infinity"; "1e400"; "-0"; ".5"; "5."; "1e-400"]
  = [Ok S754_nan; Ok (S754_infinity true); Ok (S754_infinity false);
     Ok (S754_zero true); Ok (S754_finite false 4503599627370496 (-53));
     Ok (S754_finite false 5629499534213120 (-50)); Ok (S754_zero false)].
Proof. reflexivity. Qed.

Example int_truediv_ex :
  PyNum.int_truediv 1500 2 = Ok (S754_finite false 6597069766656000 (-43)).
Proof. reflexivity. Qed.

Example search_digits_ex : Re.search_digits "fs=1500 Hz (2)" = Some "1500".
Proof. reflexivity. Qed.

Example search_exgm_ex : Re.search_exgm "exgm047_shoulder1-2.csv" = Some "exgm047".
Proof. reflexivity. Qed.

Example fullmatch_subject_ex :
  map Re.fullmatch_subject ["exgm047"; "exgm04"; "exgm0471"; "Exgm047"; ""; "xexgm047"]
  = [true; false; false; false; false; false].
Proof. reflexivity. Qed.

Example fullmatch_trial_ex :
  map Re.fullmatch_trial ["Shoulder 1-2"; "tandem   2-3"; "Shoulder1-2"; "Tandem 3-1"; "Shoulder 1-2 "]
  = [true; true; false; false; false].
Proof. reflexivity. Qed.

(** ** The monad *)

Lemma bind_ret_l {A B} (a : A) (f : A -> M B) : bind (ret a) f = f a.
Proof. unfold bind, ret. destruct (f a) as [l r]. reflexivity. Qed.

Lemma bind_lift_ok {A B} (a : A) (f : A -> M B) : bind (lift (Ok a)) f = f a.
Proof. apply bind_ret_l. Qed.

Lemma bind_lift_raise {A B} (e : exn) (f : A -> M B) :
  bind (lift (Raise e)) f = ([], Raise e).
Proof. reflexivity. Qed.

Lemma list_index_nth {A} (l : list A) (i : nat) (d : A) :
  (i < List.length l)%nat -> list_index l i = Ok (nth i l d).
Proof.
  intros H. unfold list_index.
  destruct (nth_error l i) eqn:E.
  - now rewrite (nth_error_nth _ _ d E).
  - apply nth_error_None in E. lia.
Qed.

(** ** The Signal Extractor *)

Section Extractor.

Import PyNum.

(** A cell is usable when it is empty or [float] accepts it. *)
Definition cell_usable (cell : string) : bool :=
  negb (PyStr.truthy cell) || is_ok (float_of_string cell).

(** The value a usable cell stands for. *)
Definition cell_value (cell : string) : float :=
  match cell_to_float cell with
  | Ok v => v
  | Raise _ => nan
  end.

(** The rows that the data loop keeps. *)
Definition row_kept (row : list string) : bool :=
  (28 <=? List.length row)%nat
  && cell_usable (nth 0 row "")
  && cell_usable (nth 26 row "")
  && cell_usable (nth 27 row "").

Definition data_rows_of (all_data : list (list string)) : list (list string) :=
  skipn 4 all_data.

Definition column (i : nat) (rows : list (list string)) : list float :=
  map (fun row => cell_value (nth i row "")) rows.

Lemma cell_to_float_usable (cell : string) :
  cell_to_float cell =
  if cell_usable cell then Ok (cell_value cell) else Raise ValueError.
Proof.
  unfold cell_usable, cell_value, cell_to_float.
  destruct (PyStr.truthy cell); simpl; [|reflexivity].
  unfold float_of_string.
  destruct (remove_underscores _ cell); [|reflexivity].
  destruct (parse_sign _) as [neg body].
  destruct (parse_special neg body); [reflexivity|].
  destruct (parse_decimal body) as [[m e]|]; reflexivity.
Qed.

Lemma extract_row_spec (time_data ml_data ap_data : list float)
      (row : list string) :
  extract_row (time_data, ml_data, ap_data) row =
  ret (if row_kept row
       then (time_data ++ [cell_value (nth 0 row "")],
             ml_data ++ [cell_value (nth 26 row "")],
             ap_data ++ [cell_value (nth 27 row "")])
       else (time_data, ml_data, ap_data)).
Proof.
  unfold extract_row, row_kept.
  destruct (28 <=? List.length row)%nat eqn:Hlen; [|reflexivity].
  apply Nat.leb_le in Hlen.
  rewrite (list_index_nth row 0 "") by lia.
  rewrite (list_index_nth row 26 "") by lia.
  rewrite (list_index_nth row 27 "") by lia.
  rewrite bind_lift_ok, (cell_to_float_usable (nth 0 row "")).
  destruct (cell_usable (nth 0 row "")); [|reflexivity].
  rewrite !bind_lift_ok, (cell_to_float_usable (nth 26 row "")).
  destruct (cell_usable (nth 26 row "")); [|reflexivity].
  rewrite !bind_lift_ok, (cell_to_float_usable (nth 27 row "")).
  destruct (cell_usable (nth 27 row "")); reflexivity.
Qed.

Lemma for_each_extract_row (rows : list (list string)) :
  forall time_data ml_data ap_data,
    for_each extract_row rows (time_data, ml_data, ap_data) =
    ret (time_data ++ column 0 (filter row_kept rows),
         ml_data ++ column 26 (filter row_kept rows),
         ap_data ++ column 27 (filter row_kept rows)).
Proof.
  induction rows as [|row rows IH]; intros time_data ml_data ap_data.
  - simpl. now rewrite !app_nil_r.
  - cbn [for_each]. rewrite extract_row_spec, bind_ret_l.
    simpl filter. destruct (row_kept row).
    + rewrite IH. simpl. now rewrite <- !app_assoc.
    + apply IH.
Qed.

Lemma extract_signals_spec (all_data : list (list string)) :
  let kept := filter row_kept (data_rows_of all_data) in
  extract_signals all_data =
  ret (column 0 kept, column 26 kept, column 27 kept).
Proof.
  unfold extract_signals, data_rows_of, slice_from.
  destruct (4 <? List.length all_data)%nat eqn:H.
  - apply (for_each_extract_row _ [] [] []).
  - apply Nat.ltb_ge in H. rewrite skipn_all2 by lia. reflexivity.
Qed.

End Extractor.

(** C1. The data loop over the rows from index 4 never raises and yields
    three sequences of one length, the number of data rows with at least 28
    cells whose cells 0, 26 and 27 are each empty or accepted by [float];
    the sequences hold exactly the values of those rows (NaN for an empty
    cell), so every other row contributes nothing. *)
Theorem signal_extractor_lengths (all_data : list (list string)) :
  exists time_data ml_data ap_data,
    outcome (extract_signals all_data) = Ok (time_data, ml_data, ap_data)
    /\ List.length time_data = List.length (filter row_kept (data_rows_of all_data))
    /\ List.length ml_data = List.length time_data
    /\ List.length ap_data = List.length time_data
    /\ time_data = column 0 (filter row_kept (data_rows_of all_data))
    /\ ml_data = column 26 (filter row_kept (data_rows_of all_data))
    /\ ap_data = column 27 (filter row_kept (data_rows_of all_data))
    /\ cell_value "" = PyNum.nan.
Proof.
  pose proof (extract_signals_spec all_data) as H. cbv zeta in H.
  eexists _, _, _. rewrite H. simpl outcome.
  split; [reflexivity|]. unfold column. rewrite !length_map.
  repeat split; reflexivity.
Qed.

(** ** Windowing *)

Section Windowing.

Import PyNum.

(** The test that the mask applies to one time value. *)
Definition in_window (t : float) : bool :=
  ge t (round_Z start_time) && le t (round_Z end_time).

Lemma logical_and_map {A} (f g : A -> bool) (l : list A) :
  Np.logical_and (map f l) (map g l) = Ok (map (fun x => f x && g x) l).
Proof.
  induction l as [|x l IH]; simpl; [reflexivity|]. now rewrite IH.
Qed.

Lemma time_mask_of_spec (time_data : list float) :
  time_mask_of time_data = Ok (map in_window time_data).
Proof. apply logical_and_map. Qed.

Lemma in_window_nan : in_window nan = false.
Proof. reflexivity. Qed.

Lemma in_window_not_nan (t : float) : in_window t = true -> is_nan t = false.
Proof. destruct t; simpl; intros H; try reflexivity. discriminate. Qed.

Lemma bool_index_length {A} (a : list A) :
  forall mask r, Np.bool_index a mask = Ok r ->
                 List.length a = List.length mask.
Proof.
  induction a as [|x a IH]; intros [|b mask] r H; simpl in *;
    try discriminate; [reflexivity|].
  destruct (Np.bool_index a mask) eqn:E; [|discriminate].
  f_equal. eapply IH. exact E.
Qed.

Lemma bool_index_map_filter {A} (p : A -> bool) (a : list A) :
  Np.bool_index a (map p a) = Ok (filter p a).
Proof.
  induction a as [|x a IH]; simpl; [reflexivity|]. rewrite IH.
  destruct (p x); reflexivity.
Qed.

(** The entries of [a] kept by [mask], for a mask of the right length. *)
Fixpoint select {A} (mask : list bool) (a : list A) : list A :=
  match mask, a with
  | b :: mask', x :: a' => if b then x :: select mask' a' else select mask' a'
  | _, _ => []
  end.

Lemma bool_index_select {A} (a : list A) :
  forall mask, List.length a = List.length mask ->
               Np.bool_index a mask = Ok (select mask a).
Proof.
  induction a as [|x a IH]; intros [|b mask] H; simpl in *;
    try discriminate; [reflexivity|].
  rewrite IH by lia. reflexivity.
Qed.

Lemma select_length {A} (mask : list bool) :
  forall a : list A,
    List.length a = List.length mask ->
    List.length (select mask a) = List.length (filter (fun b => b) mask).
Proof.
  induction mask as [|b mask IH]; intros [|x a] H; simpl in *;
    try discriminate; [reflexivity|].
  destruct b; simpl; rewrite IH by lia; reflexivity.
Qed.

Lemma filter_map_id (p : float -> bool) (l : list float) :
  List.length (filter (fun b => b) (map p l)) = List.length (filter p l).
Proof.
  induction l as [|x l IH]; simpl; [reflexivity|].
  destruct (p x); simpl; now rewrite IH.
Qed.

Lemma select_all_true {A} (mask : list bool) :
  forall a : list A,
    List.length a = List.length mask ->
    forallb (fun b => b) mask = true ->
    select mask a = a.
Proof.
  induction mask as [|b mask IH]; intros [|x a] Hlen Hall; simpl in *;
    try discriminate; [reflexivity|].
  apply andb_prop in Hall. destruct Hall as [-> Hall].
  f_equal. apply IH; [lia|exact Hall].
Qed.

Lemma forallb_map_filter (p : float -> bool) (l : list float) :
  forallb (fun b => b) (map p (filter p l)) = true.
Proof.
  induction l as [|x l IH]; simpl; [reflexivity|].
  destruct (p x) eqn:E; simpl; [rewrite E|]; exact IH.
Qed.

(** What [trim] computes: it succeeds exactly on arrays of one length. *)
Lemma trim_ok_inv (time_data ml_data ap_data : list float) (out : signals) :
  outcome (trim time_data ml_data ap_data) = Ok out ->
  List.length ml_data = List.length time_data
  /\ List.length ap_data = List.length time_data
  /\ out = (filter in_window time_data,
            select (map in_window time_data) ml_data,
            select (map in_window time_data) ap_data)
  /\ log_of (trim time_data ml_data ap_data) = [].
Proof.
  unfold trim. rewrite time_mask_of_spec, bind_lift_ok.
  rewrite bool_index_map_filter, bind_lift_ok.
  destruct (Np.bool_index ml_data _) as [ml|e] eqn:Eml;
    [|rewrite bind_lift_raise; discriminate].
  destruct (Np.bool_index ap_data _) as [ap|e] eqn:Eap;
    [|rewrite bind_lift_ok, bind_lift_raise; discriminate].
  rewrite !bind_lift_ok. simpl. intros [= <-].
  pose proof (bool_index_length _ _ _ Eml) as Hml.
  pose proof (bool_index_length _ _ _ Eap) as Hap.
  rewrite length_map in Hml, Hap.
  rewrite bool_index_select in Eml by now rewrite length_map.
  rewrite bool_index_select in Eap by now rewrite length_map.
  injection Eml as <-. injection Eap as <-. auto.
Qed.

Lemma trim_spec (time_data ml_data ap_data : list float) :
  List.length ml_data = List.length time_data ->
  List.length ap_data = List.length time_data ->
  trim time_data ml_data ap_data =
  ret (filter in_window time_data,
       select (map in_window time_data) ml_data,
       select (map in_window time_data) ap_data).
Proof.
  intros Hml Hap. unfold trim.
  rewrite time_mask_of_spec, bind_lift_ok.
  rewrite bool_index_map_filter, bind_lift_ok.
  rewrite !bool_index_select by now rewrite length_map.
  now rewrite !bind_lift_ok.
Qed.

End Windowing.

(** Sample arrays, for concrete runs of the windowing step. *)
Definition sample_time : list PyNum.float := map PyNum.round_Z [5; 10; 20; 30; 31]%Z.
Definition sample_ml : list PyNum.float := map PyNum.round_Z [1; 2; 3; 4; 5]%Z.
Definition sample_ap : list PyNum.float := map PyNum.round_Z [6; 7; 8; 9; 0]%Z.

(** C4. Windowing is idempotent: whenever the inclusive [10 s, 30 s] mask
    of a time sequence has been applied to it and to its paired data
    sequences, applying the mask of the windowed times to the windowed
    sequences returns them unchanged. *)
Theorem windowing_idempotent
        (time_data ml_data ap_data time_trimmed ml_trimmed ap_trimmed
         : list PyNum.float) :
  outcome (trim time_data ml_data ap_data)
  = Ok (time_trimmed, ml_trimmed, ap_trimmed) ->
  outcome (trim time_trimmed ml_trimmed ap_trimmed)
  = Ok (time_trimmed, ml_trimmed, ap_trimmed)
  /\ start_time = 10%Z /\ end_time = 30%Z.
Proof.
  intros H. apply trim_ok_inv in H. destruct H as (Hml & Hap & Hout & _).
  injection Hout as -> -> ->.
  split; [|split; reflexivity].
  assert (Hlen : forall a : list PyNum.float,
             List.length a = List.length time_data ->
             List.length (select (map in_window time_data) a)
             = List.length (filter in_window time_data)).
  { intros a Ha. rewrite select_length by now rewrite length_map.
    apply filter_map_id. }
  rewrite trim_spec by (apply Hlen; assumption).
  rewrite (select_all_true (map in_window (filter in_window time_data)));
    [| rewrite length_map; apply Hlen; assumption | apply forallb_map_filter].
  rewrite (select_all_true (map in_window (filter in_window time_data)));
    [| rewrite length_map; apply Hlen; assumption | apply forallb_map_filter].
  simpl. f_equal. f_equal. f_equal.
  clear. induction time_data as [|t l IH]; simpl; [reflexivity|].
  destruct (in_window t) eqn:E; simpl; [rewrite E|]; now rewrite IH.
Qed.

Lemma windowing_idempotent_witness :
  outcome (trim sample_time sample_ml sample_ap)
  = Ok (map PyNum.round_Z [10; 20; 30]%Z, map PyNum.round_Z [2; 3; 4]%Z,
        map PyNum.round_Z [7; 8; 9]%Z)
  /\ outcome (trim (map PyNum.round_Z [10; 20; 30]%Z)
                   (map PyNum.round_Z [2; 3; 4]%Z)
                   (map PyNum.round_Z [7; 8; 9]%Z))
     = Ok (map PyNum.round_Z [10; 20; 30]%Z, map PyNum.round_Z [2; 3; 4]%Z,
           map PyNum.round_Z [7; 8; 9]%Z).
Proof.
  assert (H : outcome (trim sample_time sample_ml sample_ap)
              = Ok (map PyNum.round_Z [10; 20; 30]%Z,
                    map PyNum.round_Z [2; 3; 4]%Z,
                    map PyNum.round_Z [7; 8; 9]%Z))
    by (vm_compute; reflexivity).
  split; [exact H|].
  exact (proj1 (windowing_idempotent _ _ _ _ _ _ H)).
Defined.

(** ** The Metadata Parser *)

Lemma M_eta {A} (m : M A) : m = (log_of m, outcome m).
Proof. now destruct m. Qed.

Lemma bind_ok {A B} (l : list event) (a : A) (f : A -> M B) :
  bind (l, Ok a) f = (l ++ log_of (f a), outcome (f a)).
Proof. unfold bind. now destruct (f a). Qed.

Lemma bind_outcome_ok {A B} (m : M A) (f : A -> M B) (a : A) :
  outcome m = Ok a -> bind m f = (log_of m ++ log_of (f a), outcome (f a)).
Proof. destruct m as [l r]. simpl. intros ->. apply bind_ok. Qed.

(** The cell that [cell_or_empty] yields. *)
Definition cell_at (metadata_row : list string) (i : nat) : string :=
  if (i <? List.length metadata_row)%nat then nth i metadata_row "" else "".

Lemma cell_or_empty_spec (metadata_row : list string) (i : nat) :
  cell_or_empty metadata_row i = ret (cell_at metadata_row i).
Proof.
  unfold cell_or_empty, cell_at.
  destruct (i <? List.length metadata_row)%nat eqn:H; [|reflexivity].
  apply Nat.ltb_lt in H. now rewrite (list_index_nth _ _ "" H).
Qed.

Lemma cell_at_short (metadata_row : list string) (i : nat) :
  (List.length metadata_row <= i)%nat -> cell_at metadata_row i = "".
Proof.
  intros H. unfold cell_at.
  destruct (i <? List.length metadata_row)%nat eqn:E; [|reflexivity].
  apply Nat.ltb_lt in E. lia.
Qed.

Lemma metadata_row_missing (all_data : list (list string)) :
  (List.length all_data <= 1)%nat -> metadata_row_of all_data = [].
Proof.
  intros H. unfold metadata_row_of.
  destruct (1 <? List.length all_data)%nat eqn:E; [|reflexivity].
  apply Nat.ltb_lt in E. lia.
Qed.

Section MetadataFacts.

Variable max_str_digits : nat.

(** The sampling rate that step 1 settles on. *)
Definition sampling_rate_of (metadata_row : list string) : Z :=
  match Re.search_digits (cell_at metadata_row 2) with
  | Some digits =>
      match PyNum.int_of_digits max_str_digits digits with
      | Ok rate => rate
      | Raise _ => expected_sampling_rate
      end
  | None => expected_sampling_rate
  end.

Lemma read_sampling_rate_outcome (metadata_row : list string) :
  outcome (read_sampling_rate max_str_digits metadata_row)
  = Ok (sampling_rate_of metadata_row).
Proof.
  unfold read_sampling_rate, sampling_rate_of.
  rewrite cell_or_empty_spec, bind_ret_l.
  destruct (Re.search_digits (cell_at metadata_row 2)) as [digits|].
  - unfold PyNum.int_of_digits.
    destruct (_ && _); simpl.
    + reflexivity.
    + destruct (negb _); reflexivity.
  - simpl. reflexivity.
Qed.

Lemma read_sampling_rate_unparsed (metadata_row : list string) :
  Re.search_digits (cell_at metadata_row 2) = None ->
  read_sampling_rate max_str_digits metadata_row
  = ([Print (MsgRateUnparsed expected_sampling_rate)], Ok expected_sampling_rate).
Proof.
  intros H. unfold read_sampling_rate.
  rewrite cell_or_empty_spec, bind_ret_l, H. reflexivity.
Qed.

Lemma digit_value_nonneg (c : ascii) : (0 <= PyStr.digit_value c)%Z.
Proof. unfold PyStr.digit_value. lia. Qed.

Lemma digits_value_nonneg (s : string) :
  forall acc, (0 <= acc)%Z -> (0 <= PyNum.digits_value s acc)%Z.
Proof.
  induction s as [|c s IH]; intros acc H; cbn [PyNum.digits_value]; [exact H|].
  apply IH. pose proof (digit_value_nonneg c). lia.
Qed.

Lemma sampling_rate_of_nonneg (metadata_row : list string) :
  (0 <= sampling_rate_of metadata_row)%Z.
Proof.
  unfold sampling_rate_of.
  destruct (Re.search_digits _) as [digits|]; [|unfold expected_sampling_rate; lia].
  unfold PyNum.int_of_digits. destruct (_ && _).
  - unfold expected_sampling_rate; lia.
  - apply digits_value_nonneg. lia.
Qed.

Lemma sampling_rate_of_zero (metadata_row : list string) :
  sampling_rate_of metadata_row = 0%Z ->
  exists digits,
    Re.search_digits (cell_at metadata_row 2) = Some digits
    /\ PyNum.digits_value digits 0 = 0%Z.
Proof.
  unfold sampling_rate_of.
  destruct (Re.search_digits _) as [digits|]; [|discriminate].
  unfold PyNum.int_of_digits. destruct (_ && _); [discriminate|].
  intros H. exists digits. auto.
Qed.

(** The subject id read from the cell, before validation. *)
Definition parsed_subject_id (metadata_row : list string) : string :=
  PyStr.strip (cell_at metadata_row 7).

(** The subject id that step 2 settles on. *)
Definition subject_id_of (filename : string) (metadata_row : list string)
  : string :=
  let parsed := parsed_subject_id metadata_row in
  if validate_subject_id parsed then parsed
  else match Re.search_exgm filename with
       | Some m => m
       | None => parsed
       end.

Lemma read_subject_id_spec (filename : string) (metadata_row : list string) :
  let parsed := parsed_subject_id metadata_row in
  read_subject_id filename metadata_row =
  if validate_subject_id parsed then ([], Ok parsed)
  else match Re.search_exgm filename with
       | Some m => ([Warn (MsgSubjectInvalid parsed);
                     Print (MsgSubjectFromFilename m)], Ok m)
       | None => ([Warn (MsgSubjectInvalid parsed)], Ok parsed)
       end.
Proof.
  unfold read_subject_id, parsed_subject_id.
  rewrite cell_or_empty_spec, bind_ret_l.
  change (try_except (ret ?x) _ _) with (ret x). rewrite bind_ret_l.
  destruct (validate_subject_id _); simpl; [reflexivity|].
  destruct (Re.search_exgm filename); reflexivity.
Qed.

Lemma read_subject_id_outcome (filename : string) (metadata_row : list string) :
  outcome (read_subject_id filename metadata_row)
  = Ok (subject_id_of filename metadata_row).
Proof.
  pose proof (read_subject_id_spec filename metadata_row) as H.
  cbv zeta in H. rewrite H. unfold subject_id_of.
  destruct (validate_subject_id _); [reflexivity|].
  destruct (Re.search_exgm filename); reflexivity.
Qed.

(** The trial name that step 3 settles on. *)
Definition trial_name_of (metadata_row : list string) : string :=
  PyStr.strip (cell_at metadata_row 12).

Lemma read_trial_name_spec (metadata_row : list string) :
  read_trial_name metadata_row =
  (if validate_trial_name (trial_name_of metadata_row) then []
   else [Warn (MsgTrialUnexpected (trial_name_of metadata_row))],
   Ok (trial_name_of metadata_row)).
Proof.
  unfold read_trial_name, trial_name_of.
  rewrite cell_or_empty_spec, bind_ret_l.
  change (try_except (ret ?x) _ _) with (ret x). rewrite bind_ret_l.
  destruct (validate_trial_name _); reflexivity.
Qed.

End MetadataFacts.

(** ** The pipeline of [process_csv_file] *)

Section PipelineFacts.

Import PyNum.

Variable max_str_digits : nat.
Variable butter : nat -> float -> result (list float * list float).
Variable filtfilt_kernel :
  list float -> list float -> list float -> result (list float).

Definition kept_rows (all_data : list (list string)) : list (list string) :=
  filter row_kept (data_rows_of all_data).

(** The raw arrays of a file and their restriction to the window. *)
Definition raw_time (all_data : list (list string)) : list float :=
  column 0 (kept_rows all_data).
Definition raw_ml (all_data : list (list string)) : list float :=
  column 26 (kept_rows all_data).
Definition raw_ap (all_data : list (list string)) : list float :=
  column 27 (kept_rows all_data).
Definition window_time (all_data : list (list string)) : list float :=
  filter in_window (raw_time all_data).
Definition window_ml (all_data : list (list string)) : list float :=
  select (map in_window (raw_time all_data)) (raw_ml all_data).
Definition window_ap (all_data : list (list string)) : list float :=
  select (map in_window (raw_time all_data)) (raw_ap all_data).

(** What is written before the filtering step. *)
Definition parse_log (filename : string) (all_data : list (list string))
  : list event :=
  let metadata_row := metadata_row_of all_data in
  [Print (MsgTotalRows (List.length all_data))]
  ++ log_of (read_sampling_rate max_str_digits metadata_row)
  ++ log_of (read_subject_id filename metadata_row)
  ++ log_of (read_trial_name metadata_row)
  ++ [Print (MsgRowsParsed (List.length (raw_time all_data)))]
  ++ [Print (MsgWindowSamples (List.length (window_time all_data)))].

(** The filtering step of a file. *)
Definition filter_step (all_data : list (list string))
  : M (list float * list float) :=
  filter_trimmed butter filtfilt_kernel
                 (window_time all_data) (window_ml all_data) (window_ap all_data)
                 (sampling_rate_of max_str_digits (metadata_row_of all_data)).

Definition record_of (filename session : string) (all_data : list (list string))
           (filtered : list float * list float) : TrialData :=
  {| subject_id := subject_id_of filename (metadata_row_of all_data);
     trial_name := trial_name_of (metadata_row_of all_data);
     session := session;
     sampling_rate := sampling_rate_of max_str_digits (metadata_row_of all_data);
     time_raw := raw_time all_data;
     ml_raw := raw_ml all_data;
     ap_raw := raw_ap all_data;
     time_trimmed := window_time all_data;
     ml_filtered := fst filtered;
     ap_filtered := snd filtered |}.

(** Everything before the filtering step succeeds; the outcome of
    [process_rows] is decided by the filtering step alone. *)
Lemma process_rows_spec (filename session : string)
      (all_data : list (list string)) :
  process_rows max_str_digits butter filtfilt_kernel filename session all_data
  = (parse_log filename all_data ++ log_of (filter_step all_data),
     match outcome (filter_step all_data) with
     | Ok filtered => Ok (record_of filename session all_data filtered)
     | Raise e => Raise e
     end).
Proof.
  unfold process_rows, parse_log.
  rewrite (bind_outcome_ok (print _) _ tt eq_refl); cbn [log_of outcome fst snd print].
  rewrite (bind_outcome_ok _ _ _ (read_sampling_rate_outcome _ _));
    cbn [log_of outcome fst snd].
  rewrite (bind_outcome_ok _ _ _ (read_subject_id_outcome _ _));
    cbn [log_of outcome fst snd].
  rewrite read_trial_name_spec, !bind_ok; cbn [log_of outcome fst snd].
  pose proof (extract_signals_spec all_data) as He. cbv zeta in He.
  rewrite He, bind_ret_l.
  rewrite (bind_outcome_ok (print _) _ tt eq_refl); cbn [log_of outcome fst snd print].
  rewrite trim_spec by (unfold column; now rewrite !length_map).
  rewrite bind_ret_l.
  rewrite (bind_outcome_ok (print _) _ tt eq_refl); cbn [log_of outcome fst snd print].
  fold (kept_rows all_data). fold (raw_time all_data).
  fold (raw_ml all_data). fold (raw_ap all_data).
  fold (window_time all_data). fold (window_ml all_data).
  fold (window_ap all_data). fold (filter_step all_data).
  rewrite ?read_trial_name_spec; cbn [log_of outcome fst snd].
  destruct (filter_step all_data) as [l [[mlf apf]|e]];
    cbn [bind ret log_of outcome fst snd];
    rewrite <- ?app_assoc, ?app_nil_r; reflexivity.
Qed.

Lemma filter_step_empty (all_data : list (list string)) :
  window_time all_data = [] ->
  filter_step all_data
  = ([Warn (MsgNoDataInWindow start_time end_time)], Ok ([], [])).
Proof. intros H. unfold filter_step, filter_trimmed. now rewrite H. Qed.

Lemma filter_step_nonempty (all_data : list (list string)) :
  window_time all_data <> [] ->
  filter_step all_data =
  (ml_filtered <- apply_butterworth_filter butter filtfilt_kernel
                    (window_ml all_data)
                    (sampling_rate_of max_str_digits (metadata_row_of all_data)) ;;
   ap_filtered <- apply_butterworth_filter butter filtfilt_kernel
                    (window_ap all_data)
                    (sampling_rate_of max_str_digits (metadata_row_of all_data)) ;;
   print MsgFilterDone ;;
   ret (ml_filtered, ap_filtered))%py.
Proof.
  intros H. unfold filter_step, filter_trimmed.
  destruct (window_time all_data); [contradiction|reflexivity].
Qed.

Lemma window_lengths (all_data : list (list string)) :
  List.length (window_ml all_data) = List.length (window_time all_data)
  /\ List.length (window_ap all_data) = List.length (window_time all_data).
Proof.
  unfold window_ml, window_ap, window_time, raw_ml, raw_ap, raw_time, column.
  rewrite !select_length by now rewrite !length_map.
  rewrite !filter_map_id. auto.
Qed.

End PipelineFacts.

(** ** Subject ids and file names *)

Section SubjectPattern.

Local Open Scope string_scope.

(** [m] is [exgm] followed by three digits. *)
Definition is_exgm_id (m : string) : Prop :=
  exists d1 d2 d3,
    PyStr.is_digit d1 = true /\ PyStr.is_digit d2 = true
    /\ PyStr.is_digit d3 = true
    /\ m = "exgm" ++ String d1 (String d2 (String d3 "")).

(** [m] occurs in [s]. *)
Definition occurs_in (m s : string) : Prop :=
  exists pre post, s = pre ++ m ++ post.

Lemma strip_prefix_inv (lit : string) :
  forall s r, Re.strip_prefix lit s = Some r -> s = lit ++ r.
Proof.
  induction lit as [|a lit IH]; intros s r H; simpl in *.
  - now injection H as ->.
  - destruct s as [|c s]; [discriminate|].
    destruct (Ascii.eqb a c) eqn:E; [|discriminate].
    apply Ascii.eqb_eq in E. subst c. f_equal. now apply IH.
Qed.

Lemma strip_prefix_app (lit r : string) :
  Re.strip_prefix lit (lit ++ r) = Some r.
Proof.
  induction lit as [|a lit IH]; simpl; [reflexivity|].
  now rewrite Ascii.eqb_refl.
Qed.

Lemma append_assoc (a b c : string) : (a ++ b) ++ c = a ++ (b ++ c).
Proof. induction a as [|x a IH]; simpl; [reflexivity|]. now rewrite IH. Qed.

Lemma match_exgm_inv (s m : string) :
  Re.match_exgm s = Some m -> is_exgm_id m /\ exists post, s = m ++ post.
Proof.
  unfold Re.match_exgm. intros H.
  destruct (Re.strip_prefix "exgm" s) as [r|] eqn:E; [|discriminate].
  apply strip_prefix_inv in E.
  destruct r as [|d1 [|d2 [|d3 post]]]; try discriminate.
  destruct (PyStr.is_digit d1) eqn:E1; [|discriminate].
  destruct (PyStr.is_digit d2) eqn:E2; [|discriminate].
  destruct (PyStr.is_digit d3) eqn:E3; [|discriminate].
  simpl in H. injection H as <-. split.
  - exists d1, d2, d3. auto.
  - exists post. subst s. reflexivity.
Qed.

Lemma match_exgm_at (m post : string) :
  is_exgm_id m -> Re.match_exgm (m ++ post) = Some m.
Proof.
  intros (d1 & d2 & d3 & H1 & H2 & H3 & ->).
  unfold Re.match_exgm. rewrite append_assoc, strip_prefix_app.
  simpl. now rewrite H1, H2, H3.
Qed.

(** [re.search] finds an id that occurs in the string ... *)
Lemma search_exgm_sound (s : string) :
  forall m, Re.search_exgm s = Some m -> is_exgm_id m /\ occurs_in m s.
Proof.
  induction s as [|c s IH]; intros m H.
  - cbn in H. discriminate.
  - cbn [Re.search_exgm] in H.
    destruct (Re.match_exgm (String c s)) as [m'|] eqn:E.
    + injection H as ->. apply match_exgm_inv in E.
      destruct E as [Hid [post Hs]]. split; [exact Hid|].
      exists "", post. exact Hs.
    + destruct (IH m H) as [Hid (pre & post & Hs)]. split; [exact Hid|].
      exists (String c pre), post. simpl. now rewrite Hs.
Qed.

(** ... and finds one whenever some id occurs. *)
Lemma search_exgm_complete (m : string) :
  is_exgm_id m ->
  forall s, occurs_in m s -> exists m', Re.search_exgm s = Some m'.
Proof.
  intros Hid s (pre & post & ->).
  induction pre as [|c pre IH].
  - simpl. destruct (m ++ post) eqn:E.
    + destruct Hid as (d1 & d2 & d3 & _ & _ & _ & ->). discriminate.
    + cbn [Re.search_exgm]. rewrite <- E, (match_exgm_at m post Hid). eauto.
  - simpl. cbn [Re.search_exgm].
    destruct (Re.match_exgm _); eauto.
Qed.

Lemma search_exgm_none (s : string) :
  Re.search_exgm s = None <-> (forall m, is_exgm_id m -> ~ occurs_in m s).
Proof.
  split.
  - intros H m Hid Hocc.
    destruct (search_exgm_complete m Hid s Hocc) as [m' Hm']. congruence.
  - intros H. destruct (Re.search_exgm s) as [m|] eqn:E; [|reflexivity].
    apply search_exgm_sound in E. destruct E as [Hid Hocc].
    exfalso. exact (H m Hid Hocc).
Qed.

End SubjectPattern.

(** ** Processing one file *)

(** Stand-ins for the scipy functions in concrete runs: a design that
    returns [N + 1] zero coefficients twice, and a filter kernel that
    returns its input. *)
Definition flat_butter (n : nat) (wn : PyNum.float)
  : result (list PyNum.float * list PyNum.float) :=
  Ok (repeat (S754_zero false) (S n), repeat (S754_zero false) (S n)).

Definition identity_kernel (b a x : list PyNum.float) : result (list PyNum.float) :=
  Ok x.

(** A line break, and concrete files for runs of the pipeline. *)
Definition nl : string := String "010" EmptyString.

Definition header_lines (metadata_line : string) : string :=
  ("Force plate export" ++ nl ++ metadata_line ++ nl
   ++ "units" ++ nl ++ "Time,Fx,Fy" ++ nl)%string.

(** A data line with 28 cells: the time, 25 empty cells, ML and AP. *)
Definition data_line (time ml ap : string) : string :=
  (time ++ ",,,,,,,,,,,,,,,,,,,,,,,,,," ++ ml ++ "," ++ ap ++ nl)%string.

Section FileFacts.

Import PyNum.

Variable max_str_digits : nat.
Variable read_text : Path -> result string.
Variable butter : nat -> float -> result (list float * list float).
Variable filtfilt_kernel :
  list float -> list float -> list float -> result (list float).

Lemma process_csv_file_spec (filepath : Path) (session : string) :
  process_csv_file max_str_digits read_text butter filtfilt_kernel filepath session
  = match read_text filepath with
    | Ok text =>
        let rows := process_rows max_str_digits butter filtfilt_kernel
                                 (name filepath) session (tokenize text) in
        (Print (MsgProcessing (name filepath))
         :: log_of rows
            ++ match outcome rows with
               | Ok _ => []
               | Raise e => [Print (MsgErrorDetails e)]
               end,
         outcome rows)
    | Raise e =>
        ([Print (MsgProcessing (name filepath)); Print (MsgErrorDetails e)],
         Raise e)
    end.
Proof.
  unfold process_csv_file.
  destruct (read_text filepath) as [text|e]; [|reflexivity].
  rewrite bind_lift_ok. cbv zeta.
  destruct (process_rows _ _ _ _ _ _) as [l [r|e]]; simpl;
    now rewrite ?app_nil_r.
Qed.

(** A record comes from a readable file and is the one [record_of]
    describes. *)
Lemma process_csv_file_ok_inv (filepath : Path) (session : string)
      (r : TrialData) :
  outcome (process_csv_file max_str_digits read_text butter filtfilt_kernel
                            filepath session) = Ok r ->
  exists text filtered,
    read_text filepath = Ok text
    /\ outcome (filter_step max_str_digits butter filtfilt_kernel (tokenize text))
       = Ok filtered
    /\ r = record_of max_str_digits (name filepath) session (tokenize text) filtered.
Proof.
  rewrite process_csv_file_spec.
  destruct (read_text filepath) as [text|e]; [|discriminate].
  cbv zeta. cbn [outcome snd]. rewrite process_rows_spec. cbn [outcome snd].
  destruct (outcome (filter_step _ _ _ _)) as [filtered|e] eqn:E; [|discriminate].
  intros [= <-]. eauto.
Qed.

Lemma process_csv_file_log (filepath : Path) (session text : string) (ev : event) :
  read_text filepath = Ok text ->
  In ev (parse_log max_str_digits (name filepath) (tokenize text)
         ++ log_of (filter_step max_str_digits butter filtfilt_kernel
                                (tokenize text))) ->
  In ev (log_of (process_csv_file max_str_digits read_text butter
                                  filtfilt_kernel filepath session)).
Proof.
  intros Hr H. rewrite process_csv_file_spec, Hr. cbv zeta.
  rewrite process_rows_spec. cbn [log_of outcome fst snd].
  right. apply in_or_app. now left.
Qed.

End FileFacts.

(** Concrete files. *)

(** No sample in the window: one data row at 5 s. *)
Definition early_file : string :=
  (header_lines ",,1500 Hz,,,,,exgm010,,,,,Shoulder 1-2" ++ data_line "5" "0.1" "0.2")%string.

(** Data lines at the given times, with fixed ML and AP values. *)
Definition data_lines (times : list string) : string :=
  fold_right (fun t rest => (data_line t "0.3" "0.4" ++ rest)%string) EmptyString times.

Definition sixteen_times : list string :=
  ["10"; "11"; "12"; "13"; "14"; "15"; "16"; "17"; "18"; "19"; "20"; "21";
   "22"; "23"; "24"; "25.5"].

(** A data row whose time cell is empty, then sixteen rows in the window. *)
Definition gap_file : string :=
  (header_lines ",,1500 Hz,,,,,exgm010,,,,,Shoulder 1-2"
   ++ data_line "" "0.1" "0.2" ++ data_lines sixteen_times)%string.

(** A sampling-rate cell that reads zero, and no data rows. *)
Definition zero_rate_file : string := header_lines ",,0 Hz,,,,,exgm010,,,,,Shoulder 1-2".

Definition sample_path : Path := {| parent := "data/baseline"; name := "exgm047_shoulder1-2.csv" |}.

(** C7. When no sample of a readable file falls in the [10 s, 30 s] window,
    processing the file returns a record (no exception), warns that the
    window is empty, and leaves both filtered sequences empty; the scipy
    functions are not consulted: any other design and kernel give the same
    run. *)
Theorem empty_window_skips_filter
        (max_str_digits : nat) (read_text : Path -> result string)
        (butter : nat -> PyNum.float -> result (list PyNum.float * list PyNum.float))
        (filtfilt_kernel : list PyNum.float -> list PyNum.float ->
                           list PyNum.float -> result (list PyNum.float))
        (filepath : Path) (session text : string) :
  read_text filepath = Ok text ->
  window_time (tokenize text) = [] ->
  exists r,
    outcome (process_csv_file max_str_digits read_text butter filtfilt_kernel
                              filepath session) = Ok r
    /\ ml_filtered r = [] /\ ap_filtered r = [] /\ time_trimmed r = []
    /\ In (Warn (MsgNoDataInWindow 10 30))
          (log_of (process_csv_file max_str_digits read_text butter
                                    filtfilt_kernel filepath session))
    /\ forall butter' filtfilt_kernel',
        process_csv_file max_str_digits read_text butter' filtfilt_kernel'
                         filepath session
        = process_csv_file max_str_digits read_text butter filtfilt_kernel
                           filepath session.
Proof.
  intros Hr Hw.
  assert (Hspec : forall b k,
             process_rows max_str_digits b k (name filepath) session (tokenize text)
             = (parse_log max_str_digits (name filepath) (tokenize text)
                ++ [Warn (MsgNoDataInWindow start_time end_time)],
                Ok (record_of max_str_digits (name filepath) session
                              (tokenize text) ([], [])))).
  { intros b k. rewrite process_rows_spec, (filter_step_empty _ _ _ _ Hw).
    reflexivity. }
  exists (record_of max_str_digits (name filepath) session (tokenize text) ([], [])).
  repeat split.
  - rewrite process_csv_file_spec, Hr. cbv zeta. now rewrite Hspec.
  - exact Hw.
  - eapply process_csv_file_log; [exact Hr|].
    rewrite (filter_step_empty _ _ _ _ Hw). apply in_or_app. right. now left.
  - intros b k. rewrite !process_csv_file_spec, Hr. cbv zeta.
    now rewrite !Hspec.
Qed.

Lemma empty_window_skips_filter_witness :
  exists r,
    outcome (process_csv_file 4300 (fun _ => Ok early_file) flat_butter
                              identity_kernel sample_path "baseline") = Ok r
    /\ ml_filtered r = [] /\ ap_filtered r = [] /\ time_trimmed r = []
    /\ List.length (time_raw r) = 1%nat.
Proof.
  destruct (empty_window_skips_filter 4300 (fun _ => Ok early_file) flat_butter
              identity_kernel sample_path "baseline" early_file)
    as (r & Hr & Hml & Hap & Ht & _).
  - reflexivity.
  - vm_compute. reflexivity.
  - exists r. repeat split; try assumption.
    vm_compute in Hr. injection Hr as <-. reflexivity.
Defined.

(** C10. NaN satisfies neither bound of the window test, so the trimmed
    time sequence of every record is free of NaN: it is the raw time
    sequence restricted to the values in [10, 30].  The raw sequence may
    hold NaN: a retained data row with an empty time cell puts one there. *)
Theorem trimmed_time_has_no_nan
        (max_str_digits : nat) (read_text : Path -> result string)
        (butter : nat -> PyNum.float -> result (list PyNum.float * list PyNum.float))
        (filtfilt_kernel : list PyNum.float -> list PyNum.float ->
                           list PyNum.float -> result (list PyNum.float))
        (filepath : Path) (session : string) (r : TrialData) :
  outcome (process_csv_file max_str_digits read_text butter filtfilt_kernel
                            filepath session) = Ok r ->
  Forall (fun t => PyNum.is_nan t = false) (time_trimmed r)
  /\ time_trimmed r = filter in_window (time_raw r)
  /\ PyNum.ge PyNum.nan (PyNum.round_Z start_time) = false
  /\ PyNum.le PyNum.nan (PyNum.round_Z end_time) = false
  /\ forall text row,
      read_text filepath = Ok text ->
      In row (data_rows_of (tokenize text)) ->
      row_kept row = true ->
      nth 0 row "" = "" ->
      In PyNum.nan (time_raw r).
Proof.
  intros H. apply process_csv_file_ok_inv in H.
  destruct H as (text & filtered & Hr & _ & ->). cbn [time_trimmed time_raw record_of].
  split; [|split; [reflexivity|split; [reflexivity|split; [reflexivity|]]]].
  - unfold window_time. apply Forall_forall. intros t Ht.
    apply filter_In in Ht. apply in_window_not_nan. apply Ht.
  - intros text' row Hr' Hin Hkept Hcell.
    rewrite Hr in Hr'. injection Hr' as <-.
    unfold raw_time, column, kept_rows.
    replace PyNum.nan with (cell_value (nth 0 row ""))
      by (rewrite Hcell; reflexivity).
    apply (in_map (fun row => cell_value (nth 0 row ""))).
    apply filter_In. auto.
Qed.

Lemma trimmed_time_has_no_nan_witness :
  exists r,
    outcome (process_csv_file 4300 (fun _ => Ok gap_file) flat_butter
                              identity_kernel sample_path "baseline") = Ok r
    /\ List.length (time_trimmed r) = 16%nat
    /\ Forall (fun t => PyNum.is_nan t = false) (time_trimmed r)
    /\ In PyNum.nan (time_raw r).
Proof.
  assert (H : exists r,
             outcome (process_csv_file 4300 (fun _ => Ok gap_file) flat_butter
                                       identity_kernel sample_path "baseline")
             = Ok r /\ List.length (time_trimmed r) = 16%nat)
    by (vm_compute; eexists; split; reflexivity).
  destruct H as (r & H & Hlen). exists r. split; [exact H|]. split; [exact Hlen|].
  pose proof (trimmed_time_has_no_nan _ _ _ _ _ _ _ H) as (Hall & _ & _ & _ & Hnan).
  split; [exact Hall|].
  apply (Hnan gap_file (nth 0 (data_rows_of (tokenize gap_file)) [])).
  - reflexivity.
  - vm_compute. left. reflexivity.
  - vm_compute. reflexivity.
  - vm_compute. reflexivity.
Defined.

(** ** The sampling rate of a record *)

Lemma apply_butterworth_filter_zero_rate
      (butter : nat -> PyNum.float -> result (list PyNum.float * list PyNum.float))
      (filtfilt_kernel : list PyNum.float -> list PyNum.float ->
                         list PyNum.float -> result (list PyNum.float))
      (data : list PyNum.float) :
  apply_butterworth_filter butter filtfilt_kernel data 0
  = ([], Raise ZeroDivisionError).
Proof. reflexivity. Qed.

(** The claim that every record has a positive sampling rate fails on a file
    whose sampling-rate cell reads [0 Hz] and which has no sample in the
    window: its record has sampling rate 0. *)
Lemma zero_sampling_rate_record :
  exists r,
    outcome (process_csv_file 4300 (fun _ => Ok zero_rate_file) flat_butter
                              identity_kernel sample_path "baseline") = Ok r
    /\ ~ (0 < sampling_rate r)%Z.
Proof.
  eexists. split; [vm_compute; reflexivity|]. simpl. lia.
Qed.

(** C8 (amended). The sampling rate of every record is a non-negative
    integer, whatever the sampling-rate cell holds; it is positive whenever
    the record has a sample in the window, and it is zero only when the
    first run of digits in the sampling-rate cell has the value zero. *)
Theorem sampling_rate_nonnegative
        (max_str_digits : nat) (read_text : Path -> result string)
        (butter : nat -> PyNum.float -> result (list PyNum.float * list PyNum.float))
        (filtfilt_kernel : list PyNum.float -> list PyNum.float ->
                           list PyNum.float -> result (list PyNum.float))
        (filepath : Path) (session : string) (r : TrialData) :
  outcome (process_csv_file max_str_digits read_text butter filtfilt_kernel
                            filepath session) = Ok r ->
  (0 <= sampling_rate r)%Z
  /\ (time_trimmed r <> [] -> (0 < sampling_rate r)%Z)
  /\ (sampling_rate r = 0%Z ->
      forall text, read_text filepath = Ok text ->
      exists digits,
        Re.search_digits (cell_at (metadata_row_of (tokenize text)) 2) = Some digits
        /\ PyNum.digits_value digits 0 = 0%Z).
Proof.
  intros H. apply process_csv_file_ok_inv in H.
  destruct H as (text & filtered & Hr & Hf & ->).
  cbn [sampling_rate time_trimmed record_of].
  pose proof (sampling_rate_of_nonneg max_str_digits (metadata_row_of (tokenize text)))
    as Hnn.
  split; [exact Hnn|].
  split; [|intros Hz text' Hr'; rewrite Hr in Hr'; injection Hr' as <-;
           revert Hz; apply sampling_rate_of_zero].
  intros Hw.
  destruct (Z.eq_dec (sampling_rate_of max_str_digits
                                       (metadata_row_of (tokenize text))) 0)
    as [Hz|Hz]; [|lia].
  exfalso. rewrite (filter_step_nonempty _ _ _ _ Hw), Hz in Hf.
  rewrite apply_butterworth_filter_zero_rate in Hf. discriminate.
Qed.

Lemma sampling_rate_nonnegative_witness :
  exists r,
    outcome (process_csv_file 4300 (fun _ => Ok gap_file) flat_butter
                              identity_kernel sample_path "baseline") = Ok r
    /\ (0 <= sampling_rate r)%Z
    /\ time_trimmed r <> [] /\ (0 < sampling_rate r)%Z.
Proof.
  assert (H : exists r,
             outcome (process_csv_file 4300 (fun _ => Ok gap_file) flat_butter
                                       identity_kernel sample_path "baseline")
             = Ok r /\ time_trimmed r <> [])
    by (vm_compute; eexists; split; [reflexivity|discriminate]).
  destruct H as (r & H & Hne). exists r. split; [exact H|].
  pose proof (sampling_rate_nonnegative _ _ _ _ _ _ _ H) as (Hnn & Hpos & _).
  split; [exact Hnn|]. split; [exact Hne|]. exact (Hpos Hne).
Defined.

(** ** Defaults of the Metadata Parser *)

(** The claim that a missing metadata row gives the subject id and the trial
    name [unknown] fails on an empty file named [exgm047_shoulder1-2.csv]:
    the subject id of its record is the file-name match [exgm047], and the
    trial name is the empty string. *)
Lemma missing_metadata_not_unknown :
  exists r,
    outcome (process_csv_file 4300 (fun _ => Ok "") flat_butter identity_kernel
                              sample_path "baseline") = Ok r
    /\ metadata_row_of (tokenize "") = []
    /\ sampling_rate r = 1500%Z
    /\ subject_id r = "exgm047" /\ subject_id r <> "unknown"
    /\ trial_name r = "" /\ trial_name r <> "unknown".
Proof.
  eexists. split; [vm_compute; reflexivity|].
  repeat split; simpl; discriminate.
Qed.

(** C3 (amended). When the metadata row is missing or too short to hold
    the cell in question: the sampling rate is the default 1500 and the
    warning that it could not be parsed is printed; the subject id is
    flagged by an invalid-format warning and is the file-name match when
    the file name contains one, and the flagged value itself otherwise; the
    trial name is the very value that the unexpected-format warning flags,
    and it does not have the format of a trial name.  No step raises.
    Which value is flagged is left open here: the code gives the empty
    string where its unreachable handlers (lines 170-172 and 186-188) would
    give [unknown]. *)
Theorem missing_metadata_defaults
        (max_str_digits : nat) (filename : string)
        (all_data : list (list string)) :
  ((List.length all_data <= 1)%nat -> metadata_row_of all_data = [])
  /\ ((List.length (metadata_row_of all_data) <= 2)%nat ->
      read_sampling_rate max_str_digits (metadata_row_of all_data)
      = ([Print (MsgRateUnparsed 1500)], Ok 1500%Z))
  /\ ((List.length (metadata_row_of all_data) <= 7)%nat ->
      exists v,
        validate_subject_id v = false
        /\ read_subject_id filename (metadata_row_of all_data)
           = match Re.search_exgm filename with
             | Some m => ([Warn (MsgSubjectInvalid v);
                           Print (MsgSubjectFromFilename m)], Ok m)
             | None => ([Warn (MsgSubjectInvalid v)], Ok v)
             end)
  /\ ((List.length (metadata_row_of all_data) <= 12)%nat ->
      exists v,
        validate_trial_name v = false
        /\ read_trial_name (metadata_row_of all_data)
           = ([Warn (MsgTrialUnexpected v)], Ok v)).
Proof.
  split; [apply metadata_row_missing|].
  split; [|split].
  - intros H. apply read_sampling_rate_unparsed.
    rewrite cell_at_short by exact H. reflexivity.
  - intros H.
    pose proof (read_subject_id_spec filename (metadata_row_of all_data)) as Hs.
    cbv zeta in Hs. unfold parsed_subject_id in Hs.
    rewrite cell_at_short in Hs by exact H.
    change (validate_subject_id (PyStr.strip "")) with false in Hs.
    exists (PyStr.strip ""). split; [reflexivity|exact Hs].
  - intros H. rewrite read_trial_name_spec. unfold trial_name_of.
    rewrite cell_at_short by exact H.
    change (validate_trial_name (PyStr.strip "")) with false.
    exists (PyStr.strip ""). split; reflexivity.
Qed.

Lemma missing_metadata_defaults_witness :
  read_sampling_rate 4300 (metadata_row_of [["header"]])
  = ([Print (MsgRateUnparsed 1500)], Ok 1500%Z)
  /\ outcome (read_subject_id "exgm047_shoulder1-2.csv" (metadata_row_of [["header"]]))
     = Ok "exgm047"
  /\ exists v,
      validate_trial_name v = false
      /\ read_trial_name (metadata_row_of [["header"]])
         = ([Warn (MsgTrialUnexpected v)], Ok v).
Proof.
  pose proof (missing_metadata_defaults 4300 "exgm047_shoulder1-2.csv" [["header"]])
    as (_ & Hrate & Hsubject & Htrial).
  split; [apply Hrate; simpl; lia|].
  split; [|apply Htrial; simpl; lia].
  destruct (Hsubject ltac:(simpl; lia)) as (v & _ & Hs).
  rewrite Hs. reflexivity.
Defined.

(** ** Recovery of the subject id from the file name *)

(** C5. For a record whose parsed subject id fails [^exgm\d{3}$], an
    invalid-format warning is issued; if an id [exgm] + three digits occurs
    in the file name, the record's subject id is the match that [re.search]
    finds there (an id occurring in the name), otherwise it is the invalid
    parsed value, unchanged.  In particular the file name
    [exgm047_shoulder1-2.csv] with an empty subject cell gives [exgm047]. *)
Theorem subject_id_recovery
        (max_str_digits : nat) (read_text : Path -> result string)
        (butter : nat -> PyNum.float -> result (list PyNum.float * list PyNum.float))
        (filtfilt_kernel : list PyNum.float -> list PyNum.float ->
                           list PyNum.float -> result (list PyNum.float))
        (filepath : Path) (session text : string) (r : TrialData) :
  outcome (process_csv_file max_str_digits read_text butter filtfilt_kernel
                            filepath session) = Ok r ->
  read_text filepath = Ok text ->
  (validate_subject_id (parsed_subject_id (metadata_row_of (tokenize text))) = false ->
   In (Warn (MsgSubjectInvalid (parsed_subject_id (metadata_row_of (tokenize text)))))
      (log_of (process_csv_file max_str_digits read_text butter filtfilt_kernel
                                filepath session))
   /\ (forall m, is_exgm_id m -> occurs_in m (name filepath) ->
                 Re.search_exgm (name filepath) = Some (subject_id r)
                 /\ is_exgm_id (subject_id r)
                 /\ occurs_in (subject_id r) (name filepath))
   /\ ((forall m, is_exgm_id m -> ~ occurs_in m (name filepath)) ->
       subject_id r = parsed_subject_id (metadata_row_of (tokenize text))))
  /\ (name filepath = "exgm047_shoulder1-2.csv" ->
      cell_at (metadata_row_of (tokenize text)) 7 = "" ->
      subject_id r = "exgm047").
Proof.
  intros H Hr. pose proof H as Hinv. apply process_csv_file_ok_inv in Hinv.
  destruct Hinv as (text' & filtered & Hr' & _ & ->).
  rewrite Hr in Hr'. injection Hr' as <-.
  cbn [subject_id record_of]. unfold subject_id_of. split.
  - intros Hv. rewrite Hv. split; [|split].
    + eapply process_csv_file_log; [exact Hr|].
      unfold parse_log. cbv zeta. rewrite !in_app_iff. left. right. right. left.
      pose proof (read_subject_id_spec (name filepath)
                    (metadata_row_of (tokenize text))) as Hs.
      cbv zeta in Hs. rewrite Hv in Hs. rewrite Hs.
      destruct (Re.search_exgm (name filepath)); now left.
    + intros m Hid Hocc.
      destruct (search_exgm_complete m Hid _ Hocc) as [m' Hm'].
      rewrite Hm'. split; [reflexivity|]. now apply search_exgm_sound.
    + intros Hnone. apply search_exgm_none in Hnone. now rewrite Hnone.
  - intros Hname Hcell. unfold parsed_subject_id. rewrite Hcell, Hname.
    reflexivity.
Qed.

(** A file whose subject cell is empty. *)
Definition anonymous_file : string :=
  (header_lines ",,1500 Hz,,,,,,,,,,Shoulder 1-2" ++ data_line "5" "0.1" "0.2")%string.

Lemma subject_id_recovery_witness :
  exists r,
    outcome (process_csv_file 4300 (fun _ => Ok anonymous_file) flat_butter
                              identity_kernel sample_path "baseline") = Ok r
    /\ subject_id r = "exgm047".
Proof.
  assert (H : exists r,
             outcome (process_csv_file 4300 (fun _ => Ok anonymous_file)
                                       flat_butter identity_kernel sample_path
                                       "baseline") = Ok r)
    by (vm_compute; eexists; reflexivity).
  destruct H as (r & H). exists r. split; [exact H|].
  pose proof (subject_id_recovery 4300 (fun _ => Ok anonymous_file) flat_butter
                identity_kernel sample_path "baseline" anonymous_file r H eq_refl)
    as (_ & Hex).
  apply Hex; reflexivity.
Defined.

(** ** The aggregate *)

Section AggregateFacts.

Import PyNum.

(** All the records of an aggregate, subject by subject. *)
Definition all_records (d : dict) : list TrialData := flat_map snd d.

(** The aggregate after a record has been filed under its subject. *)
Definition filed (trial_data : TrialData) (d : dict) : dict :=
  match dict_get (subject_id trial_data) d with
  | Some records => dict_set (subject_id trial_data) (records ++ [trial_data]) d
  | None => dict_set (subject_id trial_data) [trial_data] d
  end.

Lemma dict_get_set_same (k : string) (v : list TrialData) (d : dict) :
  dict_get k (dict_set k v d) = Some v.
Proof.
  induction d as [|[k' v'] d IH]; simpl.
  - now rewrite String.eqb_refl.
  - destruct (String.eqb k k') eqn:E; simpl.
    + now rewrite String.eqb_refl.
    + now rewrite E.
Qed.

Lemma dict_set_set (k : string) (v w : list TrialData) (d : dict) :
  dict_set k w (dict_set k v d) = dict_set k w d.
Proof.
  induction d as [|[k' v'] d IH]; simpl.
  - now rewrite String.eqb_refl.
  - destruct (String.eqb k k') eqn:E; simpl.
    + now rewrite String.eqb_refl.
    + now rewrite E, IH.
Qed.

Lemma all_records_set_new (k : string) (v : list TrialData) (d : dict) :
  dict_get k d = None -> all_records (dict_set k v d) = all_records d ++ v.
Proof.
  unfold all_records.
  induction d as [|[k' v'] d IH]; simpl; intros H.
  - now rewrite app_nil_r.
  - destruct (String.eqb k k'); [discriminate|]. simpl.
    now rewrite IH, app_assoc.
Qed.

Lemma all_records_set_append (k : string) (v : list TrialData)
      (x : TrialData) (d : dict) :
  dict_get k d = Some v ->
  Permutation (all_records (dict_set k (v ++ [x]) d)) (all_records d ++ [x]).
Proof.
  unfold all_records.
  induction d as [|[k' v'] d IH]; simpl; intros H; [discriminate|].
  destruct (String.eqb k k'); simpl.
  - injection H as ->. rewrite <- !app_assoc.
    apply Permutation_app_head. apply Permutation_app_comm.
  - rewrite <- app_assoc. apply Permutation_app_head. now apply IH.
Qed.

Lemma all_records_filed (trial_data : TrialData) (d : dict) :
  Permutation (all_records (filed trial_data d)) (all_records d ++ [trial_data]).
Proof.
  unfold filed. destruct (dict_get _ d) as [v|] eqn:E.
  - now apply all_records_set_append.
  - now rewrite all_records_set_new.
Qed.

Variable max_str_digits : nat.
Variable read_text : Path -> result string.
Variable butter : nat -> float -> result (list float * list float).
Variable filtfilt_kernel :
  list float -> list float -> list float -> result (list float).

Local Abbreviation process_file :=
  (process_csv_file max_str_digits read_text butter filtfilt_kernel).
Local Abbreviation aggregate :=
  (aggregate_file max_str_digits read_text butter filtfilt_kernel).

(** One iteration of the batch loop: a record is filed and counted as a
    success; an exception is reported and counted as a failure, and the
    aggregate stays as it was. *)
Lemma aggregate_file_spec (successful failed : nat) (filepath : Path)
      (session : string) (d : dict) :
  aggregate (successful, failed) (filepath, session) d =
  match outcome (process_file filepath session) with
  | Ok trial_data =>
      (log_of (process_file filepath session),
       Ok (S successful, failed), filed trial_data d)
  | Raise e =>
      (log_of (process_file filepath session)
       ++ [Print (MsgFileError (name filepath) e)],
       Ok (successful, S failed), d)
  end.
Proof.
  unfold aggregate_file, s_try, s_bind, s_lift, s_missing, s_setitem,
    s_append, s_ret, filed.
  destruct (process_file filepath session) as [l [td|e]];
    cbn [fst snd outcome log_of]; [|reflexivity].
  destruct (dict_get (subject_id td) d) as [v|] eqn:E; cbn.
  - rewrite E. now rewrite !app_nil_r.
  - rewrite dict_get_set_same, dict_set_set. now rewrite !app_nil_r.
Qed.

(** The records of the files that process without an exception, in the
    order of the files. *)
Definition successes (files : list (Path * string)) : list TrialData :=
  flat_map (fun file =>
              match outcome (process_file (fst file) (snd file)) with
              | Ok trial_data => [trial_data]
              | Raise _ => []
              end) files.

Definition failures (files : list (Path * string)) : list (Path * string) :=
  filter (fun file => negb (is_ok (outcome (process_file (fst file) (snd file)))))
         files.

(** The batch loop never raises; it files the successes, whatever fails
    before or after them, counts both kinds and reports each failure. *)
Lemma batch_loop_spec (files : list (Path * string)) :
  forall successful failed d,
  exists l d',
    s_for_each aggregate files (successful, failed) d
    = (l, Ok ((successful + List.length (successes files))%nat,
              (failed + List.length (failures files))%nat), d')
    /\ Permutation (all_records d') (all_records d ++ successes files)
    /\ forall filepath session e,
        In (filepath, session) files ->
        outcome (process_file filepath session) = Raise e ->
        In (Print (MsgFileError (name filepath) e)) l.
Proof.
  induction files as [|[filepath session] files IH]; intros successful failed d.
  - exists [], d. cbn. rewrite !Nat.add_0_r, app_nil_r.
    repeat split; [reflexivity|]. intros ? ? ? [].
  - cbn [s_for_each]. unfold s_bind. rewrite aggregate_file_spec.
    cbn [successes failures flat_map filter fst snd].
    destruct (outcome (process_file filepath session)) as [td|e] eqn:E.
    + destruct (IH (S successful) failed (filed td d)) as (l & d' & Hrun & Hperm & Hlog).
      rewrite Hrun. eexists _, d'. split; [|split].
      * cbn [is_ok negb app List.length]. fold (failures files).
        fold (successes files). rewrite Nat.add_succ_comm. reflexivity.
      * fold (successes files). rewrite Hperm.
        rewrite (all_records_filed td d). rewrite <- app_assoc. reflexivity.
      * intros p s e [Hin|Hin] Hp.
        -- injection Hin as <- <-. congruence.
        -- apply in_or_app. right. eapply Hlog; eassumption.
    + destruct (IH successful (S failed) d) as (l & d' & Hrun & Hperm & Hlog).
      rewrite Hrun. eexists _, d'. split; [|split].
      * cbn [is_ok negb app List.length]. fold (failures files).
        fold (successes files). rewrite Nat.add_succ_comm. reflexivity.
      * exact Hperm.
      * intros p s e' [Hin|Hin] Hp.
        -- injection Hin as <- <-. rewrite E in Hp. injection Hp as <-.
           apply in_or_app. left. apply in_or_app. right. now left.
        -- apply in_or_app. right. eapply Hlog; eassumption.
Qed.

End AggregateFacts.

(** ** The batch *)

(** The files that [process_all_files] collects, baseline first. *)
Definition discovered (dir_exists : Path -> bool) (glob_csv : Path -> list Path)
           (baseline_dir intervention_dir : Path) : list (Path * string) :=
  (if dir_exists baseline_dir
   then map (fun f => (f, "baseline")) (glob_csv baseline_dir) else [])
  ++ (if dir_exists intervention_dir
      then map (fun f => (f, "intervention")) (glob_csv intervention_dir) else []).

Lemma collect_spec (dir_exists : Path -> bool) (glob_csv : Path -> list Path)
      (directory : Path) (session : string) (not_found : Path -> message) :
  collect dir_exists glob_csv directory session not_found
  = ([if dir_exists directory
      then Print (MsgFound session (List.length (glob_csv directory)))
      else Warn (not_found directory)],
     Ok (if dir_exists directory
         then map (fun f => (f, session)) (glob_csv directory) else [])).
Proof. unfold collect. destruct (dir_exists directory); reflexivity. Qed.

(** C2. Whatever files are discovered and whatever aggregate the processor
    starts from, [process_all_files] returns (it never raises): every file
    whose processing raises is reported with its name and exception and
    adds nothing to the aggregate, the files after it are still processed,
    and the records of the aggregate are the earlier ones plus exactly one
    per file processed without an exception.  For a fresh processor the
    aggregate holds exactly those records. *)
Theorem batch_survives_failures
        (max_str_digits : nat) (read_text : Path -> result string)
        (butter : nat -> PyNum.float -> result (list PyNum.float * list PyNum.float))
        (filtfilt_kernel : list PyNum.float -> list PyNum.float ->
                           list PyNum.float -> result (list PyNum.float))
        (dir_exists : Path -> bool) (glob_csv : Path -> list Path)
        (baseline_dir intervention_dir : Path) (d : dict) :
  exists l d',
    process_all_files max_str_digits read_text butter filtfilt_kernel
                      dir_exists glob_csv baseline_dir intervention_dir d
    = (l, Ok d', d')
    /\ Permutation
         (all_records d')
         (all_records d
          ++ successes max_str_digits read_text butter filtfilt_kernel
                       (discovered dir_exists glob_csv baseline_dir intervention_dir))
    /\ (List.length (all_records d')
        = List.length (all_records d)
          + (List.length (discovered dir_exists glob_csv baseline_dir intervention_dir)
             - List.length (failures max_str_digits read_text butter filtfilt_kernel
                              (discovered dir_exists glob_csv baseline_dir
                                          intervention_dir))))%nat
    /\ forall filepath session e,
        In (filepath, session)
           (discovered dir_exists glob_csv baseline_dir intervention_dir) ->
        outcome (process_csv_file max_str_digits read_text butter filtfilt_kernel
                                  filepath session) = Raise e ->
        In (Print (MsgFileError (name filepath) e)) l.
Proof.
  unfold process_all_files, s_bind, s_lift, s_get.
  rewrite !collect_spec. cbn [fst snd].
  fold (discovered dir_exists glob_csv baseline_dir intervention_dir).
  set (files := discovered dir_exists glob_csv baseline_dir intervention_dir).
  assert (Hcount : forall fs,
             (List.length (successes max_str_digits read_text butter
                                     filtfilt_kernel fs)
              = List.length fs
                - List.length (failures max_str_digits read_text butter
                                        filtfilt_kernel fs))%nat).
  { induction fs as [|f fs IH]; [reflexivity|].
    unfold successes, failures in *. cbn [flat_map filter].
    pose proof (filter_length_le
                  (fun file => negb (is_ok (outcome
                     (process_csv_file max_str_digits read_text butter
                        filtfilt_kernel (fst file) (snd file))))) fs) as Hle.
    destruct (outcome _); cbn [is_ok negb app List.length] in *; lia. }
  destruct files as [|file files'] eqn:Efiles.
  - eexists _, d. split; [reflexivity|]. cbn. rewrite app_nil_r.
    split; [reflexivity|]. split; [lia|]. intros ? ? ? [].
  - rewrite <- Efiles.
    destruct (batch_loop_spec max_str_digits read_text butter filtfilt_kernel
                files 0%nat 0%nat d) as (l & d' & Hrun & Hperm & Hlog).
    rewrite Hrun. eexists _, d'. split; [reflexivity|].
    split; [exact Hperm|]. split.
    + rewrite (Permutation_length Hperm), length_app, Hcount. reflexivity.
    + intros p s e Hin Hp. specialize (Hlog p s e Hin Hp).
      cbn [In app]. rewrite ?in_app_iff. tauto.
Qed.

(** A concrete batch: in each directory a file that fails (a window of one
    sample, an unreadable file) comes before a file that succeeds. *)
Definition batch_read_text (filepath : Path) : result string :=
  if String.eqb (name filepath) "short.csv"
  then Ok (header_lines ",,1500 Hz,,,,,exgm010,,,,,Shoulder 1-2"
           ++ data_line "12.5" "0.3" "0.4")%string
  else if String.eqb (name filepath) "missing.csv" then Raise OSError
  else Ok early_file.

Definition baseline_path : Path := {| parent := "data"; name := "baseline" |}.
Definition intervention_path : Path :=
  {| parent := "data"; name := "intervention" |}.

Definition batch_glob (directory : Path) : list Path :=
  if String.eqb (name directory) "baseline"
  then [{| parent := "data/baseline"; name := "short.csv" |};
        {| parent := "data/baseline"; name := "exgm010_shoulder1-1.csv" |}]
  else [{| parent := "data/intervention"; name := "missing.csv" |};
        {| parent := "data/intervention"; name := "exgm010_shoulder2-1.csv" |}].

Definition is_file_error (ev : event) : bool :=
  match ev with Print (MsgFileError _ _) => true | _ => false end.

Example batch_run :
  let run := process_all_files 4300 batch_read_text flat_butter identity_kernel
                               (fun _ => true) batch_glob
                               baseline_path intervention_path [] in
  snd (fst run) = Ok (snd run)
  /\ map fst (snd run) = ["exgm010"]
  /\ map session (all_records (snd run)) = ["baseline"; "intervention"]
  /\ filter is_file_error (fst (fst run))
     = [Print (MsgFileError "short.csv" ValueError);
        Print (MsgFileError "missing.csv" OSError)].
Proof. vm_compute. repeat split; reflexivity. Qed.

(** ** Windows shorter than the padding of the filter *)

(** One sample in the window. *)
Definition single_sample_file : string :=
  (header_lines ",,1500 Hz,,,,,exgm010,,,,,Shoulder 1-2"
   ++ data_line "12.5" "0.3" "0.4")%string.

Lemma flat_butter_taps (n : nat) (wn : PyNum.float) (b a : list PyNum.float) :
  flat_butter n wn = Ok (b, a) ->
  List.length b = S n /\ List.length a = S n.
Proof.
  unfold flat_butter. intros H. injection H as <- <-.
  split; apply (repeat_length (S754_zero false) (S n)).
Qed.

Section ShortWindows.

Import PyNum.

Variable butter : nat -> float -> result (list float * list float).
Variable filtfilt_kernel :
  list float -> list float -> list float -> result (list float).

(** The design of order [N] has [N + 1] numerator and [N + 1] denominator
    coefficients. *)
Hypothesis butter_taps :
  forall n wn b a, butter n wn = Ok (b, a) ->
                   List.length b = S n /\ List.length a = S n.

(** With the fourth-order design the padding is 15 samples: an input of at
    most 15 samples makes [apply_butterworth_filter] raise, at whatever
    sampling rate. *)
Lemma apply_butterworth_filter_short (data : list float) (sampling_rate : Z) :
  (List.length data <= 15)%nat ->
  exists e,
    apply_butterworth_filter butter filtfilt_kernel data sampling_rate
    = ([], Raise e).
Proof.
  intros Hlen. unfold apply_butterworth_filter.
  destruct (int_truediv sampling_rate 2) as [nyquist|e]; [|eexists; reflexivity].
  rewrite bind_lift_ok.
  destruct (int_float_truediv filter_cutoff nyquist) as [wn|e]; [|eexists; reflexivity].
  rewrite bind_lift_ok.
  destruct (butter filter_order wn) as [[b a]|e] eqn:Eb; [|eexists; reflexivity].
  rewrite bind_lift_ok.
  destruct (butter_taps _ _ _ _ Eb) as [Hb Ha].
  unfold filtfilt. rewrite Ha, Hb. unfold filter_order.
  replace (List.length data <=? 3 * Nat.max 5 5)%nat with true
    by (symmetry; apply Nat.leb_le; simpl; lia).
  eexists. reflexivity.
Qed.

End ShortWindows.

(** C9. The guard before filtering covers only the empty window.  For a
    readable file with at least one and at most 15 samples in the window
    (the padding of the fourth-order filter is 15 samples),
    [apply_butterworth_filter] raises on the windowed medial-lateral
    sequence, [process_csv_file] raises, and the batch loop counts the file
    as failed and leaves the aggregate as it was: no record with short
    filtered sequences is produced. *)
Theorem short_window_file_is_dropped
        (max_str_digits : nat) (read_text : Path -> result string)
        (butter : nat -> PyNum.float -> result (list PyNum.float * list PyNum.float))
        (filtfilt_kernel : list PyNum.float -> list PyNum.float ->
                           list PyNum.float -> result (list PyNum.float))
        (filepath : Path) (session text : string) :
  (forall n wn b a, butter n wn = Ok (b, a) ->
                    List.length b = S n /\ List.length a = S n) ->
  read_text filepath = Ok text ->
  (1 <= List.length (window_time (tokenize text)) <= 15)%nat ->
  exists e,
    apply_butterworth_filter
      butter filtfilt_kernel (window_ml (tokenize text))
      (sampling_rate_of max_str_digits (metadata_row_of (tokenize text)))
    = ([], Raise e)
    /\ outcome (process_csv_file max_str_digits read_text butter filtfilt_kernel
                                 filepath session) = Raise e
    /\ forall successful failed d,
        exists l,
          aggregate_file max_str_digits read_text butter filtfilt_kernel
                         (successful, failed) (filepath, session) d
          = (l, Ok (successful, S failed), d).
Proof.
  intros Htaps Hr [Hlo Hhi].
  destruct (window_lengths (tokenize text)) as [Hml _].
  destruct (apply_butterworth_filter_short butter filtfilt_kernel Htaps
              (window_ml (tokenize text))
              (sampling_rate_of max_str_digits (metadata_row_of (tokenize text))))
    as [e He]; [lia|].
  assert (Hout : outcome (process_csv_file max_str_digits read_text butter
                            filtfilt_kernel filepath session) = Raise e).
  { rewrite process_csv_file_spec, Hr. cbv zeta. cbn [outcome snd].
    rewrite process_rows_spec. cbn [outcome snd].
    rewrite filter_step_nonempty
      by (destruct (window_time (tokenize text)); [simpl in Hlo; lia|discriminate]).
    rewrite He. reflexivity. }
  exists e. split; [exact He|]. split; [exact Hout|].
  intros successful failed d. rewrite aggregate_file_spec, Hout. eauto.
Qed.

Lemma short_window_file_is_dropped_witness :
  List.length (window_time (tokenize single_sample_file)) = 1%nat
  /\ exists e,
      outcome (process_csv_file 4300 (fun _ => Ok single_sample_file) flat_butter
                                identity_kernel sample_path "baseline") = Raise e
      /\ exists l,
          aggregate_file 4300 (fun _ => Ok single_sample_file) flat_butter
                         identity_kernel (0, 0)%nat (sample_path, "baseline") []
          = (l, Ok (0, 1)%nat, []).
Proof.
  split; [vm_compute; reflexivity|].
  destruct (short_window_file_is_dropped
              4300 (fun _ => Ok single_sample_file) flat_butter identity_kernel
              sample_path "baseline" single_sample_file flat_butter_taps eq_refl)
    as (e & _ & Hout & Hagg).
  - vm_compute. split; repeat constructor.
  - exists e. split; [exact Hout|]. exact (Hagg 0%nat 0%nat []).
Defined.

(** ** Rounding in [SFdiv]: the accuracy of the two divisions *)

Section Rounding.

Local Open Scope Z_scope.

(** The position of a remainder [rho] within a step of width [D], as the round and sticky bits record it. *)
Definition loc_code (r s : bool) (rho D : Z) : Prop :=
  match r, s with
  | false, false => rho = 0
  | false, true => 0 < rho /\ 2 * rho < D
  | true, false => 2 * rho = D
  | true, true => D < 2 * rho
  end.

(** [mrs] records the quotient of [N] by [D] and where the remainder lies. *)
Definition represents (N D : Z) (mrs : shr_record) : Prop :=
  0 < D /\ 0 <= shr_m mrs /\
  exists rho, N = shr_m mrs * D + rho /\ 0 <= rho < D
              /\ loc_code (shr_r mrs) (shr_s mrs) rho D.

Lemma shr_1_represents (N D : Z) (mrs : shr_record) :
  represents N D mrs -> represents N (2 * D) (shr_1 mrs).
Proof.
  destruct mrs as [m r s]. unfold represents. cbn [shr_m shr_r shr_s].
  intros (HD & Hm & rho & HN & Hrho & Hloc).
  destruct m as [|[p|p|]|p]; [| | | |lia]; cbn [shr_1 shr_m shr_r shr_s];
    (split; [lia|]); (split; [lia|]).
  - exists rho. destruct r, s; cbn [orb loc_code] in *; lia.
  - exists (D + rho). destruct r, s; cbn [orb loc_code] in *; lia.
  - exists rho. destruct r, s; cbn [orb loc_code] in *; lia.
  - exists (D + rho). destruct r, s; cbn [orb loc_code] in *; lia.
Qed.

Lemma pow2_xO (n : positive) : 2 ^ Zpos n~0 = 2 ^ Zpos n * 2 ^ Zpos n.
Proof.
  replace (Zpos n~0) with (Zpos n + Zpos n) by lia.
  now rewrite Z.pow_add_r by lia.
Qed.

Lemma pow2_xI (n : positive) : 2 ^ Zpos n~1 = 2 ^ Zpos n * (2 ^ Zpos n * 2).
Proof.
  replace (Zpos n~1) with (Zpos n + (Zpos n + 1)) by lia.
  rewrite !Z.pow_add_r by lia. now rewrite Z.pow_1_r.
Qed.

Lemma iter_pos_shr_1_represents (N : Z) (n : positive) :
  forall D mrs, represents N D mrs ->
                represents N (2 ^ Zpos n * D) (SpecFloat.iter_pos shr_1 n mrs).
Proof.
  induction n as [n IH|n IH|]; intros D mrs H; cbn [SpecFloat.iter_pos].
  - apply shr_1_represents in H. apply IH in H. apply IH in H.
    rewrite pow2_xI. rewrite <- !Z.mul_assoc. exact H.
  - apply IH in H. apply IH in H.
    rewrite pow2_xO. rewrite <- !Z.mul_assoc. exact H.
  - apply shr_1_represents in H. exact H.
Qed.

Lemma shr_represents (N D : Z) (mrs : shr_record) (e n : Z) :
  represents N D mrs ->
  represents N (2 ^ Z.max 0 n * D) (fst (shr mrs e n))
  /\ snd (shr mrs e n) = e + Z.max 0 n.
Proof.
  intros H. unfold shr. destruct n as [|p|p]; cbn [fst snd].
  - change (Z.max 0 0) with 0. rewrite Z.pow_0_r, Z.mul_1_l, Z.add_0_r. auto.
  - rewrite Z.max_r by lia. split; [|reflexivity].
    now apply iter_pos_shr_1_represents.
  - rewrite Z.max_l by lia. rewrite Z.pow_0_r, Z.mul_1_l, Z.add_0_r. auto.
Qed.

Lemma new_location_represents (q my r : Z) :
  0 <= q -> 0 < my -> 0 <= r < my ->
  represents (q * my + r) my (shr_record_of_loc q (new_location my r)).
Proof.
  intros Hq Hmy Hr. unfold represents.
  assert (Hm : forall l, shr_m (shr_record_of_loc q l) = q)
    by (intros [|[]]; reflexivity).
  rewrite Hm. split; [exact Hmy|]. split; [exact Hq|]. exists r.
  split; [reflexivity|]. split; [exact Hr|].
  unfold new_location, new_location_even, new_location_odd.
  destruct (Z.even my) eqn:Heven.
  - destruct (Z.eqb_spec r 0) as [->|Hr0]; [reflexivity|].
    destruct (Z.compare_spec (2 * r) my);
      cbn [shr_record_of_loc shr_r shr_s loc_code]; lia.
  - destruct (Z.eqb_spec r 0) as [->|Hr0]; [reflexivity|].
    assert (Hodd : my <> 2 * r).
    { intros ->. rewrite Z.even_mul in Heven. discriminate. }
    destruct (Z.compare_spec (2 * r + 1) my);
      cbn [shr_record_of_loc shr_r shr_s loc_code]; lia.
Qed.

Lemma round_nearest_even_represents (N D : Z) (mrs : shr_record) :
  represents N D mrs ->
  let mr := round_nearest_even (shr_m mrs) (loc_of_shr_record mrs) in
  shr_m mrs <= mr <= shr_m mrs + 1
  /\ D * (2 * mr - 1) <= 2 * N <= D * (2 * mr + 1).
Proof.
  destruct mrs as [m r s]. unfold represents. cbn [shr_m shr_r shr_s].
  intros (HD & Hm & rho & -> & Hrho & Hloc).
  destruct r, s; cbn [loc_of_shr_record round_nearest_even loc_code] in *;
    try destruct (Z.even m); nia.
Qed.

Lemma digits2_pos_bounds (p : positive) :
  2 ^ (Zpos (digits2_pos p) - 1) <= Zpos p < 2 ^ Zpos (digits2_pos p).
Proof.
  induction p as [p IH|p IH|]; cbn [digits2_pos].
  - rewrite Pos2Z.inj_succ, <- Z.add_1_r, Z.add_simpl_r, Z.pow_add_r, Z.pow_1_r by lia.
    replace (Zpos (digits2_pos p)) with (Zpos (digits2_pos p) - 1 + 1) at 1 by lia.
    rewrite Z.pow_add_r, Z.pow_1_r by lia. lia.
  - rewrite Pos2Z.inj_succ, <- Z.add_1_r, Z.add_simpl_r, Z.pow_add_r, Z.pow_1_r by lia.
    replace (Zpos (digits2_pos p)) with (Zpos (digits2_pos p) - 1 + 1) at 1 by lia.
    rewrite Z.pow_add_r, Z.pow_1_r by lia. lia.
  - cbn. lia.
Qed.

Lemma Zdigits2_bounds (m : Z) :
  0 < m -> 0 < Zdigits2 m /\ 2 ^ (Zdigits2 m - 1) <= m < 2 ^ Zdigits2 m.
Proof.
  destruct m as [|p|p]; try lia. intros _. cbn [Zdigits2].
  split; [lia|]. apply digits2_pos_bounds.
Qed.

Lemma fexp_binary64 (e : Z) : fexp 53 1024 e = Z.max (e - 53) (-1074).
Proof. reflexivity. Qed.

Lemma shr_nonpositive (mrs : shr_record) (e n : Z) :
  n <= 0 -> shr mrs e n = (mrs, e).
Proof. intros H. unfold shr. destruct n; [reflexivity|lia|reflexivity]. Qed.

Lemma pow2_pos (k : Z) : 0 <= k -> 0 < 2 ^ k.
Proof. intros H. apply Z.pow_pos_nonneg; lia. Qed.

(** What [binary_round_aux] returns on a positive quotient [q] of [N] by
    [D] at exponent [e]: the mantissa [mr] nearest to [N / (2^k1 * D)],
    where [k1] bits are shifted out, renormalized by [k2] bits when the
    rounding carries. *)
Lemma binary_round_aux_spec (sx : bool) (q e : Z) (loc : location) (N D : Z) :
  0 < q ->
  represents N D (shr_record_of_loc q loc) ->
  exists k1 mr m k2,
    k1 = Z.max 0 (fexp 53 1024 (Zdigits2 q + e) - e)
    /\ 2 ^ k1 * D * (2 * mr - 1) <= 2 * N <= 2 ^ k1 * D * (2 * mr + 1)
    /\ q / 2 ^ k1 <= mr <= q / 2 ^ k1 + 1
    /\ mr = m * 2 ^ k2 /\ (k2 = 0 \/ k2 = 1 /\ m = 2 ^ 52) /\ 0 <= m < 2 ^ 53
    /\ binary_round_aux 53 1024 sx q e loc
       = match m with
         | Z0 => S754_zero sx
         | Zpos p =>
             if e + k1 + k2 <=? 971
             then S754_finite sx p (e + k1 + k2) else S754_infinity sx
         | Zneg _ => S754_nan
         end.
Proof.
  intros Hq Hrep.
  assert (Hq' : shr_m (shr_record_of_loc q loc) = q)
    by (destruct loc as [|[]]; reflexivity).
  pose proof Hrep as (HD & _ & rho & HN & Hrho & _). rewrite Hq' in HN.
  unfold binary_round_aux, shr_fexp.
  set (n1 := fexp 53 1024 (Zdigits2 q + e) - e).
  set (k1 := Z.max 0 n1).
  destruct (shr_represents N D _ e n1 Hrep) as [Hrep1 He1]. fold k1 in Hrep1, He1.
  destruct (shr (shr_record_of_loc q loc) e n1) as [mrs1 e1]. cbn [fst snd] in *.
  pose proof (round_nearest_even_represents _ _ _ Hrep1) as Hround. cbv zeta in Hround.
  set (mr := round_nearest_even (shr_m mrs1) (loc_of_shr_record mrs1)) in *.
  destruct Hround as [Hmr Hacc].
  destruct Hrep1 as (HPD & Hm0 & rho1 & HN1 & Hrho1 & _).
  assert (HP : 0 < 2 ^ k1) by (apply pow2_pos; unfold k1; lia).
  set (P := 2 ^ k1) in *. set (m0 := shr_m mrs1) in *.
  assert (Hdiv : m0 = q / P).
  { apply Z.div_unique with (r := q - P * m0); [|lia]. nia. }
  destruct (Zdigits2_bounds q Hq) as [Hdq [Hdlo Hdhi]].
  assert (Hk1 : Zdigits2 q <= 53 + k1).
  { unfold k1, n1. rewrite fexp_binary64. lia. }
  assert (Hm053 : m0 < 2 ^ 53).
  { assert (2 ^ Zdigits2 q <= 2 ^ (53 + k1)) by (apply Z.pow_le_mono_r; lia).
    rewrite Z.pow_add_r in H by (unfold k1; lia). fold P in H. nia. }
  assert (He1min : -1074 <= e1).
  { subst e1. unfold k1, n1. rewrite fexp_binary64. lia. }
  pose proof Hdiv as Hdiv'. unfold P in Hdiv'.
  exists k1, mr.
  assert (Hcases : mr = 0 \/ 0 < mr < 2 ^ 53 \/ mr = 2 ^ 53) by lia.
  destruct Hcases as [Hz | [Hmid | Hcarry]].
  - exists 0, 0. rewrite Hz in *. cbn [Zdigits2].
    rewrite shr_nonpositive by (rewrite fexp_binary64; lia).
    cbn [shr_record_of_loc shr_m]. rewrite <- Hdiv'.
    repeat split; lia.
  - exists mr, 0.
    destruct (Zdigits2_bounds mr (proj1 Hmid)) as [Hdm [Hdmlo _]].
    assert (Hdm53 : Zdigits2 mr <= 53).
    { destruct (Z_le_gt_dec (Zdigits2 mr) 53) as [|Hgt]; [assumption|exfalso].
      assert (2 ^ 53 <= 2 ^ (Zdigits2 mr - 1)) by (apply Z.pow_le_mono_r; lia).
      lia. }
    rewrite shr_nonpositive by (rewrite fexp_binary64; lia).
    cbn [shr_record_of_loc shr_m]. rewrite <- Hdiv'.
    rewrite Z.pow_0_r, Z.mul_1_r, Z.add_0_r.
    repeat split; try lia.
    destruct mr as [|p|p]; try lia. subst e1. reflexivity.
  - exists (2 ^ 52), 1. rewrite Hcarry in *.
    replace (fexp 53 1024 (Zdigits2 (2 ^ 53) + e1) - e1) with 1
      by (rewrite fexp_binary64; change (Zdigits2 (2 ^ 53)) with 54; lia).
    rewrite <- Hdiv'.
    repeat split; try lia; try (right; split; reflexivity).
    cbn [shr shr_record_of_loc]. subst e1.
    reflexivity.
Qed.

Lemma Zdigits2_unique (m k : Z) :
  2 ^ (k - 1) <= m < 2 ^ k -> 0 < k -> Zdigits2 m = k.
Proof.
  intros [Hlo Hhi] Hk.
  assert (Hm : 0 < m) by (pose proof (pow2_pos (k - 1)); lia).
  destruct (Zdigits2_bounds m Hm) as [Hd [Hdlo Hdhi]].
  destruct (Z.lt_trichotomy (Zdigits2 m) k) as [Hlt | [Heq | Hgt]];
    [exfalso | exact Heq | exfalso].
  - assert (2 ^ Zdigits2 m <= 2 ^ (k - 1)) by (apply Z.pow_le_mono_r; lia). lia.
  - assert (2 ^ k <= 2 ^ (Zdigits2 m - 1)) by (apply Z.pow_le_mono_r; lia). lia.
Qed.

(** The quotient of two positive finite floats, by [SFdiv]. *)
Lemma SFdiv_finite_spec (mx my : positive) (ex ey : Z) :
  let e' := Z.min (fexp 53 1024 (Zdigits2 (Zpos mx) + ex - (Zdigits2 (Zpos my) + ey)))
                  (ex - ey) in
  let N := Zpos mx * 2 ^ (ex - ey - e') in
  let q := N / Zpos my in
  0 < q ->
  exists k1 mr m k2,
    k1 = Z.max 0 (fexp 53 1024 (Zdigits2 q + e') - e')
    /\ 2 ^ k1 * Zpos my * (2 * mr - 1) <= 2 * N <= 2 ^ k1 * Zpos my * (2 * mr + 1)
    /\ q / 2 ^ k1 <= mr <= q / 2 ^ k1 + 1
    /\ mr = m * 2 ^ k2 /\ (k2 = 0 \/ k2 = 1 /\ m = 2 ^ 52) /\ 0 <= m < 2 ^ 53
    /\ SFdiv 53 1024 (S754_finite false mx ex) (S754_finite false my ey)
       = match m with
         | Z0 => S754_zero false
         | Zpos p =>
             if e' + k1 + k2 <=? 971
             then S754_finite false p (e' + k1 + k2) else S754_infinity false
         | Zneg _ => S754_nan
         end.
Proof.
  intros e' N q Hq.
  assert (Hs : 0 <= ex - ey - e') by (unfold e'; lia).
  assert (Hcore : SFdiv_core_binary 53 1024 (Zpos mx) ex (Zpos my) ey
                  = (q, e', new_location (Zpos my) (N mod Zpos my))).
  { unfold SFdiv_core_binary. fold e'.
    replace (match ex - ey - e' with
             | 0 => Zpos mx
             | Zpos _ => Z.shiftl (Zpos mx) (ex - ey - e')
             | Zneg _ => 0
             end) with N.
    - unfold q, Z.div, Z.modulo. destruct (Z.div_eucl N (Zpos my)). reflexivity.
    - unfold N. destruct (ex - ey - e') as [|p|p] eqn:E; [| |lia].
      + rewrite Z.pow_0_r. lia.
      + rewrite Z.shiftl_mul_pow2 by lia. reflexivity. }
  cbn [SFdiv xorb]. rewrite Hcore.
  apply binary_round_aux_spec; [exact Hq|].
  rewrite (Z.div_mod N (Zpos my)) at 1 by lia. fold q.
  rewrite (Z.mul_comm (Zpos my) q).
  apply new_location_represents; [lia|lia|].
  apply Z.mod_pos_bound. lia.
Qed.

Lemma pow2_split (a b : Z) : 0 <= a -> 0 <= b -> 2 ^ (a + b) = 2 ^ a * 2 ^ b.
Proof. intros. apply Z.pow_add_r; assumption. Qed.

(** The Nyquist frequency [s / 2] of a positive sampling rate: a normal
    float within a relative error of [2^-53], or an overflow for rates of
    [2^1024] and more. *)
Lemma int_truediv_2_spec (s : Z) :
  0 < s ->
  (exists mn en,
      PyNum.int_truediv s 2 = Ok (S754_finite false mn en)
      /\ 2 ^ 52 <= Zpos mn < 2 ^ 53
      /\ -53 <= en <= 971
      /\ Z.abs (Zpos mn * 2 ^ (en + 54) - 2 ^ 53 * s) <= s)
  \/ (PyNum.int_truediv s 2 = Raise OverflowError /\ 2 ^ 1024 <= s).
Proof.
  intros Hs. destruct s as [|ms|ms]; try lia.
  unfold PyNum.int_truediv. cbn [Z.eqb Z.ltb Z.compare xorb Z.abs].
  change PyNum.prec with 53. change PyNum.emax with 1024.
  pose proof (SFdiv_finite_spec ms 2 0 0) as H. cbv zeta in H.
  change (Zdigits2 2) with 2 in H. rewrite !Z.add_0_r, Z.sub_0_r in H.
  destruct (Zdigits2_bounds (Zpos ms) Hs) as [Hd [Hdlo Hdhi]].
  set (d := Zdigits2 (Zpos ms)) in *.
  rewrite fexp_binary64 in H.
  destruct (Z_le_gt_dec d 55) as [Hd55|Hd55].
  - (* the numerator is scaled to 55 bits *)
    replace (Z.min (Z.max (d - 2 - 53) (-1074)) 0) with (d - 55) in H by lia.
    replace (0 - (d - 55)) with (55 - d) in H by lia.
    assert (Hab : 2 ^ (d - 1) * 2 ^ (55 - d) = 2 ^ 54)
      by (rewrite <- pow2_split by lia; f_equal; lia).
    pose proof (pow2_pos (55 - d) ltac:(lia)) as Hb.
    set (a := 2 ^ (d - 1)) in *. set (b := 2 ^ (55 - d)) in *.
    assert (Hda : 2 ^ d = 2 * a).
    { unfold a. replace d with (d - 1 + 1) at 1 by lia.
      rewrite pow2_split by lia. rewrite Z.pow_1_r. lia. }
    set (N := Zpos ms * b) in *.
    assert (HN : 2 ^ 54 <= N < 2 ^ 55) by (unfold N; nia).
    assert (Hq : 2 ^ 53 <= N / 2 < 2 ^ 54).
    { split; [apply Z.div_le_lower_bound; lia|apply Z.div_lt_upper_bound; lia]. }
    rewrite (Zdigits2_unique (N / 2) 54) in H by (change (54 - 1) with 53; lia).
    rewrite fexp_binary64 in H.
    replace (Z.max 0 (Z.max (54 + (d - 55) - 53) (-1074) - (d - 55))) with 1 in H by lia.
    destruct H as (k1 & mr & m & k2 & -> & Hacc & Hmr & Hm & Hk2 & Hm53 & Heq); [lia|].
    rewrite Heq. change (2 ^ 1) with 2 in *.
    assert (Hmr52 : 2 ^ 52 <= mr).
    { assert (2 ^ 52 <= N / 2 / 2) by (apply Z.div_le_lower_bound; lia). lia. }
    assert (Hm52 : 2 ^ 52 <= m).
    { destruct Hk2 as [->|[-> ->]]; [rewrite Z.pow_0_r in Hm|]; lia. }
    destruct m as [|pm|pm]; try lia.
    destruct (Z.leb_spec (d - 55 + 1 + k2) 971) as [He|He].
    + left. exists pm, (d - 55 + 1 + k2). cbn [PyNum.is_infinite].
      split; [reflexivity|]. split; [lia|]. split; [lia|].
      replace (d - 55 + 1 + k2 + 54) with (k2 + d) by lia.
      rewrite pow2_split by lia. rewrite Hda.
      replace (Zpos pm * (2 ^ k2 * (2 * a))) with (mr * (2 * a)) by (rewrite Hm; ring).
      unfold N in Hacc. nia.
    + lia.
  - (* the quotient is the integer half *)
    replace (Z.min (Z.max (d - 2 - 53) (-1074)) 0) with 0 in H by lia.
    rewrite Z.sub_0_r, Z.pow_0_r, Z.mul_1_r, Z.add_0_r in H.
    assert (Hda : 2 ^ d = 2 * 2 ^ (d - 1)).
    { replace d with (d - 1 + 1) at 1 by lia.
      rewrite pow2_split by lia. rewrite Z.pow_1_r. lia. }
    assert (Hda2 : 2 ^ (d - 1) = 2 * 2 ^ (d - 2)).
    { replace (d - 1) with (d - 2 + 1) at 1 by lia.
      rewrite pow2_split by lia. rewrite Z.pow_1_r. lia. }
    assert (Hq : 2 ^ (d - 2) <= Zpos ms / 2 < 2 ^ (d - 1)).
    { split; [apply Z.div_le_lower_bound; lia|apply Z.div_lt_upper_bound; lia]. }
    rewrite (Zdigits2_unique (Zpos ms / 2) (d - 1)) in H
      by (replace (d - 1 - 1) with (d - 2) by lia; lia).
    rewrite fexp_binary64 in H.
    replace (Z.max 0 (Z.max (d - 1 - 53) (-1074) - 0)) with (d - 54) in H by lia.
    pose proof (pow2_pos (d - 2) ltac:(lia)) as Hpos2.
    destruct H as (k1 & mr & m & k2 & -> & Hacc & Hmr & Hm & Hk2 & Hm53 & Heq); [lia|].
    rewrite Heq.
    assert (Hsplit : 2 ^ (d - 2) = 2 ^ 52 * 2 ^ (d - 54))
      by (rewrite <- pow2_split by lia; f_equal; lia).
    pose proof (pow2_pos (d - 54) ltac:(lia)) as Hc.
    set (c := 2 ^ (d - 54)) in *.
    assert (Hmr52 : 2 ^ 52 <= mr).
    { assert (2 ^ 52 <= Zpos ms / 2 / c) by (apply Z.div_le_lower_bound; lia). lia. }
    assert (Hm52 : 2 ^ 52 <= m).
    { destruct Hk2 as [->|[-> ->]]; [rewrite Z.pow_0_r in Hm|]; lia. }
    destruct m as [|pm|pm]; try lia.
    destruct (Z.leb_spec (0 + (d - 54) + k2) 971) as [He|He].
    + left. exists pm, (0 + (d - 54) + k2). cbn [PyNum.is_infinite].
      split; [reflexivity|]. split; [lia|]. split; [lia|].
      replace (0 + (d - 54) + k2 + 54) with (k2 + d) by lia.
      rewrite pow2_split by lia. rewrite Hda, Hda2, Hsplit.
      replace (Zpos pm * (2 ^ k2 * (2 * (2 * (2 ^ 52 * c)))))
        with (mr * (2 ^ 54 * c)) by (rewrite Hm; ring).
      nia.
    + right. cbn [PyNum.is_infinite]. split; [reflexivity|].
      assert (2 ^ 1024 <= 2 ^ (d - 1)) by (apply Z.pow_le_mono_r; lia). lia.
Qed.

(** The cutoff [5 / nyquist] for a normal positive [nyquist]: a finite
    float [mw * 2^ew]; with [A = mw * 2^K] the product [A * mn] is within
    half a unit [U] of [5 * 2^103], a unit being at most [2^-52] of it. *)
Lemma int_float_truediv_5_spec (mn : positive) (en : Z) :
  2 ^ 52 <= Zpos mn < 2 ^ 53 ->
  -53 <= en <= 971 ->
  exists mw ew K U,
    PyNum.int_float_truediv 5 (S754_finite false mn en)
    = Ok (S754_finite false mw ew)
    /\ ew = -103 - en + K /\ 0 <= K <= 2
    /\ U * 2 ^ 52 <= Zpos mw * 2 ^ K * Zpos mn
    /\ Z.abs (2 * (Zpos mw * 2 ^ K * Zpos mn) - 10 * 2 ^ 103) <= U.
Proof.
  intros Hmn Hen. unfold PyNum.int_float_truediv.
  change (PyNum.float_of_int 5) with (Ok (S754_finite false 5629499534213120 (-50))).
  unfold PyNum.float_truediv. cbn [PyNum.is_zero].
  change PyNum.prec with 53. change PyNum.emax with 1024.
  pose proof (SFdiv_finite_spec 5629499534213120 mn (-50) en) as H. cbv zeta in H.
  change (Zdigits2 5629499534213120) with 53 in H.
  rewrite (Zdigits2_unique (Zpos mn) 53) in H by (change (53 - 1) with 52; lia).
  rewrite fexp_binary64 in H.
  replace (Z.min (Z.max (53 + -50 - (53 + en) - 53) (-1074)) (-50 - en))
    with (-103 - en) in H by lia.
  replace (-50 - en - (-103 - en)) with 53 in H by lia.
  change (5629499534213120 * 2 ^ 53) with (5 * 2 ^ 103) in H.
  set (q := 5 * 2 ^ 103 / Zpos mn) in *.
  assert (Hq : 2 ^ 52 <= q < 2 ^ 54).
  { unfold q. split; [apply Z.div_le_lower_bound|apply Z.div_lt_upper_bound]; lia. }
  assert (Hqm : q * Zpos mn <= 5 * 2 ^ 103).
  { unfold q. rewrite Z.mul_comm. apply Z.mul_div_le. lia. }
  destruct (Z_lt_le_dec q (2 ^ 53)) as [Hq53|Hq53].
  - rewrite (Zdigits2_unique q 53) in H by (change (53 - 1) with 52; lia).
    rewrite fexp_binary64 in H.
    replace (Z.max 0 (Z.max (53 + (-103 - en) - 53) (-1074) - (-103 - en)))
      with 0 in H by lia.
    destruct H as (k1 & mr & m & k2 & -> & Hacc & Hmr & Hm & Hk2 & Hm53 & Heq); [lia|].
    rewrite Z.pow_0_r, Z.div_1_r, !Z.mul_1_l in *.
    assert (Hm52 : 2 ^ 52 <= m).
    { destruct Hk2 as [->|[-> ->]]; [rewrite Z.pow_0_r in Hm|]; lia. }
    destruct m as [|pm|pm]; try lia.
    assert (Hk2' : 0 <= k2 <= 1) by lia.
    rewrite Heq. replace (-103 - en + 0 + k2 <=? 971) with true
      by (symmetry; apply Z.leb_le; lia).
    exists pm, (-103 - en + 0 + k2), k2, (Zpos mn).
    split; [reflexivity|]. split; [lia|]. split; [lia|].
    rewrite <- Hm. split; nia.
  - rewrite (Zdigits2_unique q 54) in H by (change (54 - 1) with 53; lia).
    rewrite fexp_binary64 in H.
    replace (Z.max 0 (Z.max (54 + (-103 - en) - 53) (-1074) - (-103 - en)))
      with 1 in H by lia.
    destruct H as (k1 & mr & m & k2 & -> & Hacc & Hmr & Hm & Hk2 & Hm53 & Heq); [lia|].
    change (2 ^ 1) with 2 in *.
    assert (Hmr52 : 2 ^ 52 <= mr).
    { assert (2 ^ 52 <= q / 2) by (apply Z.div_le_lower_bound; lia). lia. }
    assert (Hm52 : 2 ^ 52 <= m).
    { destruct Hk2 as [->|[-> ->]]; [rewrite Z.pow_0_r in Hm|]; lia. }
    destruct m as [|pm|pm]; try lia.
    assert (Hk2' : 0 <= k2 <= 1) by lia.
    rewrite Heq. replace (-103 - en + 1 + k2 <=? 971) with true
      by (symmetry; apply Z.leb_le; lia).
    exists pm, (-103 - en + 1 + k2), (1 + k2), (2 * Zpos mn).
    split; [reflexivity|]. split; [lia|]. split; [lia|].
    rewrite pow2_split by lia. change (2 ^ 1) with 2.
    replace (Zpos pm * (2 * 2 ^ k2)) with (2 * mr) by (rewrite Hm; ring).
    split; nia.
Qed.

(** The two rounding errors together: the product of the cutoff and the
    sampling rate lies within [2^-51] of 10 (all terms scaled by
    [2^102 * T]). *)
Lemma cutoff_error_arith (A mn T s U : Z) :
  0 < s -> 0 < T -> 0 < A -> 0 < mn -> 0 <= U ->
  Z.abs (mn * T - 2 ^ 53 * s) <= s ->
  U * 2 ^ 52 <= A * mn ->
  Z.abs (2 * (A * mn) - 10 * 2 ^ 103) <= U ->
  2 ^ 51 * Z.abs (A * (2 ^ 53 * s) - 10 * 2 ^ 102 * T) <= 10 * 2 ^ 102 * T.
Proof.
  intros Hs HT HA Hmn HU H1 H2 H3.
  set (W := A * mn) in *.
  assert (a1 : W * (2 ^ 53 - 1) <= 5 * 2 ^ 156) by lia.
  assert (a2 : W <= 6 * 2 ^ 103) by lia.
  assert (a3 : s * (2 ^ 53 - 1) <= mn * T) by lia.
  assert (a4 : A * s * (2 ^ 53 - 1) <= W * T).
  { replace (W * T) with (A * (mn * T)) by (unfold W; ring).
    replace (A * s * (2 ^ 53 - 1)) with (A * (s * (2 ^ 53 - 1))) by ring.
    apply Z.mul_le_mono_nonneg_l; lia. }
  assert (a5 : T * U * 2 ^ 52 <= W * T).
  { replace (T * U * 2 ^ 52) with (T * (U * 2 ^ 52)) by ring.
    rewrite (Z.mul_comm W T). apply Z.mul_le_mono_nonneg_l; lia. }
  assert (a6 : 2 * Z.abs (A * (2 ^ 53 * s) - 10 * 2 ^ 102 * T) <= T * U + 2 * (A * s)).
  { replace (2 * Z.abs (A * (2 ^ 53 * s) - 10 * 2 ^ 102 * T))
      with (Z.abs (T * (2 * W - 10 * 2 ^ 103) + 2 * (A * (2 ^ 53 * s - mn * T)))).
    - eapply Z.le_trans; [apply Z.abs_triangle|].
      rewrite !Z.abs_mul. rewrite (Z.abs_eq T), (Z.abs_eq 2), (Z.abs_eq A) by lia.
      apply Z.add_le_mono.
      + apply Z.mul_le_mono_nonneg_l; lia.
      + apply Z.mul_le_mono_nonneg_l; [lia|].
        apply Z.mul_le_mono_nonneg_l; lia.
    - replace (T * (2 * W - 10 * 2 ^ 103) + 2 * (A * (2 ^ 53 * s - mn * T)))
        with (2 * (A * (2 ^ 53 * s) - 10 * 2 ^ 102 * T)) by (unfold W; ring).
      rewrite Z.abs_mul. reflexivity. }
  assert (a7 : W * T * (2 ^ 54 - 1) <= 40 * 2 ^ 102 * T * (2 ^ 53 - 1)).
  { replace (W * T * (2 ^ 54 - 1)) with (T * (W * (2 ^ 54 - 1))) by ring.
    replace (40 * 2 ^ 102 * T * (2 ^ 53 - 1)) with (T * (40 * 2 ^ 102 * (2 ^ 53 - 1))) by ring.
    apply Z.mul_le_mono_nonneg_l; lia. }
  set (X := Z.abs (A * (2 ^ 53 * s) - 10 * 2 ^ 102 * T)) in *.
  set (Y := W * T) in *. set (AS := A * s) in *. set (TU := T * U) in *.
  lia.
Qed.

(** For a positive sampling rate the cutoff is a finite positive float
    whose product with the rate is within [10 * 2^-51] of 10, unless the
    rate is so large that halving it overflows. *)
Lemma normalized_cutoff_accurate_Z (s : Z) :
  0 < s ->
  (exists mw ew,
      normalized_cutoff s = Ok (S754_finite false mw ew)
      /\ ew < 0
      /\ 2 ^ 51 * Z.abs (Zpos mw * s - 10 * 2 ^ (- ew)) <= 10 * 2 ^ (- ew))
  \/ (normalized_cutoff s = Raise OverflowError /\ 2 ^ 1024 <= s).
Proof.
  intros Hs. unfold normalized_cutoff.
  destruct (int_truediv_2_spec s Hs) as [(mn & en & -> & Hmn & Hen & H1)|[-> Hbig]];
    [left|right; auto].
  destruct (int_float_truediv_5_spec mn en Hmn Hen)
    as (mw & ew & K & U & Heq & -> & HK & H2 & H3).
  exists mw, (-103 - en + K). split; [exact Heq|]. split; [lia|].
  replace (- (-103 - en + K)) with (103 + en - K) by lia.
  pose proof (pow2_pos K ltac:(lia)) as HK2.
  pose proof (pow2_pos (en + 54) ltac:(lia)) as HT.
  pose proof (pow2_pos (103 + en - K) ltac:(lia)) as HP.
  assert (HPK : 2 ^ (103 + en - K) * 2 ^ K * 2 ^ 5 = 2 ^ (en + 54) * 2 ^ 54).
  { rewrite <- !pow2_split by lia. f_equal. lia. }
  set (P := 2 ^ (103 + en - K)) in *. set (K2 := 2 ^ K) in *.
  set (T := 2 ^ (en + 54)) in *.
  assert (HU : 0 <= U) by lia.
  pose proof (cutoff_error_arith (Zpos mw * K2) (Zpos mn) T s U
                Hs HT ltac:(lia) ltac:(lia) HU H1 H2 H3) as Hgoal.
  replace (Zpos mw * K2 * (2 ^ 53 * s) - 10 * 2 ^ 102 * T)
    with (K2 * 2 ^ 53 * (Zpos mw * s - 10 * P)) in Hgoal.
  - rewrite Z.abs_mul, (Z.abs_eq (K2 * 2 ^ 53)) in Hgoal by lia.
    apply Z.mul_le_mono_pos_l with (p := K2 * 2 ^ 53); [lia|].
    replace (K2 * 2 ^ 53 * (10 * P)) with (10 * 2 ^ 102 * T); [lia|].
    change (2 ^ 5) with 32 in HPK. lia.
  - change (2 ^ 5) with 32 in HPK. 
    replace (10 * 2 ^ 102 * T) with (K2 * 2 ^ 53 * (10 * P)) by lia. ring.
Qed.

End Rounding.

(** ** The normalized cutoff *)

(** The rational number that a finite float stands for (0 for the others). *)
Definition value_Q (x : PyNum.float) : Q :=
  match x with
  | S754_finite s m e =>
      let sm := if s then Zneg m else Zpos m in
      if (0 <=? e)%Z then inject_Z (sm * 2 ^ e) else Qmake sm (Z.to_pos (2 ^ (- e)))
  | _ => 0%Q
  end.

Definition is_finite (x : PyNum.float) : bool :=
  match x with S754_finite _ _ _ => true | _ => false end.

Lemma apply_butterworth_filter_cutoff
      (butter : nat -> PyNum.float -> result (list PyNum.float * list PyNum.float))
      (filtfilt_kernel : list PyNum.float -> list PyNum.float ->
                         list PyNum.float -> result (list PyNum.float))
      (data : list PyNum.float) (sampling_rate : Z) :
  apply_butterworth_filter butter filtfilt_kernel data sampling_rate =
  match normalized_cutoff sampling_rate with
  | Ok wn =>
      match butter filter_order wn with
      | Ok (b, a) => ([], filtfilt filtfilt_kernel b a data)
      | Raise e => ([], Raise e)
      end
  | Raise e => ([], Raise e)
  end.
Proof.
  unfold apply_butterworth_filter, normalized_cutoff.
  destruct (PyNum.int_truediv sampling_rate 2) as [nyquist|e]; [|reflexivity].
  rewrite bind_lift_ok.
  destruct (PyNum.int_float_truediv filter_cutoff nyquist) as [wn|e]; [|reflexivity].
  rewrite bind_lift_ok.
  destruct (butter filter_order wn) as [[b a]|e]; [|reflexivity].
  rewrite bind_lift_ok.
  destruct (filtfilt filtfilt_kernel b a data); reflexivity.
Qed.

Section CutoffAccuracy.

Local Open Scope Z_scope.

(** For a positive sampling rate the computed cutoff, as a rational, times
    the rate is within [10 * 2^-51] of 10: the cutoff is [5 / (s / 2)] up to
    the two roundings. *)
Lemma normalized_cutoff_accurate (s : Z) :
  (0 < s)%Z ->
  (exists wn,
      normalized_cutoff s = Ok wn /\ is_finite wn = true
      /\ (Qabs (value_Q wn * inject_Z s - 10) <= Qmake 10 (2 ^ 51))%Q)
  \/ (normalized_cutoff s = Raise OverflowError /\ (2 ^ 1024 <= s)%Z).
Proof.
  intros Hs.
  destruct (normalized_cutoff_accurate_Z s Hs) as [(mw & ew & Heq & Hew & H)|H];
    [left|right; exact H].
  exists (S754_finite false mw ew). split; [exact Heq|]. split; [reflexivity|].
  unfold value_Q. destruct (Z.leb_spec 0 ew) as [|_]; [lia|].
  pose proof (pow2_pos (- ew) ltac:(lia)) as HP.
  unfold Qle, Qabs, Qminus, Qplus, Qmult, Qopp, inject_Z. cbn [Qnum Qden].
  rewrite !Pos.mul_1_r, !Z.mul_1_r, Z2Pos.id by exact HP.
  replace (Zpos mw * s + - (10) * 2 ^ (- ew)) with (Zpos mw * s - 10 * 2 ^ (- ew)) by ring.
  change (Zpos (2 ^ 51)) with (2 ^ 51). lia.
Qed.

End CutoffAccuracy.

(** C6. For every sampling rate [s], the only critical frequency that
    [apply_butterworth_filter] hands to the filter design is the float
    [5 / (s / 2)] computed with Python's divisions (when a division raises,
    so does the call, and nothing is designed).  For every positive [s]
    that float is finite and equals the exact [5 / (s / 2) = 10 / s] up to
    a relative error of [2^-51], unless [s >= 2^1024] makes [s / 2]
    overflow; for [s = 0] the division raises [ZeroDivisionError].  For
    [s = 1500] it is within [2^-60] of [5 / 750] and within [1e-6] of
    [0.006667]. *)
Theorem normalized_cutoff_passed_to_design :
  (forall (butter : nat -> PyNum.float ->
                    result (list PyNum.float * list PyNum.float))
          (filtfilt_kernel : list PyNum.float -> list PyNum.float ->
                             list PyNum.float -> result (list PyNum.float))
          (data : list PyNum.float) (s : Z),
      normalized_cutoff s
      = match PyNum.int_truediv s 2 with
        | Ok nyquist => PyNum.int_float_truediv 5 nyquist
        | Raise e => Raise e
        end
      /\ apply_butterworth_filter butter filtfilt_kernel data s
         = match normalized_cutoff s with
           | Ok wn =>
               match butter 4%nat wn with
               | Ok (b, a) => ([], filtfilt filtfilt_kernel b a data)
               | Raise e => ([], Raise e)
               end
           | Raise e => ([], Raise e)
           end)
  /\ (forall s : Z,
        (0 < s)%Z ->
        (exists wn,
            normalized_cutoff s = Ok wn /\ is_finite wn = true
            /\ (Qabs (value_Q wn * inject_Z s - 10) <= Qmake 10 (2 ^ 51))%Q)
        \/ (normalized_cutoff s = Raise OverflowError /\ (2 ^ 1024 <= s)%Z))
  /\ normalized_cutoff 0 = Raise ZeroDivisionError
  /\ exists wn,
      normalized_cutoff 1500 = Ok wn
      /\ (Qabs (value_Q wn - Qmake 6667 1000000) <= Qmake 1 1000000)%Q
      /\ (Qabs (value_Q wn - Qmake 5 750) <= Qmake 1 (2 ^ 60))%Q.
Proof.
  split; [|split; [|split]].
  - intros butter filtfilt_kernel data s. split; [reflexivity|].
    apply apply_butterworth_filter_cutoff.
  - exact normalized_cutoff_accurate.
  - reflexivity.
  - eexists. split; [vm_compute; reflexivity|].
    split; apply Qle_bool_iff; vm_compute; reflexivity.
Qed.

Lemma normalized_cutoff_passed_to_design_witness :
  exists wn,
    normalized_cutoff 1500 = Ok wn /\ is_finite wn = true
    /\ (Qabs (value_Q wn * inject_Z 1500 - 10) <= Qmake 10 (2 ^ 51))%Q.
Proof.
  destruct normalized_cutoff_passed_to_design as (_ & Hacc & _).
  destruct (Hacc 1500%Z ltac:(lia)) as [H|[H _]].
  - exact H.
  - vm_compute in H. discriminate H.
Defined.

(** * Further properties of the batch and of the aggregate *)

Section BatchRun.

Variable max_str_digits : nat.
Variable read_text : Path -> result string.
Variable butter : nat -> PyNum.float -> result (list PyNum.float * list PyNum.float).
Variable filtfilt_kernel :
  list PyNum.float -> list PyNum.float -> list PyNum.float -> result (list PyNum.float).

Local Abbreviation process_file :=
  (process_csv_file max_str_digits read_text butter filtfilt_kernel).
Local Abbreviation aggregate :=
  (aggregate_file max_str_digits read_text butter filtfilt_kernel).
Local Abbreviation succeeded :=
  (successes max_str_digits read_text butter filtfilt_kernel).
Local Abbreviation failed_files :=
  (failures max_str_digits read_text butter filtfilt_kernel).

(** What the batch loop writes: for each file its own log, then the error
    line when it fails. *)
Definition batch_log (files : list (Path * string)) : list event :=
  flat_map (fun file =>
              log_of (process_file (fst file) (snd file))
              ++ match outcome (process_file (fst file) (snd file)) with
                 | Ok _ => []
                 | Raise e => [Print (MsgFileError (name (fst file)) e)]
                 end) files.

(** The aggregate after the records [records] have been filed in turn. *)
Definition filed_all (records : list TrialData) (d : dict) : dict :=
  fold_left (fun d trial_data => filed trial_data d) records d.

Lemma batch_loop_run (files : list (Path * string)) :
  forall successful failed d,
    s_for_each aggregate files (successful, failed) d
    = (batch_log files,
       Ok ((successful + List.length (succeeded files))%nat,
           (failed + List.length (failed_files files))%nat),
       filed_all (succeeded files) d).
Proof.
  induction files as [|[filepath session] files IH]; intros successful failed d.
  - cbn. now rewrite !Nat.add_0_r.
  - cbn [s_for_each]. unfold s_bind. rewrite aggregate_file_spec.
    unfold successes, failures, batch_log, filed_all in *.
    cbn [flat_map filter fst snd].
    destruct (outcome (process_file filepath session)) as [td|e] eqn:E;
      rewrite IH; cbn [is_ok negb app List.length fold_left];
      rewrite ?app_nil_r, <- ?app_assoc, ?Nat.add_succ_comm; reflexivity.
Qed.

Variable dir_exists : Path -> bool.
Variable glob_csv : Path -> list Path.

Local Abbreviation found := (discovered dir_exists glob_csv).

(** The line that [collect] writes for a directory. *)
Definition collect_line (directory : Path) (session : string)
           (not_found : Path -> message) : event :=
  if dir_exists directory
  then Print (MsgFound session (List.length (glob_csv directory)))
  else Warn (not_found directory).

(** The closing report of a batch. *)
Definition report (successful failed subjects : nat) : list event :=
  [Print MsgRule; Print MsgComplete; Print (MsgSuccessful successful);
   Print (MsgFailed failed); Print (MsgTotalSubjects subjects); Print MsgRule].

Lemma process_all_files_run (baseline_dir intervention_dir : Path) (d : dict) :
  let files := found baseline_dir intervention_dir in
  let d' := filed_all (succeeded files) d in
  process_all_files max_str_digits read_text butter filtfilt_kernel
                    dir_exists glob_csv baseline_dir intervention_dir d
  = (collect_line baseline_dir "baseline" MsgBaselineDirMissing
     :: collect_line intervention_dir "intervention" MsgInterventionDirMissing
     :: match files with
        | [] => [Print MsgNoFiles]
        | _ :: _ =>
            batch_log files
            ++ report (List.length (succeeded files))
                      (List.length (failed_files files)) (List.length d')
        end,
     Ok d', d').
Proof.
  cbv zeta. unfold process_all_files, s_bind, s_lift, s_get.
  rewrite !collect_spec. cbn [fst snd].
  fold (found baseline_dir intervention_dir).
  unfold collect_line.
  destruct (found baseline_dir intervention_dir) as [|file files] eqn:Efiles.
  - reflexivity.
  - rewrite batch_loop_run. cbn [fst snd app Nat.add]. unfold report.
    rewrite ?app_nil_r, <- ?app_assoc. reflexivity.
Qed.

End BatchRun.

(** ** Grouping by subject *)

Section Grouping.

(** Every record of an aggregate sits under its own subject id, and no
    subject id is listed twice. *)
Definition well_grouped (d : dict) : Prop :=
  NoDup (map fst d)
  /\ forall k records r, In (k, records) d -> In r records -> subject_id r = k.

Lemma dict_get_set_other (k k' : string) (v : list TrialData) (d : dict) :
  k <> k' -> dict_get k (dict_set k' v d) = dict_get k d.
Proof.
  intros Hne. induction d as [|[k0 v0] d IH]; simpl.
  - destruct (String.eqb_spec k k'); [contradiction|reflexivity].
  - destruct (String.eqb_spec k' k0) as [->|Hk0]; simpl.
    + destruct (String.eqb_spec k k0); [contradiction|reflexivity].
    + destruct (String.eqb_spec k k0); [reflexivity|exact IH].
Qed.

Lemma dict_get_none_keys (k : string) (d : dict) :
  dict_get k d = None <-> ~ In k (map fst d).
Proof.
  induction d as [|[k0 v0] d IH]; simpl.
  - split; [auto|reflexivity].
  - destruct (String.eqb_spec k k0) as [->|Hne].
    + split; [discriminate|]. intros H. exfalso. apply H. now left.
    + rewrite IH. split.
      * intros H [Heq|Hin]; [congruence|contradiction].
      * intros H Hin. apply H. now right.
Qed.

Lemma dict_get_in (k : string) (v : list TrialData) (d : dict) :
  dict_get k d = Some v -> In (k, v) d.
Proof.
  induction d as [|[k0 v0] d IH]; simpl; [discriminate|].
  destruct (String.eqb_spec k k0) as [->|Hne].
  - intros [= ->]. now left.
  - intros H. right. now apply IH.
Qed.

Lemma keys_dict_set (k : string) (v : list TrialData) (d : dict) :
  map fst (dict_set k v d)
  = match dict_get k d with
    | Some _ => map fst d
    | None => map fst d ++ [k]
    end.
Proof.
  induction d as [|[k0 v0] d IH]; simpl; [reflexivity|].
  destruct (String.eqb_spec k k0) as [->|Hne]; simpl; [reflexivity|].
  rewrite IH. destruct (dict_get k d); reflexivity.
Qed.

Lemma in_dict_set (k : string) (v : list TrialData) (d : dict)
      (k' : string) (v' : list TrialData) :
  In (k', v') (dict_set k v d) -> (k' = k /\ v' = v) \/ In (k', v') d.
Proof.
  induction d as [|[k0 v0] d IH]; simpl.
  - intros [[= <- <-]|[]]. now left.
  - destruct (String.eqb_spec k k0) as [->|Hne]; simpl.
    + intros [[= <- <-]|Hin]; [now left|right; now right].
    + intros [Heq|Hin]; [right; now left|].
      destruct (IH Hin) as [H|H]; [now left|right; now right].
Qed.

(** Looking a subject up after a record has been filed. *)
Lemma dict_get_filed (k : string) (trial_data : TrialData) (d : dict) :
  dict_get k (filed trial_data d)
  = if String.eqb k (subject_id trial_data)
    then Some (match dict_get k d with
               | Some records => records ++ [trial_data]
               | None => [trial_data]
               end)
    else dict_get k d.
Proof.
  unfold filed. destruct (String.eqb_spec k (subject_id trial_data)) as [->|Hne].
  - destruct (dict_get (subject_id trial_data) d); apply dict_get_set_same.
  - destruct (dict_get (subject_id trial_data) d);
      now apply dict_get_set_other.
Qed.

Lemma keys_filed (trial_data : TrialData) (d : dict) :
  map fst (filed trial_data d)
  = if existsb (String.eqb (subject_id trial_data)) (map fst d)
    then map fst d else map fst d ++ [subject_id trial_data].
Proof.
  unfold filed.
  destruct (dict_get (subject_id trial_data) d) as [v|] eqn:E;
    rewrite keys_dict_set, E.
  - replace (existsb _ _) with true; [reflexivity|]. symmetry.
    apply existsb_exists. exists (subject_id trial_data).
    split; [|apply String.eqb_refl].
    apply dict_get_in in E. now apply (in_map fst) in E.
  - replace (existsb _ _) with false; [reflexivity|]. symmetry.
    apply dict_get_none_keys in E.
    destruct (existsb _ _) eqn:Ex; [|reflexivity]. exfalso. apply E.
    apply existsb_exists in Ex. destruct Ex as (k & Hin & Hk).
    apply String.eqb_eq in Hk. now subst k.
Qed.

Lemma filed_well_grouped (trial_data : TrialData) (d : dict) :
  well_grouped d -> well_grouped (filed trial_data d).
Proof.
  intros [Hnd Hin]. split.
  - unfold filed. destruct (dict_get (subject_id trial_data) d) as [v|] eqn:E;
      rewrite keys_dict_set, E; [exact Hnd|].
    apply dict_get_none_keys in E.
    apply NoDup_app; [exact Hnd|repeat constructor; intros []|].
    intros x Hx [<-|[]]. contradiction.
  - intros k records r Hk Hr. unfold filed in Hk.
    destruct (dict_get (subject_id trial_data) d) as [v|] eqn:E;
      apply in_dict_set in Hk; destruct Hk as [[-> ->]|Hk];
      try (eapply Hin; eassumption).
    + apply in_app_or in Hr. destruct Hr as [Hr|[<-|[]]]; [|reflexivity].
      apply dict_get_in in E. eapply Hin; eassumption.
    + destruct Hr as [<-|[]]. reflexivity.
Qed.

Lemma filed_all_well_grouped (records : list TrialData) :
  forall d, well_grouped d -> well_grouped (filed_all records d).
Proof.
  induction records as [|r records IH]; intros d H; [exact H|].
  apply IH. now apply filed_well_grouped.
Qed.

(** The records of subject [k] among [records], in their order. *)
Definition of_subject (k : string) (records : list TrialData) : list TrialData :=
  filter (fun r => String.eqb k (subject_id r)) records.

Lemma dict_get_filed_all (k : string) (records : list TrialData) :
  forall d,
    dict_get k (filed_all records d)
    = match of_subject k records, dict_get k d with
      | [], found => found
      | new, Some old => Some (old ++ new)
      | new, None => Some new
      end.
Proof.
  induction records as [|r records IH]; intros d.
  - cbn. destruct (dict_get k d); reflexivity.
  - cbn [filed_all fold_left of_subject filter].
    change (fold_left _ records ?x) with (filed_all records x).
    rewrite IH, dict_get_filed. fold (of_subject k records).
    destruct (String.eqb k (subject_id r)).
    + destruct (of_subject k records), (dict_get k d); cbn;
        rewrite <- ?app_assoc; reflexivity.
    + reflexivity.
Qed.

End Grouping.

(** The subject ids of [ids] that are not in [seen], each at its first
    occurrence. *)
Fixpoint first_seen (seen ids : list string) : list string :=
  match ids with
  | [] => []
  | k :: ids' =>
      if existsb (String.eqb k) seen then first_seen seen ids'
      else k :: first_seen (k :: seen) ids'
  end.

Lemma existsb_eqb_in (k : string) (l : list string) :
  existsb (String.eqb k) l = true <-> In k l.
Proof.
  rewrite existsb_exists. split.
  - intros (x & Hin & Hx). apply String.eqb_eq in Hx. now subst x.
  - intros H. exists k. split; [exact H|apply String.eqb_refl].
Qed.

Lemma first_seen_ext (ids : list string) :
  forall seen seen',
    (forall k, In k seen <-> In k seen') ->
    first_seen seen ids = first_seen seen' ids.
Proof.
  induction ids as [|k ids IH]; intros seen seen' H; [reflexivity|].
  cbn [first_seen].
  assert (E : existsb (String.eqb k) seen = existsb (String.eqb k) seen').
  { destruct (existsb (String.eqb k) seen) eqn:E1;
      destruct (existsb (String.eqb k) seen') eqn:E2; try reflexivity.
    - apply existsb_eqb_in, H, existsb_eqb_in in E1. congruence.
    - apply existsb_eqb_in, H, existsb_eqb_in in E2. congruence. }
  rewrite E. destruct (existsb (String.eqb k) seen').
  - now apply IH.
  - f_equal. apply IH. intros x. simpl. now rewrite H.
Qed.

Lemma keys_filed_all (records : list TrialData) :
  forall d,
    map fst (filed_all records d)
    = map fst d ++ first_seen (map fst d) (map subject_id records).
Proof.
  induction records as [|r records IH]; intros d.
  - cbn. now rewrite app_nil_r.
  - cbn [filed_all fold_left map first_seen].
    change (fold_left _ records ?x) with (filed_all records x).
    rewrite IH, keys_filed.
    destruct (existsb (String.eqb (subject_id r)) (map fst d)); [reflexivity|].
    rewrite <- app_assoc. cbn [app]. f_equal. f_equal.
    apply first_seen_ext. intros k. rewrite in_app_iff. simpl. tauto.
Qed.

Lemma successes_failures_length
      (max_str_digits : nat) (read_text : Path -> result string)
      (butter : nat -> PyNum.float -> result (list PyNum.float * list PyNum.float))
      (filtfilt_kernel : list PyNum.float -> list PyNum.float ->
                         list PyNum.float -> result (list PyNum.float))
      (files : list (Path * string)) :
  (List.length (successes max_str_digits read_text butter filtfilt_kernel files)
   + List.length (failures max_str_digits read_text butter filtfilt_kernel files)
   = List.length files)%nat.
Proof.
  induction files as [|f files IH]; [reflexivity|].
  unfold successes, failures in *. cbn [flat_map filter].
  destruct (outcome _); cbn [is_ok negb app List.length]; lia.
Qed.

(** X1. [process_all_files] keeps the aggregate grouped: if, before the
    call, every record sits under its own subject id and no subject id is
    listed twice, the same holds afterwards. *)
Theorem aggregate_stays_grouped
        (max_str_digits : nat) (read_text : Path -> result string)
        (butter : nat -> PyNum.float -> result (list PyNum.float * list PyNum.float))
        (filtfilt_kernel : list PyNum.float -> list PyNum.float ->
                           list PyNum.float -> result (list PyNum.float))
        (dir_exists : Path -> bool) (glob_csv : Path -> list Path)
        (baseline_dir intervention_dir : Path) (d : dict) :
  well_grouped d ->
  well_grouped
    (snd (process_all_files max_str_digits read_text butter filtfilt_kernel
                            dir_exists glob_csv baseline_dir intervention_dir d)).
Proof.
  intros H.
  pose proof (process_all_files_run max_str_digits read_text butter
                filtfilt_kernel dir_exists glob_csv baseline_dir
                intervention_dir d) as Hrun.
  cbv zeta in Hrun. rewrite Hrun. cbn [snd].
  now apply filed_all_well_grouped.
Qed.

Lemma aggregate_stays_grouped_witness :
  well_grouped []
  /\ well_grouped
       (snd (process_all_files 4300 batch_read_text flat_butter identity_kernel
                               (fun _ => true) batch_glob
                               baseline_path intervention_path [])).
Proof.
  assert (H : well_grouped []).
  { split; [constructor|]. intros k records r []. }
  split; [exact H|].
  exact (aggregate_stays_grouped 4300 batch_read_text flat_butter identity_kernel
           (fun _ => true) batch_glob baseline_path intervention_path [] H).
Defined.

(** X2. After [process_all_files], the list of a subject is its earlier
    list followed by the records of that subject among the files processed
    without an exception, in discovery order; a subject with no earlier
    list and no such record has no entry. *)
Theorem subject_records_in_discovery_order
        (max_str_digits : nat) (read_text : Path -> result string)
        (butter : nat -> PyNum.float -> result (list PyNum.float * list PyNum.float))
        (filtfilt_kernel : list PyNum.float -> list PyNum.float ->
                           list PyNum.float -> result (list PyNum.float))
        (dir_exists : Path -> bool) (glob_csv : Path -> list Path)
        (baseline_dir intervention_dir : Path) (d : dict) (k : string) :
  dict_get k
    (snd (process_all_files max_str_digits read_text butter filtfilt_kernel
                            dir_exists glob_csv baseline_dir intervention_dir d))
  = match of_subject k (successes max_str_digits read_text butter filtfilt_kernel
                          (discovered dir_exists glob_csv baseline_dir
                                      intervention_dir)),
          dict_get k d with
    | [], earlier => earlier
    | new, Some old => Some (old ++ new)
    | new, None => Some new
    end.
Proof.
  pose proof (process_all_files_run max_str_digits read_text butter
                filtfilt_kernel dir_exists glob_csv baseline_dir
                intervention_dir d) as Hrun.
  cbv zeta in Hrun. rewrite Hrun. cbn [snd]. apply dict_get_filed_all.
Qed.

(** X3. After [process_all_files], the subjects of the aggregate are the
    earlier ones, in their order, followed by the new subjects in the order
    in which their first successfully processed file was discovered. *)
Theorem subjects_in_first_seen_order
        (max_str_digits : nat) (read_text : Path -> result string)
        (butter : nat -> PyNum.float -> result (list PyNum.float * list PyNum.float))
        (filtfilt_kernel : list PyNum.float -> list PyNum.float ->
                           list PyNum.float -> result (list PyNum.float))
        (dir_exists : Path -> bool) (glob_csv : Path -> list Path)
        (baseline_dir intervention_dir : Path) (d : dict) :
  map fst
    (snd (process_all_files max_str_digits read_text butter filtfilt_kernel
                            dir_exists glob_csv baseline_dir intervention_dir d))
  = map fst d
    ++ first_seen (map fst d)
         (map subject_id
              (successes max_str_digits read_text butter filtfilt_kernel
                         (discovered dir_exists glob_csv baseline_dir
                                     intervention_dir))).
Proof.
  pose proof (process_all_files_run max_str_digits read_text butter
                filtfilt_kernel dir_exists glob_csv baseline_dir
                intervention_dir d) as Hrun.
  cbv zeta in Hrun. rewrite Hrun. cbn [snd]. apply keys_filed_all.
Qed.

(** X4. When at least one file is discovered, [process_all_files] ends its
    output with the report: the numbers of successes and failures, which
    add up to the number of discovered files, and the number of subjects
    of the returned aggregate. *)
Theorem batch_report_counts
        (max_str_digits : nat) (read_text : Path -> result string)
        (butter : nat -> PyNum.float -> result (list PyNum.float * list PyNum.float))
        (filtfilt_kernel : list PyNum.float -> list PyNum.float ->
                           list PyNum.float -> result (list PyNum.float))
        (dir_exists : Path -> bool) (glob_csv : Path -> list Path)
        (baseline_dir intervention_dir : Path) (d : dict) :
  discovered dir_exists glob_csv baseline_dir intervention_dir <> [] ->
  exists l successful failed,
    fst (fst (process_all_files max_str_digits read_text butter filtfilt_kernel
                dir_exists glob_csv baseline_dir intervention_dir d))
    = l ++ [Print MsgRule; Print MsgComplete; Print (MsgSuccessful successful);
            Print (MsgFailed failed);
            Print (MsgTotalSubjects
                     (List.length
                        (snd (process_all_files max_str_digits read_text butter
                                filtfilt_kernel dir_exists glob_csv
                                baseline_dir intervention_dir d))));
            Print MsgRule]
    /\ (successful + failed
        = List.length (discovered dir_exists glob_csv baseline_dir intervention_dir))%nat
    /\ successful
       = List.length (successes max_str_digits read_text butter filtfilt_kernel
                        (discovered dir_exists glob_csv baseline_dir
                                    intervention_dir)).
Proof.
  intros Hne.
  pose proof (process_all_files_run max_str_digits read_text butter
                filtfilt_kernel dir_exists glob_csv baseline_dir
                intervention_dir d) as Hrun.
  cbv zeta in Hrun. rewrite Hrun. cbn [fst snd].
  destruct (discovered dir_exists glob_csv baseline_dir intervention_dir)
    as [|file files] eqn:E; [contradiction|].
  eexists (_ :: _ :: batch_log max_str_digits read_text butter filtfilt_kernel
                      (file :: files)), _, _.
  split; [reflexivity|]. split; [|reflexivity].
  apply successes_failures_length.
Qed.

Lemma batch_report_counts_witness :
  exists l,
    fst (fst (process_all_files 4300 batch_read_text flat_butter identity_kernel
                (fun _ => true) batch_glob baseline_path intervention_path []))
    = l ++ [Print MsgRule; Print MsgComplete; Print (MsgSuccessful 2);
            Print (MsgFailed 2); Print (MsgTotalSubjects 1); Print MsgRule].
Proof.
  destruct (batch_report_counts 4300 batch_read_text flat_butter identity_kernel
              (fun _ => true) batch_glob baseline_path intervention_path [])
    as (l & successful & failed & Hlog & Hsum & Hs).
  - vm_compute. discriminate.
  - exists l. rewrite Hlog.
    assert (successful = 2%nat) by (rewrite Hs; vm_compute; reflexivity).
    assert (failed = 2%nat) by (subst successful; vm_compute in Hsum; lia).
    subst. reflexivity.
Defined.

(** X5. When no file is discovered, [process_all_files] reads no file,
    writes one line per directory (the count 0 for an existing one; for a
    missing one the warning of that directory, which interpolates the
    processor's [Path]) and the notice that nothing was found, and returns
    the aggregate unchanged. *)
Theorem no_files_no_change
        (max_str_digits : nat) (read_text : Path -> result string)
        (butter : nat -> PyNum.float -> result (list PyNum.float * list PyNum.float))
        (filtfilt_kernel : list PyNum.float -> list PyNum.float ->
                           list PyNum.float -> result (list PyNum.float))
        (dir_exists : Path -> bool) (glob_csv : Path -> list Path)
        (baseline_dir intervention_dir : Path) (d : dict) :
  discovered dir_exists glob_csv baseline_dir intervention_dir = [] ->
  process_all_files max_str_digits read_text butter filtfilt_kernel
                    dir_exists glob_csv baseline_dir intervention_dir d
  = ([if dir_exists baseline_dir then Print (MsgFound "baseline" 0)
      else Warn (MsgBaselineDirMissing baseline_dir);
      if dir_exists intervention_dir then Print (MsgFound "intervention" 0)
      else Warn (MsgInterventionDirMissing intervention_dir);
      Print MsgNoFiles], Ok d, d).
Proof.
  intros Hnone.
  pose proof (process_all_files_run max_str_digits read_text butter
                filtfilt_kernel dir_exists glob_csv baseline_dir
                intervention_dir d) as Hrun.
  cbv zeta in Hrun. rewrite Hrun, Hnone. cbn [successes flat_map filed_all fold_left].
  unfold collect_line. unfold discovered in Hnone.
  apply app_eq_nil in Hnone. destruct Hnone as [Hb Hi].
  destruct (dir_exists baseline_dir), (dir_exists intervention_dir);
    try (apply (f_equal (@List.length _)) in Hb; rewrite length_map in Hb;
         cbn in Hb; rewrite Hb);
    try (apply (f_equal (@List.length _)) in Hi; rewrite length_map in Hi;
         cbn in Hi; rewrite Hi);
    reflexivity.
Qed.

Lemma no_files_no_change_witness :
  process_all_files 4300 (fun _ => Raise OSError) flat_butter identity_kernel
                    (fun directory => String.eqb (name directory) "baseline")
                    (fun _ => []) baseline_path intervention_path []
  = ([Print (MsgFound "baseline" 0);
      Warn (MsgInterventionDirMissing intervention_path);
      Print MsgNoFiles], Ok [], []).
Proof.
  apply (no_files_no_change 4300 (fun _ => Raise OSError) flat_butter
           identity_kernel
           (fun directory => String.eqb (name directory) "baseline")
           (fun _ => []) baseline_path intervention_path []).
  reflexivity.
Defined.

(** * The summary table, [main] and [test_single_file]: properties *)

(** ** Properties of the summary *)

Lemma all_records_filed_all (records : list TrialData) :
  forall d, Permutation (all_records (filed_all records d))
                        (all_records d ++ records).
Proof.
  induction records as [|r records IH]; intros d.
  - cbn. now rewrite app_nil_r.
  - cbn [filed_all fold_left].
    change (fold_left _ records ?x) with (filed_all records x).
    rewrite IH, (all_records_filed r d), <- app_assoc. reflexivity.
Qed.

Lemma get_summary_all_records
      (np_mean np_std : list PyNum.float -> PyNum.float) (d : dict) :
  get_summary np_mean np_std d = map (summary_row np_mean np_std) (all_records d).
Proof.
  unfold get_summary, all_records.
  induction d as [|[k v] d IH]; [reflexivity|].
  cbn [flat_map snd]. now rewrite map_app, IH.
Qed.

Lemma stat_or_nan_ext (f g : list PyNum.float -> PyNum.float)
      (a : list PyNum.float) :
  (forall x, x <> [] -> f x = g x) -> stat_or_nan f a = stat_or_nan g a.
Proof.
  intros H. unfold stat_or_nan. destruct a as [|x a]; [reflexivity|].
  cbn. apply H. discriminate.
Qed.

(** X6. [get_summary] builds one row per record, in the order of the
    aggregate (subject by subject), and hands [numpy.mean] and [numpy.std]
    non-empty arrays only: two pairs of functions that agree on non-empty
    arrays give the same table, and a record with an empty filtered
    sequence gets NaN for its statistics. *)
Theorem summary_one_row_per_record
        (np_mean np_std np_mean' np_std' : list PyNum.float -> PyNum.float)
        (d : dict) :
  List.length (get_summary np_mean np_std d) = List.length (all_records d)
  /\ map Trial_Name (get_summary np_mean np_std d) = map trial_name (all_records d)
  /\ map Total_Samples (get_summary np_mean np_std d)
     = map (fun r => List.length (time_raw r)) (all_records d)
  /\ (forall row,
         In row (get_summary np_mean np_std d) ->
         exists r, In r (all_records d) /\ row = summary_row np_mean np_std r
                   /\ (ml_filtered r = [] ->
                       ML_Mean row = PyNum.nan /\ ML_Std row = PyNum.nan)
                   /\ (ap_filtered r = [] ->
                       AP_Mean row = PyNum.nan /\ AP_Std row = PyNum.nan))
  /\ ((forall a, a <> [] -> np_mean a = np_mean' a) ->
      (forall a, a <> [] -> np_std a = np_std' a) ->
      get_summary np_mean np_std d = get_summary np_mean' np_std' d).
Proof.
  rewrite !get_summary_all_records.
  split; [apply length_map|].
  split; [rewrite map_map; reflexivity|].
  split; [rewrite map_map; reflexivity|].
  split.
  - intros row Hin. apply in_map_iff in Hin. destruct Hin as (r & <- & Hr).
    exists r. split; [exact Hr|]. split; [reflexivity|].
    cbn [summary_row ML_Mean ML_Std AP_Mean AP_Std].
    split; intros ->; split; reflexivity.
  - intros Hm Hs. apply map_ext. intros r. unfold summary_row.
    rewrite (stat_or_nan_ext np_mean np_mean' _ Hm).
    rewrite (stat_or_nan_ext np_mean np_mean' _ Hm).
    rewrite (stat_or_nan_ext np_std np_std' _ Hs).
    rewrite (stat_or_nan_ext np_std np_std' _ Hs). reflexivity.
Qed.

(** Two means that differ on the empty array only. *)
Definition first_or_nan (a : list PyNum.float) : PyNum.float := hd PyNum.nan a.
Definition first_or_zero (a : list PyNum.float) : PyNum.float :=
  hd (S754_zero false) a.

Lemma summary_one_row_per_record_witness :
  get_summary first_or_nan first_or_nan
              [("exgm010", [record_of 4300 "a.csv" "baseline" (tokenize early_file)
                                      ([], [])])]
  = get_summary first_or_zero first_or_zero
                [("exgm010", [record_of 4300 "a.csv" "baseline" (tokenize early_file)
                                        ([], [])])].
Proof.
  apply (summary_one_row_per_record first_or_nan first_or_nan
                                    first_or_zero first_or_zero);
    intros [|x a] H; solve [contradiction | reflexivity].
Defined.

(** ** Properties of the scripts *)

Section ScriptFacts.

Variable max_str_digits : nat.
Variable read_text : Path -> result string.
Variable butter : nat -> PyNum.float -> result (list PyNum.float * list PyNum.float).
Variable filtfilt_kernel :
  list PyNum.float -> list PyNum.float -> list PyNum.float -> result (list PyNum.float).

Lemma successes_from_files (files : list (Path * string)) (r : TrialData) :
  In r (successes max_str_digits read_text butter filtfilt_kernel files) ->
  exists filepath session,
    In (filepath, session) files
    /\ outcome (process_csv_file max_str_digits read_text butter filtfilt_kernel
                                 filepath session) = Ok r.
Proof.
  unfold successes. intros H. apply in_flat_map in H.
  destruct H as ([filepath session] & Hin & Hr). cbn [fst snd] in Hr.
  destruct (outcome _) as [r'|e] eqn:E; [|destruct Hr].
  destruct Hr as [<-|[]]. eauto.
Qed.

Lemma filed_all_nil (records : list TrialData) :
  filed_all records [] = [] <-> records = [].
Proof.
  split; [|intros ->; reflexivity].
  intros H. pose proof (all_records_filed_all records []) as Hp.
  rewrite H in Hp. cbn in Hp. apply Permutation_nil in Hp. exact Hp.
Qed.

Lemma contains_spec (needle s : string) :
  contains needle s = true <-> occurs_in needle s.
Proof.
  split.
  - induction s as [|c s IH]; cbn [contains].
    + destruct (Re.strip_prefix needle "") as [r|] eqn:E; [|discriminate].
      intros _. apply strip_prefix_inv in E. exists "", r. exact E.
    + destruct (Re.strip_prefix needle (String c s)) as [r|] eqn:E.
      * intros _. apply strip_prefix_inv in E. exists "", r. exact E.
      * intros H. destruct (IH H) as (pre & post & ->).
        exists (String c pre), post. reflexivity.
  - intros (pre & post & ->). induction pre as [|c pre IH].
    + cbn [String.append]. destruct (needle ++ post)%string eqn:E;
        cbn [contains]; rewrite <- E, strip_prefix_app; reflexivity.
    + cbn [String.append contains]. destruct (Re.strip_prefix _ _); [reflexivity|exact IH].
Qed.

End ScriptFacts.

(** X7. The table of a fresh run: after [process_all_files] on an empty
    aggregate, [get_summary] has exactly one row per file processed without
    an exception; in every row the trimmed count is at most the total count,
    and a row with no sample in the window has NaN for all four
    statistics. *)
Theorem summary_of_fresh_batch
        (max_str_digits : nat) (read_text : Path -> result string)
        (butter : nat -> PyNum.float -> result (list PyNum.float * list PyNum.float))
        (filtfilt_kernel : list PyNum.float -> list PyNum.float ->
                           list PyNum.float -> result (list PyNum.float))
        (dir_exists : Path -> bool) (glob_csv : Path -> list Path)
        (np_mean np_std : list PyNum.float -> PyNum.float)
        (baseline_dir intervention_dir : Path) :
  List.length
    (get_summary np_mean np_std
       (snd (process_all_files max_str_digits read_text butter filtfilt_kernel
               dir_exists glob_csv baseline_dir intervention_dir [])))
  = List.length (successes max_str_digits read_text butter filtfilt_kernel
                   (discovered dir_exists glob_csv baseline_dir intervention_dir))
  /\ forall row,
      In row (get_summary np_mean np_std
                (snd (process_all_files max_str_digits read_text butter
                        filtfilt_kernel dir_exists glob_csv
                        baseline_dir intervention_dir []))) ->
      (Trimmed_Samples row <= Total_Samples row)%nat
      /\ (Trimmed_Samples row = 0%nat ->
          ML_Mean row = PyNum.nan /\ ML_Std row = PyNum.nan
          /\ AP_Mean row = PyNum.nan /\ AP_Std row = PyNum.nan).
Proof.
  pose proof (process_all_files_run max_str_digits read_text butter
                filtfilt_kernel dir_exists glob_csv baseline_dir
                intervention_dir []) as Hrun.
  cbv zeta in Hrun. rewrite Hrun. cbn [snd].
  rewrite get_summary_all_records.
  pose proof (all_records_filed_all
                (successes max_str_digits read_text butter filtfilt_kernel
                   (discovered dir_exists glob_csv baseline_dir intervention_dir))
                []) as Hperm.
  cbn [all_records flat_map app] in Hperm.
  split.
  - rewrite length_map. apply (Permutation_length Hperm).
  - intros row Hin. apply in_map_iff in Hin. destruct Hin as (r & <- & Hr).
    apply (Permutation_in _ Hperm) in Hr.
    apply successes_from_files in Hr.
    destruct Hr as (filepath & session & _ & Hok).
    apply process_csv_file_ok_inv in Hok.
    destruct Hok as (text & filtered & _ & Hf & ->).
    cbn [summary_row record_of Trimmed_Samples Total_Samples ML_Mean ML_Std
         AP_Mean AP_Std time_trimmed time_raw ml_filtered ap_filtered].
    split; [apply filter_length_le|].
    intros Hz. apply length_zero_iff_nil in Hz.
    rewrite (filter_step_empty _ _ _ _ Hz) in Hf. injection Hf as <-.
    repeat split; reflexivity.
Qed.

(** X8. [main] runs the batch on the two [Path] objects made from
    [data/baseline/] and [data/intervention/], and saves the summary
    exactly when some file was processed without an exception.  With no such file it prints that no data was
    processed, does not call [to_csv] and returns the empty aggregate;
    otherwise it prints the table, which has one row per such file, and
    returns the aggregate if [to_csv] succeeds, or raises what [to_csv]
    raises. *)
Theorem main_saves_iff_some_success
        (max_str_digits : nat) (read_text : Path -> result string)
        (butter : nat -> PyNum.float -> result (list PyNum.float * list PyNum.float))
        (filtfilt_kernel : list PyNum.float -> list PyNum.float ->
                           list PyNum.float -> result (list PyNum.float))
        (dir_exists : Path -> bool) (glob_csv : Path -> list Path)
        (np_mean np_std : list PyNum.float -> PyNum.float)
        (to_csv : list SummaryRow -> result unit) (path_of : string -> Path) :
  let baseline_dir := path_of "data/baseline/" in
  let intervention_dir := path_of "data/intervention/" in
  let files := discovered dir_exists glob_csv baseline_dir intervention_dir in
  let records := successes max_str_digits read_text butter filtfilt_kernel files in
  let run := process_all_files max_str_digits read_text butter filtfilt_kernel
               dir_exists glob_csv baseline_dir intervention_dir [] in
  let table := get_summary np_mean np_std (snd run) in
  let result := main max_str_digits read_text butter filtfilt_kernel
                     dir_exists glob_csv np_mean np_std to_csv path_of in
  (records = [] ->
   result = (map Processor (fst (fst run)) ++ [Script MsgNoData], Ok []))
  /\ (records <> [] ->
      List.length table = List.length records
      /\ In (Script (MsgSummaryTable table)) (fst result)
      /\ snd result = match to_csv table with
                      | Ok _ => Ok (snd run)
                      | Raise e => Raise e
                      end
      /\ (In (Script MsgSummarySaved) (fst result) <-> to_csv table = Ok tt)).
Proof.
  cbv zeta. unfold main.
  pose proof (process_all_files_run max_str_digits read_text butter
                filtfilt_kernel dir_exists glob_csv (path_of "data/baseline/")
                (path_of "data/intervention/") []) as Hrun.
  cbv zeta in Hrun. rewrite Hrun. cbn [fst snd].
  set (records := successes max_str_digits read_text butter filtfilt_kernel
                    (discovered dir_exists glob_csv (path_of "data/baseline/")
                                (path_of "data/intervention/"))) in *.
  pose proof (filed_all_nil records) as Hnil.
  split.
  - intros Hr. rewrite Hr. reflexivity.
  - intros Hne.
    destruct (filed_all records []) as [|item d'] eqn:Ed;
      [exfalso; apply Hne, Hnil; reflexivity|].
    rewrite <- Ed.
    split.
    { rewrite get_summary_all_records, length_map.
      pose proof (all_records_filed_all records []) as Hp.
      apply (Permutation_length Hp). }
    destruct (to_csv (get_summary np_mean np_std (filed_all records [])))
      as [[]|e] eqn:Ecsv; cbn [fst snd].
    + split; [rewrite !in_app_iff; left; right; right; now left|].
      split; [reflexivity|].
      split; [reflexivity|]. intros _.
      rewrite !in_app_iff. right. left. now left.
    + split; [rewrite !in_app_iff; right; right; now left|].
      split; [reflexivity|].
      split; [|discriminate].
      rewrite !in_app_iff. intros [Hin|[Hin|[Hin|[]]]]; try discriminate.
      apply in_map_iff in Hin. destruct Hin as (ev & Hev & _). discriminate.
Qed.

Lemma summary_of_fresh_batch_witness :
  List.length
    (get_summary first_or_nan first_or_nan
       (snd (process_all_files 4300 batch_read_text flat_butter identity_kernel
               (fun _ => true) batch_glob baseline_path intervention_path [])))
  = 2%nat
  /\ Forall (fun row => Trimmed_Samples row = 0%nat /\ ML_Mean row = PyNum.nan
                        /\ Total_Samples row = 1%nat)
            (get_summary first_or_nan first_or_nan
               (snd (process_all_files 4300 batch_read_text flat_butter
                       identity_kernel (fun _ => true) batch_glob
                       baseline_path intervention_path []))).
Proof.
  destruct (summary_of_fresh_batch 4300 batch_read_text flat_butter
              identity_kernel (fun _ => true) batch_glob first_or_nan
              first_or_nan baseline_path intervention_path) as [Hlen Hrows].
  split; [rewrite Hlen; vm_compute; reflexivity|].
  apply Forall_forall. intros row Hin.
  destruct (Hrows row Hin) as [_ Hnan].
  assert (Hz : Trimmed_Samples row = 0%nat /\ Total_Samples row = 1%nat).
  { vm_compute in Hin. destruct Hin as [<-|[<-|[]]]; split; reflexivity. }
  destruct Hz as [Hz Ht]. split; [exact Hz|]. split; [|exact Ht].
  exact (proj1 (Hnan Hz)).
Defined.

(** [Path] on the two directory names of [main]: a final slash is not
    part of the name. *)
Definition directory_path_of (s : string) : Path :=
  if String.eqb s "data/baseline/" then baseline_path
  else if String.eqb s "data/intervention/" then intervention_path
  else {| parent := "."; name := s |}.

Lemma main_saves_iff_some_success_witness :
  In (Script MsgSummarySaved)
     (fst (main 4300 batch_read_text flat_butter identity_kernel
                (fun _ => true) batch_glob first_or_nan first_or_nan
                (fun _ => Ok tt) directory_path_of))
  /\ main 4300 (fun _ => Raise OSError) flat_butter identity_kernel
          (fun _ => false) batch_glob first_or_nan first_or_nan
          (fun _ => Ok tt) directory_path_of
     = ([Processor (Warn (MsgBaselineDirMissing baseline_path));
         Processor (Warn (MsgInterventionDirMissing intervention_path));
         Processor (Print MsgNoFiles); Script MsgNoData], Ok []).
Proof.
  pose proof (main_saves_iff_some_success 4300 batch_read_text flat_butter
                identity_kernel (fun _ => true) batch_glob first_or_nan
                first_or_nan (fun _ => Ok tt) directory_path_of) as H1.
  pose proof (main_saves_iff_some_success 4300 (fun _ => Raise OSError)
                flat_butter identity_kernel (fun _ => false) batch_glob
                first_or_nan first_or_nan (fun _ => Ok tt) directory_path_of) as H2.
  cbv zeta in H1, H2. destruct H1 as [_ H1]. destruct H2 as [H2 _].
  split.
  - apply H1; [vm_compute; discriminate|reflexivity].
  - rewrite H2 by (vm_compute; reflexivity). reflexivity.
Defined.

(** X9. [test_single_file] never raises: it returns the record when
    [process_csv_file] returns one and [None] when it raises, after
    printing the failure.  The session it passes is [baseline] exactly
    when the text [1-] occurs somewhere in the path given, and
    [intervention] otherwise. *)
Theorem test_single_file_never_raises
        (max_str_digits : nat) (read_text : Path -> result string)
        (butter : nat -> PyNum.float -> result (list PyNum.float * list PyNum.float))
        (filtfilt_kernel : list PyNum.float -> list PyNum.float ->
                           list PyNum.float -> result (list PyNum.float))
        (path_of : string -> Path) (filepath : string) :
  exists label,
    (occurs_in "1-" filepath -> label = "baseline")
    /\ (~ occurs_in "1-" filepath -> label = "intervention")
    /\ snd (test_single_file max_str_digits read_text butter filtfilt_kernel
                             path_of filepath)
       = Ok (match outcome (process_csv_file max_str_digits read_text butter
                              filtfilt_kernel (path_of filepath) label) with
             | Ok r => Some r
             | Raise _ => None
             end)
    /\ (forall r,
           snd (test_single_file max_str_digits read_text butter filtfilt_kernel
                                 path_of filepath) = Ok (Some r) ->
           session r = label)
    /\ (forall e,
           outcome (process_csv_file max_str_digits read_text butter
                      filtfilt_kernel (path_of filepath) label) = Raise e ->
           In (Script (MsgTestFailed e))
              (fst (test_single_file max_str_digits read_text butter
                      filtfilt_kernel path_of filepath))).
Proof.
  unfold test_single_file.
  exists (if contains "1-" filepath then "baseline" else "intervention").
  pose proof (contains_spec "1-" filepath) as Hc.
  split; [intros H; apply Hc in H; now rewrite H|].
  split; [intros H; destruct (contains "1-" filepath); [exfalso; apply H, Hc|];
          reflexivity|].
  set (s := if contains "1-" filepath then "baseline" else "intervention").
  split; [|split].
  - destruct (process_csv_file _ _ _ _ _ _) as [l [r|e]]; reflexivity.
  - intros r Hr.
    destruct (process_csv_file _ _ _ _ (path_of filepath) s) as [l [r'|e]] eqn:E;
      cbn [snd] in Hr; [|discriminate].
    injection Hr as ->.
    assert (Hok : outcome (process_csv_file max_str_digits read_text butter
                             filtfilt_kernel (path_of filepath) s) = Ok r)
      by (rewrite E; reflexivity).
    apply process_csv_file_ok_inv in Hok.
    destruct Hok as (text & filtered & _ & _ & ->). reflexivity.
  - intros e He.
    destruct (process_csv_file _ _ _ _ (path_of filepath) s) as [l [r'|e']] eqn:E;
      cbn [outcome snd] in He; [discriminate|]. injection He as ->.
    cbn [fst]. apply in_or_app. right. now left.
Qed.

Lemma test_single_file_never_raises_witness :
  exists r,
    snd (test_single_file 4300 (fun _ => Ok early_file) flat_butter identity_kernel
           (fun s => {| parent := "data/intervention"; name := s |})
           "exgm011-tandem.csv") = Ok (Some r)
    /\ session r = "baseline".
Proof.
  destruct (test_single_file_never_raises 4300 (fun _ => Ok early_file)
              flat_butter identity_kernel
              (fun s => {| parent := "data/intervention"; name := s |})
              "exgm011-tandem.csv")
    as (label & Hb & _ & _ & Hs & _).
  assert (Hocc : occurs_in "1-" "exgm011-tandem.csv")
    by (exists "exgm01", "tandem.csv"; reflexivity).
  rewrite (Hb Hocc) in Hs.
  eexists. split; [vm_compute; reflexivity|].
  apply Hs. vm_compute. reflexivity.
Defined.

(** * Further properties of [process_csv_file] *)

Lemma select_map_filter {A B} (p : A -> bool) (g : A -> B) (l : list A) :
  select (map p l) (map g l) = map g (filter p l).
Proof.
  induction l as [|x l IH]; [reflexivity|]. cbn [map select filter].
  destruct (p x); cbn [map]; now rewrite IH.
Qed.

Lemma filter_map_swap {A B} (p : B -> bool) (g : A -> B) (l : list A) :
  filter p (map g l) = map g (filter (fun x => p (g x)) l).
Proof.
  induction l as [|x l IH]; [reflexivity|]. cbn [map filter].
  destruct (p (g x)); cbn [map]; now rewrite IH.
Qed.

(** The kept rows whose time lies in the window. *)
Definition window_rows (all_data : list (list string)) : list (list string) :=
  filter (fun row => in_window (cell_value (nth 0 row ""))) (kept_rows all_data).

(** X10. Windowing keeps the samples of a row together: the trimmed time,
    medial-lateral and anterior-posterior sequences are columns 0, 26 and
    27 of the same rows, namely the kept data rows whose time lies in
    [10 s, 30 s], in file order. *)
Theorem window_rows_stay_paired (all_data : list (list string)) :
  trim (column 0 (kept_rows all_data)) (column 26 (kept_rows all_data))
       (column 27 (kept_rows all_data))
  = ret (column 0 (window_rows all_data), column 26 (window_rows all_data),
         column 27 (window_rows all_data))
  /\ outcome (extract_signals all_data)
     = Ok (column 0 (kept_rows all_data), column 26 (kept_rows all_data),
           column 27 (kept_rows all_data))
  /\ Forall (fun row => row_kept row = true
                        /\ in_window (cell_value (nth 0 row "")) = true)
            (window_rows all_data).
Proof.
  split; [|split].
  - rewrite trim_spec by (unfold column; now rewrite !length_map).
    unfold window_rows, column.
    rewrite (map_map (fun row => cell_value (nth 0 row "")) in_window).
    rewrite !select_map_filter, filter_map_swap. reflexivity.
  - pose proof (extract_signals_spec all_data) as H. cbv zeta in H.
    rewrite H. reflexivity.
  - apply Forall_forall. intros row Hin. unfold window_rows, kept_rows in Hin.
    apply filter_In in Hin. destruct Hin as [Hin Hw].
    apply filter_In in Hin. tauto.
Qed.

(** X11. Every record that [process_csv_file] returns has three raw
    sequences of one length, a trimmed time sequence no longer than the raw
    one, and the session label it was called with. *)
Theorem record_shape
        (max_str_digits : nat) (read_text : Path -> result string)
        (butter : nat -> PyNum.float -> result (list PyNum.float * list PyNum.float))
        (filtfilt_kernel : list PyNum.float -> list PyNum.float ->
                           list PyNum.float -> result (list PyNum.float))
        (filepath : Path) (label : string) (r : TrialData) :
  outcome (process_csv_file max_str_digits read_text butter filtfilt_kernel
                            filepath label) = Ok r ->
  List.length (ml_raw r) = List.length (time_raw r)
  /\ List.length (ap_raw r) = List.length (time_raw r)
  /\ (List.length (time_trimmed r) <= List.length (time_raw r))%nat
  /\ session r = label.
Proof.
  intros H. apply process_csv_file_ok_inv in H.
  destruct H as (text & filtered & _ & _ & ->).
  cbn [ml_raw ap_raw time_raw time_trimmed session record_of].
  split; [|split; [|split; [|reflexivity]]].
  - unfold raw_ml, raw_time, column. now rewrite !length_map.
  - unfold raw_ap, raw_time, column. now rewrite !length_map.
  - unfold window_time. apply filter_length_le.
Qed.

(** X12. With scipy's contract for the two filter functions (a design of
    order N has N + 1 coefficients on each side; the filtered array has the
    length of the input), every record has filtered sequences of the length
    of its trimmed time sequence, and that length is 0 or at least 16. *)
Theorem filtered_lengths
        (max_str_digits : nat) (read_text : Path -> result string)
        (butter : nat -> PyNum.float -> result (list PyNum.float * list PyNum.float))
        (filtfilt_kernel : list PyNum.float -> list PyNum.float ->
                           list PyNum.float -> result (list PyNum.float))
        (filepath : Path) (session : string) (r : TrialData) :
  (forall n wn b a, butter n wn = Ok (b, a) ->
                    List.length b = S n /\ List.length a = S n) ->
  (forall b a x y, filtfilt_kernel b a x = Ok y -> List.length y = List.length x) ->
  outcome (process_csv_file max_str_digits read_text butter filtfilt_kernel
                            filepath session) = Ok r ->
  List.length (ml_filtered r) = List.length (time_trimmed r)
  /\ List.length (ap_filtered r) = List.length (time_trimmed r)
  /\ (time_trimmed r = [] \/ (16 <= List.length (time_trimmed r))%nat).
Proof.
  intros Htaps Hlen H. apply process_csv_file_ok_inv in H.
  destruct H as (text & filtered & _ & Hf & ->).
  cbn [ml_filtered ap_filtered time_trimmed record_of].
  destruct (window_time (tokenize text)) as [|t ts] eqn:Ew.
  - rewrite (filter_step_empty _ _ _ _ Ew) in Hf. injection Hf as <-. auto.
  - assert (Hne : window_time (tokenize text) <> []) by (rewrite Ew; discriminate).
    rewrite (filter_step_nonempty _ _ _ _ Hne) in Hf.
    destruct (window_lengths (tokenize text)) as [Hml Hap]. rewrite Ew in Hml, Hap.
    rewrite !apply_butterworth_filter_cutoff in Hf.
    destruct (normalized_cutoff _) as [wn|e]; [|discriminate].
    destruct (butter filter_order wn) as [[b a]|e] eqn:Eb; [|discriminate].
    destruct (Htaps _ _ _ _ Eb) as [Hb Ha].
    unfold filtfilt in Hf. rewrite Ha, Hb in Hf. unfold filter_order in Hf.
    change (3 * Nat.max 5 5)%nat with 15%nat in Hf.
    destruct (Nat.leb_spec (List.length (window_ml (tokenize text))) 15) as [|Hgt];
      [discriminate|].
    destruct (Nat.leb_spec (List.length (window_ap (tokenize text))) 15) as [|_].
    { destruct (filtfilt_kernel b a (window_ml (tokenize text))); discriminate. }
    destruct (filtfilt_kernel b a (window_ml (tokenize text))) as [mlf|e] eqn:Em;
      [|discriminate].
    destruct (filtfilt_kernel b a (window_ap (tokenize text))) as [apf|e] eqn:Ea;
      [|discriminate].
    cbn in Hf. injection Hf as <-. cbn [fst snd].
    rewrite (Hlen _ _ _ _ Em), (Hlen _ _ _ _ Ea), Hml, Hap.
    split; [reflexivity|]. split; [reflexivity|]. right. lia.
Qed.

Lemma identity_kernel_length (b a x y : list PyNum.float) :
  identity_kernel b a x = Ok y -> List.length y = List.length x.
Proof. unfold identity_kernel. now intros [= <-]. Qed.

Lemma record_shape_witness :
  exists r,
    outcome (process_csv_file 4300 (fun _ => Ok gap_file) flat_butter
                              identity_kernel sample_path "baseline") = Ok r
    /\ List.length (time_raw r) = 17%nat
    /\ List.length (ml_raw r) = List.length (time_raw r)
    /\ (List.length (time_trimmed r) <= List.length (time_raw r))%nat.
Proof.
  assert (H : exists r,
             outcome (process_csv_file 4300 (fun _ => Ok gap_file) flat_butter
                                       identity_kernel sample_path "baseline")
             = Ok r /\ List.length (time_raw r) = 17%nat)
    by (vm_compute; eexists; split; reflexivity).
  destruct H as (r & H & H17). exists r.
  destruct (record_shape _ _ _ _ _ _ _ H) as (Hml & _ & Hle & _).
  auto.
Defined.

Lemma filtered_lengths_witness :
  exists r,
    outcome (process_csv_file 4300 (fun _ => Ok gap_file) flat_butter
                              identity_kernel sample_path "baseline") = Ok r
    /\ List.length (time_trimmed r) = 16%nat
    /\ List.length (ml_filtered r) = List.length (time_trimmed r)
    /\ List.length (ap_filtered r) = List.length (time_trimmed r).
Proof.
  assert (H : exists r,
             outcome (process_csv_file 4300 (fun _ => Ok gap_file) flat_butter
                                       identity_kernel sample_path "baseline")
             = Ok r /\ List.length (time_trimmed r) = 16%nat)
    by (vm_compute; eexists; split; reflexivity).
  destruct H as (r & H & H16). exists r.
  destruct (filtered_lengths 4300 (fun _ => Ok gap_file) flat_butter
              identity_kernel sample_path "baseline" r flat_butter_taps
              identity_kernel_length H) as (Hml & Hap & _).
  auto.
Defined.

(** * The validators *)

Section Validators.

Local Open Scope string_scope.

Definition newline : string := String "010" "".

Lemma append_empty_r (s : string) : s ++ "" = s.
Proof. induction s as [|c s IH]; [reflexivity|]. simpl. now rewrite IH. Qed.

Lemma drop_exgm_id (m post : string) :
  is_exgm_id m -> Re.drop 7 (m ++ post) = post.
Proof. intros (d1 & d2 & d3 & _ & _ & _ & ->). reflexivity. Qed.

Lemma at_end_spec (s : string) :
  Re.at_end s = true <-> s = "" \/ s = newline.
Proof.
  unfold newline. split.
  - destruct s as [|c [|c' s]]; cbn [Re.at_end]; [auto| |].
    + destruct (Ascii.eqb_spec c "010") as [->|Hne]; [auto|].
      destruct c as [[] [] [] [] [] [] [] []]; try discriminate.
      now contradiction Hne.
    + destruct c as [[] [] [] [] [] [] [] []]; discriminate.
  - intros [->| ->]; reflexivity.
Qed.

(** X13. On text of code points below 256 (the strings of this
    embedding), [validate_subject_id] accepts exactly the strings made of
    [exgm] and three digits [0] to [9], optionally followed by one line
    break (the [$] of the pattern matches before a final line break).
    Beyond that range [\d] also matches the other decimal digits of
    Unicode (a full-width digit, for one); such text is not covered. *)
Theorem validate_subject_id_spec (s : string) :
  validate_subject_id s = true
  <-> is_exgm_id s \/ exists m, is_exgm_id m /\ s = m ++ newline.
Proof.
  unfold validate_subject_id, Re.fullmatch_subject. split.
  - destruct (Re.match_exgm s) as [m|] eqn:E; [|discriminate].
    apply match_exgm_inv in E. destruct E as [Hid [post ->]].
    rewrite (drop_exgm_id m post Hid). intros H. apply at_end_spec in H.
    destruct H as [->| ->].
    + left. now rewrite append_empty_r.
    + right. eauto.
  - intros [Hid|(m & Hid & ->)].
    + rewrite <- (append_empty_r s), (match_exgm_at s "" Hid).
      now rewrite (drop_exgm_id s "" Hid).
    + rewrite (match_exgm_at m newline Hid).
      now rewrite (drop_exgm_id m newline Hid).
Qed.

Lemma validate_subject_id_spec_witness :
  validate_subject_id "exgm047" = true
  /\ validate_subject_id ("exgm047" ++ newline) = true
  /\ ~ is_exgm_id "exgm47".
Proof.
  split; [|split].
  - apply validate_subject_id_spec. left.
    exists "0"%char, "4"%char, "7"%char. repeat split; reflexivity.
  - apply validate_subject_id_spec. right. exists "exgm047". split; [|reflexivity].
    exists "0"%char, "4"%char, "7"%char. repeat split; reflexivity.
  - intros H.
    assert (Hv : validate_subject_id "exgm47" = true)
      by (apply validate_subject_id_spec; now left).
    discriminate Hv.
Defined.

(** Every character of [s] is white space. *)
Fixpoint all_space (s : string) : bool :=
  match s with
  | EmptyString => true
  | String c s' => PyStr.is_space c && all_space s'
  end.

Lemma strip_prefix_nocase_inv (lit : string) :
  forall s r, Re.strip_prefix_nocase lit s = Some r ->
              exists name, s = name ++ r /\ PyNum.lower_string name = lit.
Proof.
  induction lit as [|a lit IH]; intros s r H.
  - exists "". split; [|reflexivity].
    destruct s; cbn [Re.strip_prefix_nocase] in H; injection H as <-; reflexivity.
  - destruct s as [|c s]; cbn [Re.strip_prefix_nocase] in H; [discriminate|].
    destruct (Ascii.eqb_spec a (PyStr.lower c)) as [->|]; [|discriminate].
    destruct (IH s r H) as (name & -> & <-).
    exists (String c name). auto.
Qed.

Lemma strip_prefix_nocase_app (name r : string) :
  Re.strip_prefix_nocase (PyNum.lower_string name) (name ++ r) = Some r.
Proof.
  induction name as [|c name IH].
  - destruct r; reflexivity.
  - cbn [PyNum.lower_string String.append Re.strip_prefix_nocase].
    now rewrite Ascii.eqb_refl.
Qed.

Lemma lstrip_all_space (w r : string) :
  all_space w = true -> PyStr.lstrip (w ++ r) = PyStr.lstrip r.
Proof.
  induction w as [|c w IH]; [reflexivity|]. cbn [all_space String.append PyStr.lstrip].
  intros H. apply andb_prop in H. destruct H as [-> H]. now apply IH.
Qed.

Lemma lstrip_split (s : string) :
  exists w, all_space w = true /\ s = w ++ PyStr.lstrip s
            /\ (PyStr.lstrip s = ""
                \/ exists c r, PyStr.lstrip s = String c r /\ PyStr.is_space c = false).
Proof.
  induction s as [|c s IH].
  - exists "". auto.
  - cbn [PyStr.lstrip]. destruct (PyStr.is_space c) eqn:E.
    + destruct IH as (w & Hw & Hs & Hr). exists (String c w).
      cbn [all_space String.append]. rewrite E, Hw. split; [reflexivity|].
      split; [now rewrite <- Hs|exact Hr].
    + exists "". split; [reflexivity|]. split; [reflexivity|]. right. eauto.
Qed.

(** The trial names that the pattern describes among the strings of code
    points below 256: [Shoulder] or [Tandem] with each letter in either
    case, white space, a session digit 1 or 2, a hyphen, a trial digit 1 to
    3, and possibly one final line break. *)
Definition is_trial_name (s : string) : Prop :=
  exists name ws a b tail,
    s = name ++ ws ++ String a (String "-" (String b tail))
    /\ (PyNum.lower_string name = "shoulder" \/ PyNum.lower_string name = "tandem")
    /\ ws <> "" /\ all_space ws = true
    /\ (a = "1" \/ a = "2")%char
    /\ (b = "1" \/ b = "2" \/ b = "3")%char
    /\ (tail = "" \/ tail = newline).

Lemma match_numbers_spec (s : string) :
  Re.match_numbers s = true
  <-> exists a b tail,
      s = String a (String "-" (String b tail))
      /\ (a = "1" \/ a = "2")%char /\ (b = "1" \/ b = "2" \/ b = "3")%char
      /\ (tail = "" \/ tail = newline).
Proof.
  split.
  - destruct s as [|a [|h s]]; try discriminate.
    destruct h as [[] [] [] [] [] [] [] []]; try discriminate.
    destruct s as [|b tail]; [discriminate|].
    cbv beta iota delta [Re.match_numbers].
    intros H. apply andb_prop in H. destruct H as [H Ht].
    apply andb_prop in H. destruct H as [Ha Hb].
    apply at_end_spec in Ht.
    exists a, b, tail. split; [reflexivity|].
    split; [|split; [|exact Ht]].
    + apply orb_prop in Ha. destruct Ha as [Ha|Ha]; apply Ascii.eqb_eq in Ha; auto.
    + apply orb_prop in Hb. destruct Hb as [Hb|Hb];
        [apply orb_prop in Hb; destruct Hb as [Hb|Hb]|];
        apply Ascii.eqb_eq in Hb; auto.
  - intros (a & b & tail & -> & Ha & Hb & Ht).
    unfold Re.match_numbers. apply at_end_spec in Ht. rewrite Ht.
    destruct Ha as [->| ->]; destruct Hb as [->|[->| ->]]; reflexivity.
Qed.

Lemma shoulder_not_tandem (name r : string) :
  PyNum.lower_string name = "tandem" ->
  Re.strip_prefix_nocase "shoulder" (name ++ r) = None.
Proof.
  destruct name as [|c name]; [discriminate|].
  cbn [PyNum.lower_string]. intros H. injection H as Hc _.
  cbn [String.append Re.strip_prefix_nocase]. now rewrite Hc.
Qed.

(** X14. On text of code points below 256 (the strings of this
    embedding), [validate_trial_name] accepts exactly the trial names that
    the pattern describes there; in particular the letter case of the name
    does not matter.  Beyond that range [re.IGNORECASE] and [\s] match
    further characters (U+017F for [s], the Unicode spaces); such text is
    not covered. *)
Theorem validate_trial_name_spec (s : string) :
  validate_trial_name s = true <-> is_trial_name s.
Proof.
  unfold validate_trial_name, Re.fullmatch_trial. split.
  - intros H.
    assert (Hname : exists name r,
               s = name ++ r
               /\ (PyNum.lower_string name = "shoulder"
                   \/ PyNum.lower_string name = "tandem")
               /\ match r with
                  | String c r' =>
                      PyStr.is_space c && Re.match_numbers (PyStr.lstrip r')
                  | EmptyString => false
                  end = true).
    { destruct (Re.strip_prefix_nocase "shoulder" s) as [r|] eqn:E1.
      - apply strip_prefix_nocase_inv in E1. destruct E1 as (name & -> & Hn).
        exists name, r. destruct r; [discriminate|]. auto.
      - destruct (Re.strip_prefix_nocase "tandem" s) as [r|] eqn:E2; [|discriminate].
        apply strip_prefix_nocase_inv in E2. destruct E2 as (name & -> & Hn).
        exists name, r. destruct r; [discriminate|]. auto. }
    destruct Hname as (name & r & -> & Hn & Hr).
    destruct r as [|c r']; [discriminate|].
    apply andb_prop in Hr. destruct Hr as [Hc Hnum].
    destruct (lstrip_split r') as (w & Hw & Hr' & _).
    apply match_numbers_spec in Hnum.
    destruct Hnum as (a & b & tail & Hnum & Ha & Hb & Ht).
    exists name, (String c w), a, b, tail.
    split; [cbn [String.append]; rewrite <- Hnum, <- Hr'; reflexivity|].
    split; [exact Hn|]. split; [discriminate|].
    split; [cbn [all_space]; now rewrite Hc, Hw|]. auto.
  - intros (name & ws & a & b & tail & -> & Hn & Hws & Hsp & Ha & Hb & Ht).
    destruct ws as [|c w]; [contradiction|].
    cbn [all_space] in Hsp. apply andb_prop in Hsp. destruct Hsp as [Hc Hw].
    assert (Hnum : PyStr.is_space c
                   && Re.match_numbers
                        (PyStr.lstrip (w ++ String a (String "-" (String b tail))))
                   = true).
    { rewrite Hc, (lstrip_all_space w _ Hw). cbn [andb].
      assert (Hnsp : PyStr.is_space a = false)
        by (destruct Ha as [->| ->]; reflexivity).
      cbn [PyStr.lstrip]. rewrite Hnsp.
      apply match_numbers_spec. exists a, b, tail. auto. }
    destruct Hn as [Hn|Hn].
    + rewrite <- Hn, strip_prefix_nocase_app. exact Hnum.
    + rewrite (shoulder_not_tandem name _ Hn).
      rewrite <- Hn, strip_prefix_nocase_app. exact Hnum.
Qed.

Lemma validate_trial_name_spec_witness :
  validate_trial_name "TANDEM  2-3" = true /\ ~ is_trial_name "Tandem 3-1".
Proof.
  split.
  - apply validate_trial_name_spec.
    exists "TANDEM", "  ", "2"%char, "3"%char, "".
    repeat split; auto; discriminate.
  - intros H. apply validate_trial_name_spec in H. discriminate H.
Defined.

End Validators.

(** ** The sampling rate cell *)

Section SamplingRate.

Local Open Scope string_scope.

Variable max_str_digits : nat.

Fixpoint all_digits (s : string) : bool :=
  match s with
  | EmptyString => true
  | String c s' => PyStr.is_digit c && all_digits s'
  end.

Fixpoint no_digits (s : string) : bool :=
  match s with
  | EmptyString => true
  | String c s' => negb (PyStr.is_digit c) && no_digits s'
  end.

(** The string does not go on with a digit. *)
Definition digit_free_start (s : string) : bool :=
  match s with
  | EmptyString => true
  | String c _ => negb (PyStr.is_digit c)
  end.

Lemma take_digits_run (digits rest : string) :
  all_digits digits = true -> digit_free_start rest = true ->
  Re.take_digits (digits ++ rest) = digits.
Proof.
  intros Hd Hr. induction digits as [|c digits IH].
  - destruct rest as [|c rest]; [reflexivity|].
    cbn [String.append Re.take_digits]. cbn [digit_free_start] in Hr.
    apply negb_true_iff in Hr. now rewrite Hr.
  - cbn [all_digits] in Hd. apply andb_prop in Hd. destruct Hd as [Hc Hd].
    cbn [String.append Re.take_digits]. rewrite Hc. now rewrite (IH Hd).
Qed.

Lemma search_digits_run (pre digits rest : string) :
  no_digits pre = true -> digits <> "" -> all_digits digits = true ->
  digit_free_start rest = true ->
  Re.search_digits (pre ++ digits ++ rest) = Some digits.
Proof.
  intros Hp Hne Hd Hr. induction pre as [|c pre IH].
  - destruct digits as [|c digits]; [contradiction|].
    cbn [all_digits] in Hd. apply andb_prop in Hd. destruct Hd as [Hc Hd].
    cbn [String.append Re.search_digits]. rewrite Hc.
    now rewrite (take_digits_run digits rest Hd Hr).
  - cbn [no_digits] in Hp. apply andb_prop in Hp. destruct Hp as [Hc Hp].
    apply negb_true_iff in Hc.
    cbn [String.append Re.search_digits]. rewrite Hc. now apply IH.
Qed.

Lemma search_digits_none (s : string) :
  no_digits s = true -> Re.search_digits s = None.
Proof.
  induction s as [|c s IH]; [reflexivity|]. cbn [no_digits Re.search_digits].
  intros H. apply andb_prop in H. destruct H as [Hc Hs].
  apply negb_true_iff in Hc. rewrite Hc. now apply IH.
Qed.

Lemma take_digits_all_digits (s : string) : all_digits (Re.take_digits s) = true.
Proof.
  induction s as [|c s IH]; [reflexivity|]. cbn [Re.take_digits].
  destruct (PyStr.is_digit c) eqn:E; [|reflexivity].
  cbn [all_digits]. now rewrite E, IH.
Qed.

Lemma take_digits_split (s : string) :
  exists rest, s = Re.take_digits s ++ rest /\ digit_free_start rest = true.
Proof.
  induction s as [|c s IH].
  - exists "". auto.
  - cbn [Re.take_digits]. destruct (PyStr.is_digit c) eqn:E.
    + destruct IH as (rest & Hs & Hr). exists rest.
      cbn [String.append]. now rewrite <- Hs.
    + exists (String c s). cbn [digit_free_start]. now rewrite E.
Qed.

(** Every string has no digit at all, or splits at its first run of
    digits. *)
Lemma first_run (s : string) :
  no_digits s = true
  \/ exists pre digits rest,
       s = pre ++ digits ++ rest /\ no_digits pre = true /\ digits <> ""
       /\ all_digits digits = true /\ digit_free_start rest = true.
Proof.
  induction s as [|c s IH]; [now left|].
  destruct (PyStr.is_digit c) eqn:E.
  - right. destruct (take_digits_split s) as (rest & Hs & Hr).
    exists "", (String c (Re.take_digits s)), rest.
    cbn [String.append all_digits]. rewrite <- Hs, E, take_digits_all_digits.
    repeat split; auto. discriminate.
  - destruct IH as [IH|(pre & digits & rest & -> & Hp & Hne & Hd & Hr)].
    + left. cbn [no_digits]. now rewrite E, IH.
    + right. exists (String c pre), digits, rest.
      cbn [String.append no_digits]. rewrite E, Hp. auto.
Qed.

(** The mismatch warning of a rate. *)
Definition mismatch_log (rate : Z) : list event :=
  if (rate =? expected_sampling_rate)%Z then []
  else [Warn (MsgRateMismatch rate expected_sampling_rate)].

(** X15. The sampling rate is the first run of digits of cell C2, read as
    a decimal number, whatever stands before and after it (a unit such as
    [Hz]); nothing is printed, and a warning is issued exactly when the
    rate is not 1500.  The run must be within the limit that [int] puts on
    the number of digits, when the interpreter has one. *)
Theorem sampling_rate_is_first_digit_run
  (metadata_row : list string) (pre digits rest : string) :
  cell_at metadata_row 2 = pre ++ digits ++ rest ->
  no_digits pre = true -> digits <> "" -> all_digits digits = true ->
  digit_free_start rest = true ->
  (max_str_digits = 0 \/ String.length digits <= max_str_digits)%nat ->
  read_sampling_rate max_str_digits metadata_row
  = (mismatch_log (PyNum.digits_value digits 0),
     Ok (PyNum.digits_value digits 0)).
Proof.
  intros Hcell Hp Hne Hd Hr Hlim. unfold read_sampling_rate.
  rewrite cell_or_empty_spec, bind_ret_l, Hcell.
  rewrite (search_digits_run pre digits rest Hp Hne Hd Hr).
  unfold PyNum.int_of_digits.
  assert (Hok : ((0 <? max_str_digits)%nat
                 && (max_str_digits <? String.length digits)%nat) = false).
  { destruct Hlim as [->|Hle]; [reflexivity|].
    apply andb_false_iff. right. apply Nat.ltb_ge. exact Hle. }
  rewrite Hok. unfold mismatch_log.
  destruct (PyNum.digits_value digits 0 =? expected_sampling_rate)%Z eqn:E;
    cbn; rewrite E; reflexivity.
Qed.

(** X16. When cell C2 has no digit, or its first run of digits is longer
    than [int] accepts, the rate falls back to 1500: one message is
    printed, no warning is issued and nothing is raised. *)
Theorem sampling_rate_falls_back (metadata_row : list string) :
  no_digits (cell_at metadata_row 2) = true
  \/ (exists pre digits rest,
        cell_at metadata_row 2 = pre ++ digits ++ rest
        /\ no_digits pre = true /\ all_digits digits = true
        /\ digit_free_start rest = true
        /\ (0 < max_str_digits < String.length digits)%nat) ->
  exists m,
    read_sampling_rate max_str_digits metadata_row
    = ([Print m], Ok expected_sampling_rate)
    /\ (m = MsgRateUnparsed expected_sampling_rate
        \/ m = MsgRateUnread expected_sampling_rate).
Proof.
  intros [Hnone|(pre & digits & rest & Hcell & Hp & Hd & Hr & Hlo & Hhi)].
  - exists (MsgRateUnparsed expected_sampling_rate). split; [|now left].
    apply read_sampling_rate_unparsed. now apply search_digits_none.
  - exists (MsgRateUnread expected_sampling_rate). split; [|now right].
    unfold read_sampling_rate.
    rewrite cell_or_empty_spec, bind_ret_l, Hcell.
    assert (Hne : digits <> "") by (destruct digits; [cbn in Hhi; lia|discriminate]).
    rewrite (search_digits_run pre digits rest Hp Hne Hd Hr).
    unfold PyNum.int_of_digits.
    assert (Hbad : ((0 <? max_str_digits)%nat
                    && (max_str_digits <? String.length digits)%nat) = true).
    { apply andb_true_iff. split; apply Nat.ltb_lt; assumption. }
    rewrite Hbad. reflexivity.
Qed.

End SamplingRate.

Lemma sampling_rate_is_first_digit_run_witness :
  read_sampling_rate 4300 ["a"; "b"; "about 1000 Hz"]
  = ([Warn (MsgRateMismatch 1000 1500)], Ok 1000%Z).
Proof.
  apply (sampling_rate_is_first_digit_run 4300 ["a"; "b"; "about 1000 Hz"]
           "about " "1000" " Hz");
    [reflexivity|reflexivity|discriminate|reflexivity|reflexivity|right; cbn; lia].
Defined.

Lemma sampling_rate_falls_back_witness :
  exists m,
    read_sampling_rate 3 ["a"; "b"; "1500 Hz"]
    = ([Print m], Ok expected_sampling_rate)
    /\ (m = MsgRateUnparsed expected_sampling_rate
        \/ m = MsgRateUnread expected_sampling_rate).
Proof.
  apply (sampling_rate_falls_back 3 ["a"; "b"; "1500 Hz"]).
  right. exists "", "1500", " Hz". cbn. repeat split; lia.
Defined.

(** ** The tokenizer *)

Section Tokenizer.

Local Open Scope string_scope.

Lemma rev_onto_app (s : string) :
  forall acc, PyStr.rev_onto s acc = PyStr.rev s ++ acc.
Proof.
  unfold PyStr.rev. induction s as [|c s IH]; intros acc; [reflexivity|].
  cbn [PyStr.rev_onto]. rewrite (IH (String c acc)), (IH (String c "")).
  now rewrite append_assoc.
Qed.

Lemma rev_cons (c : ascii) (s : string) :
  PyStr.rev (String c s) = PyStr.rev s ++ String c "".
Proof. unfold PyStr.rev at 1. cbn [PyStr.rev_onto]. apply rev_onto_app. Qed.

Lemma rev_app (s t : string) : PyStr.rev (s ++ t) = PyStr.rev t ++ PyStr.rev s.
Proof.
  induction s as [|c s IH].
  - cbn [String.append]. change (PyStr.rev "") with "". now rewrite append_empty_r.
  - cbn [String.append]. now rewrite !rev_cons, IH, append_assoc.
Qed.

Lemma rev_involutive (s : string) : PyStr.rev (PyStr.rev s) = s.
Proof.
  induction s as [|c s IH]; [reflexivity|].
  now rewrite rev_cons, rev_app, IH.
Qed.

Lemma all_space_app (s t : string) :
  all_space (s ++ t) = all_space s && all_space t.
Proof.
  induction s as [|c s IH]; [reflexivity|].
  cbn [String.append all_space]. now rewrite IH, andb_assoc.
Qed.

Lemma all_space_rev (s : string) : all_space (PyStr.rev s) = all_space s.
Proof.
  induction s as [|c s IH]; [reflexivity|].
  rewrite rev_cons, all_space_app, IH. cbn [all_space].
  now rewrite andb_true_r, andb_comm.
Qed.

(** The string is empty or starts with a character that is not white
    space. *)
Definition head_ok (s : string) : bool :=
  match s with
  | EmptyString => true
  | String c _ => negb (PyStr.is_space c)
  end.

Lemma lstrip_head_ok (s : string) : head_ok (PyStr.lstrip s) = true.
Proof.
  induction s as [|c s IH]; [reflexivity|]. cbn [PyStr.lstrip].
  destruct (PyStr.is_space c) eqn:E; [exact IH|]. cbn [head_ok]. now rewrite E.
Qed.

Lemma lstrip_fixed (s : string) : head_ok s = true -> PyStr.lstrip s = s.
Proof.
  destruct s as [|c s]; [reflexivity|]. cbn [head_ok PyStr.lstrip].
  intros H. apply negb_true_iff in H. now rewrite H.
Qed.

Lemma head_ok_prefix (s t : string) :
  head_ok (s ++ t) = true -> s <> "" -> head_ok s = true.
Proof. destruct s; [contradiction|]. auto. Qed.

Lemma lstrip_suffix (s : string) :
  exists w, all_space w = true /\ s = w ++ PyStr.lstrip s.
Proof. destruct (lstrip_split s) as (w & Hw & Hs & _). eauto. Qed.

(** [strip] removes white space at both ends and nothing else. *)
Lemma strip_split (s : string) :
  exists w1 w2,
    all_space w1 = true /\ all_space w2 = true /\ s = w1 ++ PyStr.strip s ++ w2.
Proof.
  unfold PyStr.strip.
  destruct (lstrip_suffix s) as (w1 & Hw1 & Hs).
  destruct (lstrip_suffix (PyStr.rev (PyStr.lstrip s))) as (w & Hw & Hr).
  exists w1, (PyStr.rev w). split; [exact Hw1|].
  split; [now rewrite all_space_rev|].
  rewrite <- rev_app, <- Hr, rev_involutive. exact Hs.
Qed.

Lemma strip_ends (s : string) :
  head_ok (PyStr.strip s) = true /\ head_ok (PyStr.rev (PyStr.strip s)) = true.
Proof.
  unfold PyStr.strip. rewrite rev_involutive. split; [|apply lstrip_head_ok].
  destruct (lstrip_suffix (PyStr.rev (PyStr.lstrip s))) as (w & Hw & Hr).
  destruct (PyStr.lstrip (PyStr.rev (PyStr.lstrip s))) as [|c r]; [reflexivity|].
  apply (head_ok_prefix _ (PyStr.rev w)).
  - rewrite <- rev_app, <- Hr, rev_involutive. apply lstrip_head_ok.
  - rewrite rev_cons. destruct (PyStr.rev r); discriminate.
Qed.

Lemma strip_fixed (s : string) :
  head_ok s = true -> head_ok (PyStr.rev s) = true -> PyStr.strip s = s.
Proof.
  intros H1 H2. unfold PyStr.strip.
  now rewrite (lstrip_fixed s H1), (lstrip_fixed _ H2), rev_involutive.
Qed.

Lemma strip_idempotent (s : string) :
  PyStr.strip (PyStr.strip s) = PyStr.strip s.
Proof. destruct (strip_ends s). now apply strip_fixed. Qed.

(** The number of occurrences of [c] in [s]. *)
Fixpoint count_char (c : ascii) (s : string) : nat :=
  match s with
  | EmptyString => 0
  | String d s' => (if Ascii.eqb d c then 1 else 0) + count_char c s'
  end.

Lemma count_char_app (c : ascii) (s t : string) :
  count_char c (s ++ t) = count_char c s + count_char c t.
Proof.
  induction s as [|d s IH]; [reflexivity|].
  cbn [String.append count_char]. rewrite IH. lia.
Qed.

Lemma count_comma_space (w : string) :
  all_space w = true -> count_char "," w = 0.
Proof.
  induction w as [|d w IH]; [reflexivity|]. cbn [all_space count_char].
  intros H. apply andb_prop in H. destruct H as [Hd Hw]. rewrite (IH Hw).
  destruct (Ascii.eqb_spec d ",") as [->|]; [discriminate Hd|reflexivity].
Qed.

Lemma split_length (sep : ascii) (s : string) :
  List.length (PyStr.split sep s) = S (count_char sep s).
Proof.
  induction s as [|d s IH]; [reflexivity|]. cbn [PyStr.split count_char].
  destruct (Ascii.eqb d sep).
  - cbn [List.length]. now rewrite IH.
  - destruct (PyStr.split sep s); [discriminate IH|]. exact IH.
Qed.

Lemma split_fields (sep : ascii) (s : string) :
  Forall (fun field => count_char sep field = 0) (PyStr.split sep s).
Proof.
  induction s as [|d s IH]; [repeat constructor|]. cbn [PyStr.split].
  destruct (Ascii.eqb d sep) eqn:E.
  - constructor; [reflexivity|exact IH].
  - destruct (PyStr.split sep s) as [|cur fields].
    + repeat constructor. cbn [count_char]. now rewrite E.
    + inversion IH as [|? ? Hcur Hfields]; subst.
      constructor; [|exact Hfields]. cbn [count_char]. now rewrite E.
Qed.

Lemma count_strip (c : ascii) (s : string) :
  count_char c s = 0 -> count_char c (PyStr.strip s) = 0.
Proof.
  destruct (strip_split s) as (w1 & w2 & _ & _ & Hs). intros H.
  rewrite Hs, !count_char_app in H. lia.
Qed.

Lemma count_comma_strip (s : string) :
  count_char "," (PyStr.strip s) = count_char "," s.
Proof.
  destruct (strip_split s) as (w1 & w2 & Hw1 & Hw2 & Hs).
  rewrite Hs at 2. rewrite !count_char_app.
  rewrite (count_comma_space w1 Hw1), (count_comma_space w2 Hw2). lia.
Qed.

(** X17. Every cell that the tokenizer produces is already stripped and
    holds no comma: stripping it again, as the metadata steps do, changes
    nothing. *)
Theorem tokenize_cells_clean (text : string) :
  Forall (Forall (fun cell => PyStr.strip cell = cell
                              /\ count_char "," cell = 0))
         (tokenize text).
Proof.
  unfold tokenize. apply Forall_map, Forall_forall. intros line _.
  apply Forall_map.
  eapply Forall_impl; [|apply (split_fields "," (PyStr.strip line))].
  intros field Hfield. split; [apply strip_idempotent|now apply count_strip].
Qed.

(** X18. The tokenizer makes one row per line of the file, and the row of
    a line has one cell more than the line has commas; in particular no row
    is empty: a blank line gives a row of one cell. *)
Theorem tokenize_row_widths (text : string) :
  map (@List.length string) (tokenize text)
  = map (fun line => S (count_char "," line)) (PyStr.lines text).
Proof.
  unfold tokenize. rewrite map_map. apply map_ext. intros line.
  now rewrite length_map, split_length, count_comma_strip.
Qed.

End Tokenizer.

(** ** Where NaN comes from *)

Section NoNaN.

Local Open Scope Z_scope.

Lemma exact_represents (m : Z) :
  0 <= m -> represents m 1 (shr_record_of_loc m loc_Exact).
Proof.
  intros Hm. unfold represents. cbn [shr_record_of_loc shr_m shr_r shr_s loc_code].
  split; [lia|]. split; [exact Hm|]. exists 0. lia.
Qed.

(** Rounding a non-negative quotient never gives NaN. *)
Lemma binary_round_aux_not_nan (sx : bool) (q e : Z) (loc : location) (N D : Z) :
  represents N D (shr_record_of_loc q loc) ->
  PyNum.is_nan (binary_round_aux PyNum.prec PyNum.emax sx q e loc) = false.
Proof.
  intros Hrep. unfold binary_round_aux, shr_fexp.
  set (n1 := fexp PyNum.prec PyNum.emax (Zdigits2 q + e) - e).
  destruct (shr_represents N D _ e n1 Hrep) as [Hrep1 _].
  destruct (shr (shr_record_of_loc q loc) e n1) as [mrs1 e1]. cbn [fst] in Hrep1.
  pose proof (round_nearest_even_represents _ _ _ Hrep1) as Hround.
  cbv zeta in Hround. destruct Hround as [Hmr _].
  destruct Hrep1 as (_ & Hm1 & _).
  set (mr := round_nearest_even (shr_m mrs1) (loc_of_shr_record mrs1)) in *.
  assert (Hmr0 : 0 <= mr) by lia.
  set (n2 := fexp PyNum.prec PyNum.emax (Zdigits2 mr + e1) - e1).
  destruct (shr_represents mr 1 _ e1 n2 (exact_represents mr Hmr0)) as [Hrep2 _].
  destruct (shr (shr_record_of_loc mr loc_Exact) e1 n2) as [mrs2 e2].
  cbn [fst] in Hrep2. destruct Hrep2 as (_ & Hm2 & _).
  destruct (shr_m mrs2) as [|p|p]; [reflexivity| |lia].
  destruct (e2 <=? PyNum.emax - PyNum.prec); reflexivity.
Qed.

Lemma binary_normalize_not_nan (m e : Z) (szero : bool) :
  PyNum.is_nan (binary_normalize PyNum.prec PyNum.emax m e szero) = false.
Proof.
  unfold binary_normalize, binary_round.
  destruct m as [|p|p]; [reflexivity| |];
    destruct (shl_align _ _ _) as [mz ez];
    apply (binary_round_aux_not_nan _ _ _ _ (Zpos mz) 1), exact_represents; lia.
Qed.

Lemma SFdiv_finite_not_nan (sx sy : bool) (mx my : positive) (ex ey : Z) :
  PyNum.is_nan (SFdiv PyNum.prec PyNum.emax
                      (S754_finite sx mx ex) (S754_finite sy my ey)) = false.
Proof.
  cbn [SFdiv]. unfold SFdiv_core_binary.
  set (e' := Z.min _ _).
  set (m' := match ex - ey - e' with
             | 0 => Zpos mx
             | Zpos _ => Z.shiftl (Zpos mx) (ex - ey - e')
             | Zneg _ => 0
             end).
  assert (Hm' : 0 <= m').
  { unfold m'. destruct (ex - ey - e') as [|p|p] eqn:E; [lia| |lia].
    apply Z.shiftl_nonneg. lia. }
  pose proof (Z.div_mod m' (Zpos my) ltac:(lia)) as Hdm.
  pose proof (Z.mod_pos_bound m' (Zpos my) ltac:(lia)) as Hmod.
  pose proof (Z.div_pos m' (Zpos my) Hm' ltac:(lia)) as Hdiv.
  unfold Z.div, Z.modulo in Hdm, Hmod, Hdiv.
  destruct (Z.div_eucl m' (Zpos my)) as [q r].
  apply (binary_round_aux_not_nan _ _ _ _ (q * Zpos my + r) (Zpos my)).
  apply new_location_represents; lia.
Qed.

(** A decimal literal never rounds to NaN. *)
Lemma of_decimal_not_nan (neg : bool) (m e : Z) :
  PyNum.is_nan (PyNum.of_decimal neg m e) = false.
Proof.
  unfold PyNum.of_decimal. destruct m as [|p|p]; [reflexivity| |reflexivity].
  destruct (0 <=? e).
  - apply binary_normalize_not_nan.
  - apply SFdiv_finite_not_nan.
Qed.

End NoNaN.

Section NaNCells.

Local Open Scope string_scope.

(** A spelling of NaN: optional white space, an optional sign, the letters
    [nan] in any case, optional white space. *)
Definition spells_nan (s : string) : Prop :=
  exists w1 sign body w2,
    s = w1 ++ sign ++ body ++ w2
    /\ all_space w1 = true /\ all_space w2 = true
    /\ (sign = "" \/ sign = "+" \/ sign = "-")
    /\ PyNum.lower_string body = "nan".

Lemma lower_n (c : ascii) :
  PyStr.lower c = "n"%char -> c = "n"%char \/ c = "N"%char.
Proof.
  destruct c as [[] [] [] [] [] [] [] []]; intros H;
    first [discriminate H | now left | now right].
Qed.

Lemma lower_a (c : ascii) :
  PyStr.lower c = "a"%char -> c = "a"%char \/ c = "A"%char.
Proof.
  destruct c as [[] [] [] [] [] [] [] []]; intros H;
    first [discriminate H | now left | now right].
Qed.

(** The eight spellings of the letters. *)
Lemma lower_nan (body : string) :
  PyNum.lower_string body = "nan" ->
  exists c1 c2 c3,
    body = String c1 (String c2 (String c3 ""))
    /\ (c1 = "n" \/ c1 = "N")%char /\ (c2 = "a" \/ c2 = "A")%char
    /\ (c3 = "n" \/ c3 = "N")%char.
Proof.
  destruct body as [|c1 [|c2 [|c3 [|c4 body]]]]; try discriminate.
  cbn [PyNum.lower_string]. intros H. injection H as H1 H2 H3.
  exists c1, c2, c3. split; [reflexivity|].
  split; [now apply lower_n|]. split; [now apply lower_a|now apply lower_n].
Qed.

Lemma parse_sign_split (s : string) :
  exists sign,
    s = sign ++ snd (PyNum.parse_sign s)
    /\ (sign = "" \/ sign = "+" \/ sign = "-").
Proof.
  destruct s as [|c s]; [exists ""; auto|].
  destruct c as [[] [] [] [] [] [] [] []];
    first [ exists "-"; split; [reflexivity|auto]
          | exists "+"; split; [reflexivity|auto]
          | exists ""; split; [reflexivity|auto] ].
Qed.

Lemma after_underscore (s s1 : string) :
  PyNum.remove_underscores "_" s = Some s1 ->
  exists d r, s1 = String d r /\ PyStr.is_digit d = true.
Proof.
  destruct s as [|c s]; [discriminate|]. cbn [PyNum.remove_underscores].
  destruct (Ascii.eqb c "_"); [discriminate|].
  change (Ascii.eqb "_" "_") with true. cbn [andb].
  destruct (PyStr.is_digit c) eqn:E; [|discriminate]. cbn [negb].
  destruct (PyNum.remove_underscores c s) as [t|]; [|discriminate].
  intros H. injection H as <-. eauto.
Qed.

(** Underscores are removed only next to digits: a result without digits
    is the string itself. *)
Lemma remove_underscores_fixed (s : string) :
  forall prev s1,
    PyNum.remove_underscores prev s = Some s1 -> no_digits s1 = true -> s1 = s.
Proof.
  induction s as [|c s IH]; intros prev s1 H Hnd; cbn [PyNum.remove_underscores] in H.
  - destruct (Ascii.eqb prev "_"); [discriminate|]. now injection H as <-.
  - destruct (Ascii.eqb_spec c "_") as [->|Hc].
    + destruct (PyStr.is_digit prev); [|discriminate].
      apply after_underscore in H. destruct H as (d & r & -> & Hd).
      cbn [no_digits] in Hnd. rewrite Hd in Hnd. discriminate.
    + destruct (Ascii.eqb prev "_" && negb (PyStr.is_digit c)); [discriminate|].
      destruct (PyNum.remove_underscores c s) as [t|] eqn:E; [|discriminate].
      injection H as <-. cbn [no_digits] in Hnd.
      apply andb_prop in Hnd. destruct Hnd as [_ Hnd].
      now rewrite (IH c t E Hnd).
Qed.

Lemma remove_underscores_none (s : string) :
  forall prev, prev <> "_"%char -> count_char "_" s = 0%nat ->
               PyNum.remove_underscores prev s = Some s.
Proof.
  induction s as [|c s IH]; intros prev Hprev Hs; cbn [PyNum.remove_underscores].
  - destruct (Ascii.eqb_spec prev "_"); [contradiction|reflexivity].
  - cbn [count_char] in Hs.
    destruct (Ascii.eqb_spec c "_") as [->|Hc]; [discriminate Hs|].
    destruct (Ascii.eqb_spec prev "_"); [contradiction|]. cbn [andb].
    now rewrite (IH c Hc Hs).
Qed.

Lemma all_space_no_digits (w : string) : all_space w = true -> no_digits w = true.
Proof.
  induction w as [|c w IH]; [reflexivity|]. cbn [all_space no_digits].
  intros H. apply andb_prop in H. destruct H as [Hc Hw]. rewrite (IH Hw).
  destruct c as [[] [] [] [] [] [] [] []]; first [discriminate Hc | reflexivity].
Qed.

Lemma all_space_no_underscore (w : string) :
  all_space w = true -> count_char "_" w = 0%nat.
Proof.
  induction w as [|c w IH]; [reflexivity|]. cbn [all_space count_char].
  intros H. apply andb_prop in H. destruct H as [Hc Hw]. rewrite (IH Hw).
  destruct (Ascii.eqb_spec c "_") as [->|]; [discriminate Hc|reflexivity].
Qed.

Lemma no_digits_app (s t : string) :
  no_digits (s ++ t) = no_digits s && no_digits t.
Proof.
  induction s as [|c s IH]; [reflexivity|].
  cbn [String.append no_digits]. now rewrite IH, andb_assoc.
Qed.

(** [strip] gives the middle of a string wrapped in white space. *)
Lemma strip_middle (w1 m w2 : string) :
  all_space w1 = true -> all_space w2 = true ->
  head_ok m = true -> head_ok (PyStr.rev m) = true ->
  PyStr.strip (w1 ++ m ++ w2) = m.
Proof.
  intros Hw1 Hw2 Hm Hr. unfold PyStr.strip.
  rewrite (lstrip_all_space w1 _ Hw1).
  destruct m as [|c m].
  - cbn [String.append].
    rewrite <- (append_empty_r w2), (lstrip_all_space w2 "" Hw2).
    reflexivity.
  - rewrite (lstrip_fixed (String c m ++ w2)) by exact Hm.
    rewrite rev_app, <- (all_space_rev w2) in *.
    rewrite (lstrip_all_space (PyStr.rev w2) _ Hw2).
    rewrite (lstrip_fixed _ Hr). apply rev_involutive.
Qed.

Lemma spells_nan_parses (s : string) :
  spells_nan s -> PyNum.float_of_string s = Ok PyNum.nan.
Proof.
  intros (w1 & sign & body & w2 & -> & Hw1 & Hw2 & Hsign & Hbody).
  rewrite <- (append_assoc sign body w2).
  pose proof (lower_nan body Hbody) as (c1 & c2 & c3 & -> & H1 & H2 & H3).
  unfold PyNum.float_of_string.
  rewrite remove_underscores_none;
    [|discriminate
     |rewrite !count_char_app, (all_space_no_underscore w1 Hw1),
        (all_space_no_underscore w2 Hw2);
      destruct Hsign as [->|[->| ->]]; destruct H1 as [->| ->];
      destruct H2 as [->| ->]; destruct H3 as [->| ->]; reflexivity].
  rewrite (strip_middle w1 (sign ++ String c1 (String c2 (String c3 ""))) w2 Hw1 Hw2);
    [|destruct Hsign as [->|[->| ->]]; destruct H1 as [->| ->]; reflexivity
     |destruct Hsign as [->|[->| ->]]; destruct H3 as [->| ->]; reflexivity].
  destruct Hsign as [->|[->| ->]]; destruct H1 as [->| ->];
    destruct H2 as [->| ->]; destruct H3 as [->| ->]; reflexivity.
Qed.

Lemma nan_parse_spells (s : string) (f : PyNum.float) :
  PyNum.float_of_string s = Ok f -> PyNum.is_nan f = true -> spells_nan s.
Proof.
  unfold PyNum.float_of_string.
  destruct (PyNum.remove_underscores "000" s) as [s1|] eqn:Hs1; [|discriminate].
  destruct (parse_sign_split (PyStr.strip s1)) as (sign & Hsplit & Hsign).
  destruct (PyNum.parse_sign (PyStr.strip s1)) as [neg body]. cbn [snd] in Hsplit.
  unfold PyNum.parse_special.
  destruct (String.eqb _ "inf" || String.eqb _ "infinity").
  { intros H. injection H as <-. discriminate. }
  destruct (String.eqb_spec (PyNum.lower_string body) "nan") as [Hbody|_].
  - intros _ _.
    destruct (strip_split s1) as (w1 & w2 & Hw1 & Hw2 & Hw).
    rewrite Hsplit in Hw.
    assert (Hnd : no_digits s1 = true).
    { rewrite Hw, !no_digits_app, (all_space_no_digits w1 Hw1),
        (all_space_no_digits w2 Hw2).
      pose proof (lower_nan body Hbody) as (c1 & c2 & c3 & -> & H1 & H2 & H3).
      destruct Hsign as [->|[->| ->]]; destruct H1 as [->| ->];
        destruct H2 as [->| ->]; destruct H3 as [->| ->]; reflexivity. }
    rewrite (remove_underscores_fixed s _ s1 Hs1 Hnd) in Hw.
    exists w1, sign, body, w2. rewrite Hw, append_assoc. auto.
  - destruct (PyNum.parse_decimal body) as [[m e]|]; [|discriminate].
    intros H Hnan. injection H as <-.
    now rewrite of_decimal_not_nan in Hnan.
Qed.

(** X19. A cell becomes NaN exactly when it is empty or spells [nan]
    (with an optional sign, in any letter case): a decimal number never
    rounds to NaN, and an infinity is not one. *)
Theorem nan_cells (cell : string) :
  (exists f, cell_to_float cell = Ok f /\ PyNum.is_nan f = true)
  <-> cell = "" \/ spells_nan cell.
Proof.
  unfold cell_to_float. split.
  - intros (f & Hf & Hnan). destruct cell as [|c cell]; [now left|]. right.
    cbn [PyStr.truthy] in Hf. exact (nan_parse_spells _ f Hf Hnan).
  - intros [->|H].
    + exists PyNum.nan. split; reflexivity.
    + exists PyNum.nan. split; [|reflexivity].
      destruct cell as [|c cell]; [reflexivity|]. cbn [PyStr.truthy].
      now apply spells_nan_parses.
Qed.

Lemma nan_cells_witness :
  (exists f, cell_to_float "-NaN" = Ok f /\ PyNum.is_nan f = true)
  /\ ~ spells_nan "1e400".
Proof.
  split.
  - apply nan_cells. right. exists "", "-", "NaN", "". repeat split; auto.
  - intros H.
    assert (Hn : exists f, cell_to_float "1e400" = Ok f /\ PyNum.is_nan f = true)
      by (apply nan_cells; now right).
    destruct Hn as (f & Hf & Hnan). vm_compute in Hf. injection Hf as <-.
    discriminate Hnan.
Defined.

End NaNCells.

(** ** Failures and short files *)

Section FileEdges.

Variable max_str_digits : nat.
Variable read_text : Path -> result string.
Variable butter : nat -> PyNum.float -> result (list PyNum.float * list PyNum.float).
Variable filtfilt_kernel :
  list PyNum.float -> list PyNum.float -> list PyNum.float -> result (list PyNum.float).

Local Abbreviation run_file :=
  (process_csv_file max_str_digits read_text butter filtfilt_kernel).
Local Abbreviation filter_signal :=
  (apply_butterworth_filter butter filtfilt_kernel).

Lemma bind_raise_inv {A B} (m : M A) (f : A -> M B) (e : exn) :
  outcome (bind m f) = Raise e ->
  outcome m = Raise e \/ exists a, outcome m = Ok a /\ outcome (f a) = Raise e.
Proof.
  destruct m as [l [a|e']].
  - rewrite bind_ok. cbn [outcome snd]. intros H. right. eauto.
  - intros H. left. cbn in H. injection H as ->. reflexivity.
Qed.

Lemma last_app_singleton {A} (l : list A) (x d : A) : last (l ++ [x]) d = x.
Proof. apply last_last. Qed.

(** X20. Nothing in the parsing of a file makes [process_csv_file] fail:
    when it raises, either the file could not be read, or its window is not
    empty and the filter of the ML or of the AP signal raised; the
    exception is the original one, and the last line printed reports
    it. *)
Theorem failure_only_from_read_or_filter
  (filepath : Path) (session : string) (e : exn) :
  outcome (run_file filepath session) = Raise e ->
  (read_text filepath = Raise e
   \/ exists text,
        read_text filepath = Ok text
        /\ window_time (tokenize text) <> []
        /\ (outcome (filter_signal
                       (window_ml (tokenize text))
                       (sampling_rate_of max_str_digits
                                         (metadata_row_of (tokenize text))))
            = Raise e
            \/ outcome (filter_signal
                          (window_ap (tokenize text))
                          (sampling_rate_of max_str_digits
                                            (metadata_row_of (tokenize text))))
               = Raise e))
  /\ last (log_of (run_file filepath session)) (Print (MsgProcessing ""))
     = Print (MsgErrorDetails e).
Proof.
  rewrite process_csv_file_spec.
  destruct (read_text filepath) as [text|e'] eqn:Hread.
  - cbv zeta. cbn [outcome log_of fst snd]. intros H. rewrite H.
    split; [|rewrite app_comm_cons; apply last_app_singleton].
    right. exists text. split; [reflexivity|].
    rewrite process_rows_spec in H. cbn [outcome snd] in H.
    destruct (outcome (filter_step _ _ _ _)) as [filtered|e''] eqn:E;
      [discriminate|]. injection H as ->.
    assert (Hne : window_time (tokenize text) <> []).
    { intros Hnil. rewrite (filter_step_empty _ _ _ _ Hnil) in E. discriminate E. }
    split; [exact Hne|].
    rewrite (filter_step_nonempty _ _ _ _ Hne) in E.
    apply bind_raise_inv in E. destruct E as [E|(ml & _ & E)]; [now left|].
    apply bind_raise_inv in E. destruct E as [E|(ap & _ & E)]; [now right|].
    discriminate E.
  - cbn [outcome log_of fst snd]. intros H. injection H as ->.
    split; [now left|reflexivity].
Qed.

Lemma skipn_short {A} (n : nat) (l : list A) :
  (List.length l <= n)%nat -> skipn n l = [].
Proof. apply skipn_all2. Qed.

(** X21. A file of at most four lines (an empty file included) is not an
    error: [process_csv_file] returns a record with no sample at all, and
    warns that the window is empty.  With at most one line there is no
    metadata row either: the rate is 1500 and the trial name is empty. *)
Theorem header_only_file (filepath : Path) (session text : string) :
  read_text filepath = Ok text ->
  (List.length (PyStr.lines text) <= 4)%nat ->
  exists r,
    outcome (run_file filepath session) = Ok r
    /\ time_raw r = [] /\ ml_raw r = [] /\ ap_raw r = []
    /\ time_trimmed r = [] /\ ml_filtered r = [] /\ ap_filtered r = []
    /\ In (Warn (MsgNoDataInWindow start_time end_time))
          (log_of (run_file filepath session))
    /\ ((List.length (PyStr.lines text) <= 1)%nat ->
        sampling_rate r = expected_sampling_rate /\ trial_name r = "").
Proof.
  intros Hread Hlen.
  assert (Hrows : List.length (tokenize text) = List.length (PyStr.lines text))
    by (unfold tokenize; apply length_map).
  assert (Hkept : kept_rows (tokenize text) = []).
  { unfold kept_rows, data_rows_of.
    rewrite skipn_short by (rewrite Hrows; exact Hlen). reflexivity. }
  assert (Hwin : window_time (tokenize text) = [])
    by (unfold window_time, raw_time; rewrite Hkept; reflexivity).
  rewrite process_csv_file_spec, Hread. cbv zeta.
  rewrite process_rows_spec. cbn [outcome log_of fst snd].
  rewrite (filter_step_empty _ _ _ _ Hwin). cbn [outcome log_of fst snd].
  eexists. split; [reflexivity|]. cbn [record_of time_raw ml_raw ap_raw time_trimmed
                                        ml_filtered ap_filtered fst snd
                                        sampling_rate trial_name].
  unfold raw_time, raw_ml, raw_ap. rewrite Hkept, Hwin.
  repeat (split; [reflexivity|]).
  split.
  - right. rewrite app_nil_r. apply in_or_app. right. now left.
  - intros Hone.
    assert (Hmeta : metadata_row_of (tokenize text) = []).
    { unfold metadata_row_of. rewrite Hrows.
      destruct (Nat.ltb_spec 1 (List.length (PyStr.lines text))); [lia|reflexivity]. }
    rewrite Hmeta. split; reflexivity.
Qed.

End FileEdges.

Definition unreadable (_ : Path) : result string := Raise OSError.

Lemma failure_only_from_read_or_filter_witness :
  last (log_of (process_csv_file 4300 unreadable flat_butter identity_kernel
                                 sample_path "baseline"))
       (Print (MsgProcessing ""))
  = Print (MsgErrorDetails OSError).
Proof.
  apply (failure_only_from_read_or_filter 4300 unreadable flat_butter
           identity_kernel sample_path "baseline" OSError).
  reflexivity.
Defined.

Lemma header_only_file_witness :
  exists r,
    outcome (process_csv_file 4300 (fun _ => Ok "") flat_butter identity_kernel
                              sample_path "baseline") = Ok r
    /\ time_raw r = [] /\ subject_id r = "exgm047"
    /\ sampling_rate r = expected_sampling_rate /\ trial_name r = "".
Proof.
  destruct (header_only_file 4300 (fun _ => Ok "") flat_butter identity_kernel
              sample_path "baseline" "" eq_refl)
    as (r & Hr & Ht & _ & _ & _ & _ & _ & _ & Hmeta).
  - cbn. lia.
  - exists r. split; [exact Hr|]. split; [exact Ht|].
    destruct Hmeta as [Hrate Htrial]; [cbn; lia|].
    split; [|split; assumption].
    vm_compute in Hr. injection Hr as <-. reflexivity.
Defined.


(** ** The handlers of the Metadata Parser *)

Lemma not_in_cons {A} (x y : A) (l : list A) : x <> y -> ~ In x l -> ~ In x (y :: l).
Proof. intros Hxy Hl [H|H]; [apply Hxy; now symmetry|now apply Hl]. Qed.

(** X22. Steps 2 and 3 of the Metadata Parser never enter their [except]
    handlers: the length test in front of each indexing keeps the index in
    range, so the lines that the subject id or the trial name could not be
    read are never printed and the value [unknown] that the handlers
    assign is never used.  A row without the cell gives the empty string
    instead: its trial name is empty, and so is its subject id unless the
    file name supplies one. *)
Theorem unknown_handlers_unreachable
        (filename : string) (metadata_row : list string) :
  ~ In (Print MsgSubjectUnread) (log_of (read_subject_id filename metadata_row))
  /\ ~ In (Print MsgTrialUnread) (log_of (read_trial_name metadata_row))
  /\ ((List.length metadata_row <= 7)%nat ->
      outcome (read_subject_id filename metadata_row)
      = Ok (match Re.search_exgm filename with
            | Some m => m
            | None => ""
            end))
  /\ ((List.length metadata_row <= 12)%nat ->
      outcome (read_trial_name metadata_row) = Ok "").
Proof.
  pose proof (read_subject_id_spec filename metadata_row) as Hs. cbv zeta in Hs.
  split; [|split; [|split]].
  - rewrite Hs. destruct (validate_subject_id _); [intros []|].
    destruct (Re.search_exgm filename);
      repeat (apply not_in_cons; [discriminate|]); intros [].
  - rewrite read_trial_name_spec. cbn [log_of fst].
    destruct (validate_trial_name _); [intros []|].
    apply not_in_cons; [discriminate|intros []].
  - intros H. rewrite Hs. unfold parsed_subject_id.
    rewrite cell_at_short by exact H.
    change (validate_subject_id (PyStr.strip "")) with false.
    destruct (Re.search_exgm filename); reflexivity.
  - intros H. rewrite read_trial_name_spec. unfold trial_name_of.
    rewrite cell_at_short by exact H. reflexivity.
Qed.

Lemma unknown_handlers_unreachable_witness :
  outcome (read_subject_id "trial_07.csv" ["a"; "b"; "1500 Hz"]) = Ok ""
  /\ outcome (read_trial_name ["a"; "b"; "1500 Hz"]) = Ok "".
Proof.
  destruct (unknown_handlers_unreachable "trial_07.csv" ["a"; "b"; "1500 Hz"])
    as (_ & _ & Hsubject & Htrial).
  split; [apply Hsubject; cbn; lia|apply Htrial; cbn; lia].
Defined.
